(** * R-Car MIPI CSI-2 receiver (drivers/media/platform/rcar-vin/rcar-csi2.c)

    A shallow embedding of the PHY/link bring-up core of the driver:
    speed-table lookups, the PHTW indirect-register channel, the
    per-generation bring-up sequences, stream reference counting and the
    two-stage fault interrupt.  Hardware and collaborators are an
    environment that answers every read and every call from the history
    of events so far; driver code is a state monad over that history. *)

From Stdlib Require Import ZArith List Bool Lia String QArith Qround.
Import ListNotations.
Local Open Scope string_scope.
Local Open Scope list_scope.
Local Open Scope Z_scope.

(* ================================================================== *)
(** ** Machine integers *)

Definition u16 (x : Z) : Z := x mod 2 ^ 16.
Definition u32 (x : Z) : Z := x mod 2 ^ 32.
Definition u64 (x : Z) : Z := x mod 2 ^ 64.

(** Conversion of a 64-bit or 32-bit unsigned value to C [int]. *)
Definition to_int (x : Z) : Z := (x + 2 ^ 31) mod 2 ^ 32 - 2 ^ 31.

Definition BIT (n : Z) : Z := Z.shiftl 1 n.
Definition GENMASK (h l : Z) : Z := Z.shiftl (Z.ones (h - l + 1)) l.

(** C truth value of an integer expression. *)
Definition truthy (x : Z) : bool := negb (x =? 0).

(** Modelled from the spec: the macro [do_div(n, base)] of
    include/asm-generic/div64.h is not part of src/; the spec has it as
    integer division.  The macro stores [base] in a [uint32_t] and
    divides the 64-bit [n] by it; only the quotient left in [n] is used by
    this driver.  [base32] is the divisor as that [uint32_t].  A zero
    divisor traps in C and gives 0 here: the theorems on rates assume a
    divisor that is not zero. *)
Definition do_div (n base32 : Z) : Z := u64 n / base32.

(** A C [double] constant converted to [uint32_t], as the initialisation
    of the macro's [__base] does: the fraction is dropped. *)
Definition double_to_u32 (q : Q) : Z := u32 (Qfloor q).

(** Modelled from the spec: the errno codes of include/uapi/asm-generic/
    errno-base.h, errno.h and include/linux/errno.h, which are not part
    of src/.  The spec names them OutOfRange, Timeout and
    InvalidConfiguration. *)
Definition ENODEV : Z := 19.
Definition EINVAL : Z := 22.
Definition ERANGE : Z := 34.
Definition ENOTCONN : Z := 107.
Definition ETIMEDOUT : Z := 110.
Definition ENOIOCTLCMD : Z := 515.

(* ================================================================== *)
(** ** Events and the environment *)

Inductive log_level := KERN_DEBUG | KERN_INFO | KERN_WARNING | KERN_ERR.

Inductive event :=
| EvWrite32 (reg data : Z)            (* iowrite32 *)
| EvWrite16 (reg data : Z)            (* iowrite16 *)
| EvRead32 (reg value : Z)            (* ioread32 *)
| EvRead16 (reg value : Z)            (* ioread16 *)
| EvSleep (lo hi : Z)                 (* usleep_range *)
| EvLog (lvl : log_level) (fmt : string) (args : list Z)  (* dev_dbg .. dev_err; no newline *)
| EvResetAssert                       (* reset_control_assert *)
| EvResetDeassert                     (* reset_control_deassert *)
| EvPmGet                             (* pm_runtime_get_sync *)
| EvPmPut                             (* pm_runtime_put *)
| EvSubdevStream (enable ret : Z)     (* v4l2_subdev_call(remote, video, s_stream, _) *)
| EvCamStart (ret : Z)                (* csi2cam_start *)
| EvCamStop                           (* csi2cam_stop *)
| EvPixelRate (found : bool) (rate : Z) (* v4l2_ctrl_find + v4l2_ctrl_g_ctrl_int64 *)
| EvMbusConfig (ret type flags : Z)   (* v4l2_subdev_call(remote, pad, get_mbus_config, _) *)
| EvLock                              (* mutex_lock(&priv->lock) *)
| EvUnlock.                           (* mutex_unlock(&priv->lock) *)

Definition trace := list event.

(** What the hardware and the collaborators answer, given everything
    that happened so far. *)
Record environment := {
  env_ioread32 : trace -> Z -> Z;
  env_ioread16 : trace -> Z -> Z;
  env_s_stream : trace -> Z -> Z;
  env_csi2cam_start : trace -> Z;
  env_pixel_rate : trace -> option Z;
  env_get_mbus_config : trace -> Z * Z * Z
}.

(** The driver monad: a computation reads the history and extends it. *)
Definition M (A : Type) : Type := trace -> A * trace.

Definition ret {A} (a : A) : M A := fun tr => (a, tr).
Definition bind {A B} (m : M A) (f : A -> M B) : M B :=
  fun tr => let (a, tr') := m tr in f a tr'.
Definition emit (e : event) : M unit := fun tr => (tt, tr ++ [e]).

Declare Scope drv_scope.
Delimit Scope drv_scope with drv.
Notation "x <- m ;; k" := (bind m (fun x => k))
  (at level 100, m at next level, right associativity) : drv_scope.
Notation "m ;; k" := (bind m (fun _ => k))
  (at level 100, right associativity) : drv_scope.
Local Open Scope drv_scope.

Definition when (b : bool) (m : M unit) : M unit := if b then m else ret tt.

Definition dev_dbg (fmt : string) (args : list Z) : M unit := emit (EvLog KERN_DEBUG fmt args).
Definition dev_info (fmt : string) (args : list Z) : M unit := emit (EvLog KERN_INFO fmt args).
Definition dev_warn (fmt : string) (args : list Z) : M unit := emit (EvLog KERN_WARNING fmt args).
Definition dev_err (fmt : string) (args : list Z) : M unit := emit (EvLog KERN_ERR fmt args).
Definition usleep_range (lo hi : Z) : M unit := emit (EvSleep lo hi).

(* ================================================================== *)
(** ** Data model *)

Record rcsi2_mbps_reg := { mbps : Z; reg : Z }.
Record phtw_value := { data : Z; code : Z }.

(** The zero-initialised sentinel entry that ends every table. *)
Definition mbps_sentinel : rcsi2_mbps_reg := {| mbps := 0; reg := 0 |}.
Definition phtw_sentinel : phtw_value := {| data := 0; code := 0 |}.

Definition MR (m r : Z) : rcsi2_mbps_reg := {| mbps := m; reg := r |}.
Definition PV (d c : Z) : phtw_value := {| data := d; code := c |}.

Record rcsi2_cphy_setting := {
  msps : Z;
  rw_hs_rx_2 : Z;
  rw_trio_0 : Z;
  rw_trio_1 : Z;
  rw_trio_2 : Z;
  afe_lane0_29 : Z;
  afe_lane0_27 : Z
}.

Definition CSI2_CPHY_SETTING (ms rx2 t0 t1 t2 a29 a27 : Z) : rcsi2_cphy_setting :=
  {| msps := ms; rw_hs_rx_2 := rx2; rw_trio_0 := t0; rw_trio_1 := t1;
     rw_trio_2 := t2; afe_lane0_29 := a29; afe_lane0_27 := a27 |}.

Definition cphy_sentinel : rcsi2_cphy_setting := CSI2_CPHY_SETTING 0 0 0 0 0 0 0.

Definition cphy_setting_table_r8a779g0 : list rcsi2_cphy_setting :=
  [ CSI2_CPHY_SETTING 80 0x0038 0x0200 0x0134 0x006a 0x0000 0x0000;
    CSI2_CPHY_SETTING 100 0x0038 0x0200 0x00f5 0x0055 0x0000 0x0000;
    CSI2_CPHY_SETTING 200 0x0038 0x0200 0x0077 0x002b 0x0000 0x0000;
    CSI2_CPHY_SETTING 300 0x0038 0x0200 0x004d 0x001d 0x0000 0x0000;
    CSI2_CPHY_SETTING 400 0x0038 0x0200 0x0038 0x0016 0x0000 0x0000;
    CSI2_CPHY_SETTING 500 0x0038 0x0200 0x002c 0x0012 0x0000 0x0000;
    CSI2_CPHY_SETTING 600 0x0038 0x0200 0x0023 0x000f 0x0000 0x0000;
    CSI2_CPHY_SETTING 700 0x0038 0x0200 0x001d 0x000d 0x0000 0x0000;
    CSI2_CPHY_SETTING 800 0x0038 0x0200 0x0019 0x000c 0x0000 0x0000;
    CSI2_CPHY_SETTING 900 0x0038 0x0200 0x0015 0x000b 0x0000 0x0000;
    CSI2_CPHY_SETTING 1000 0x003e 0x0200 0x0013 0x000a 0x0000 0x0400;
    CSI2_CPHY_SETTING 1100 0x0044 0x0200 0x0010 0x0009 0x0000 0x0800;
    CSI2_CPHY_SETTING 1200 0x004a 0x0200 0x000e 0x0008 0x0000 0x0c00;
    CSI2_CPHY_SETTING 1300 0x0051 0x0200 0x000d 0x0008 0x0000 0x0c00;
    CSI2_CPHY_SETTING 1400 0x0057 0x0200 0x000b 0x0007 0x0000 0x1000;
    CSI2_CPHY_SETTING 1500 0x005d 0x0400 0x000a 0x0007 0x0000 0x1000;
    CSI2_CPHY_SETTING 1600 0x0063 0x0400 0x0009 0x0007 0x0000 0x1400;
    CSI2_CPHY_SETTING 1700 0x006a 0x0400 0x0008 0x0006 0x0000 0x1400;
    CSI2_CPHY_SETTING 1800 0x0070 0x0400 0x0007 0x0006 0x0000 0x1400;
    CSI2_CPHY_SETTING 1900 0x0076 0x0400 0x0007 0x0006 0x0000 0x1400;
    CSI2_CPHY_SETTING 2000 0x007c 0x0400 0x0006 0x0006 0x0000 0x1800;
    CSI2_CPHY_SETTING 2100 0x0083 0x0400 0x0005 0x0005 0x0000 0x1800;
    CSI2_CPHY_SETTING 2200 0x0089 0x0600 0x0005 0x0005 0x0000 0x1800;
    CSI2_CPHY_SETTING 2300 0x008f 0x0600 0x0004 0x0005 0x0000 0x1800;
    CSI2_CPHY_SETTING 2400 0x0095 0x0600 0x0004 0x0005 0x0000 0x1800;
    CSI2_CPHY_SETTING 2500 0x009c 0x0600 0x0004 0x0005 0x0000 0x1c00;
    CSI2_CPHY_SETTING 2600 0x00a2 0x0600 0x0003 0x0005 0x0010 0x1c00;
    CSI2_CPHY_SETTING 2700 0x00a8 0x0600 0x0003 0x0005 0x0010 0x1c00;
    CSI2_CPHY_SETTING 2800 0x00ae 0x0600 0x0002 0x0004 0x0010 0x1c00;
    CSI2_CPHY_SETTING 2900 0x00b5 0x0800 0x0002 0x0004 0x0010 0x1c00;
    CSI2_CPHY_SETTING 3000 0x00bb 0x0800 0x0002 0x0004 0x0010 0x1c00;
    CSI2_CPHY_SETTING 3100 0x00c1 0x0800 0x0002 0x0004 0x0010 0x1c00;
    CSI2_CPHY_SETTING 3200 0x00c7 0x0800 0x0001 0x0004 0x0010 0x1c00;
    CSI2_CPHY_SETTING 3300 0x00ce 0x0800 0x0001 0x0004 0x0010 0x1c00;
    CSI2_CPHY_SETTING 3400 0x00d4 0x0800 0x0001 0x0004 0x0010 0x1c00;
    CSI2_CPHY_SETTING 3500 0x00da 0x0800 0x0001 0x0004 0x0010 0x1c00;
    cphy_sentinel ].

(** *** Speed tables *)

Definition phtw_mbps_v3u : list rcsi2_mbps_reg :=
  [ MR 1500 0xcc; MR 1550 0x1d; MR 1600 0x27; MR 1650 0x30; MR 1700 0x39;
    MR 1750 0x42; MR 1800 0x4b; MR 1850 0x55; MR 1900 0x5e; MR 1950 0x67;
    MR 2000 0x71; MR 2050 0x79; MR 2100 0x83; MR 2150 0x8c; MR 2200 0x95;
    MR 2250 0x9e; MR 2300 0xa7; MR 2350 0xb0; MR 2400 0xba; MR 2450 0xc3;
    MR 2500 0xcc; mbps_sentinel ].

Definition phtw_mbps_h3_v3h_m3n : list rcsi2_mbps_reg :=
  [ MR 80 0x86; MR 90 0x86; MR 100 0x87; MR 110 0x87; MR 120 0x88;
    MR 130 0x88; MR 140 0x89; MR 150 0x89; MR 160 0x8a; MR 170 0x8a;
    MR 180 0x8b; MR 190 0x8b; MR 205 0x8c; MR 220 0x8d; MR 235 0x8e;
    MR 250 0x8e; mbps_sentinel ].

Definition phtw_mbps_v3m_e3 : list rcsi2_mbps_reg :=
  [ MR 80 0x00; MR 90 0x20; MR 100 0x40; MR 110 0x02; MR 130 0x22;
    MR 140 0x42; MR 150 0x04; MR 170 0x24; MR 180 0x44; MR 200 0x06;
    MR 220 0x26; MR 240 0x46; MR 250 0x08; MR 270 0x28; MR 300 0x0a;
    MR 330 0x2a; MR 360 0x4a; MR 400 0x0c; MR 450 0x2c; MR 500 0x0e;
    MR 550 0x2e; MR 600 0x10; MR 650 0x30; MR 700 0x12; MR 750 0x32;
    MR 800 0x52; MR 850 0x72; MR 900 0x14; MR 950 0x34; MR 1000 0x54;
    MR 1050 0x74; MR 1125 0x16; mbps_sentinel ].

Definition hsfreqrange_v3u : list rcsi2_mbps_reg :=
  [ MR 80 0x00; MR 90 0x10; MR 100 0x20; MR 110 0x30; MR 120 0x01;
    MR 130 0x11; MR 140 0x21; MR 150 0x31; MR 160 0x02; MR 170 0x12;
    MR 180 0x22; MR 190 0x32; MR 205 0x03; MR 220 0x13; MR 235 0x23;
    MR 250 0x33; MR 275 0x04; MR 300 0x14; MR 325 0x25; MR 350 0x35;
    MR 400 0x05; MR 450 0x16; MR 500 0x26; MR 550 0x37; MR 600 0x07;
    MR 650 0x18; MR 700 0x28; MR 750 0x39; MR 800 0x09; MR 850 0x19;
    MR 900 0x29; MR 950 0x3a; MR 1000 0x0a; MR 1050 0x1a; MR 1100 0x2a;
    MR 1150 0x3b; MR 1200 0x0b; MR 1250 0x1b; MR 1300 0x2b; MR 1350 0x3c;
    MR 1400 0x0c; MR 1450 0x1c; MR 1500 0x2c; MR 1550 0x3d; MR 1600 0x0d;
    MR 1650 0x1d; MR 1700 0x2e; MR 1750 0x3e; MR 1800 0x0e; MR 1850 0x1e;
    MR 1900 0x2f; MR 1950 0x3f; MR 2000 0x0f; MR 2050 0x40; MR 2100 0x41;
    MR 2150 0x42; MR 2200 0x43; MR 2300 0x45; MR 2350 0x46; MR 2400 0x47;
    MR 2450 0x48; MR 2500 0x49; mbps_sentinel ].

Definition hsfreqrange_h3_v3h_m3n : list rcsi2_mbps_reg :=
  [ MR 80 0x00; MR 90 0x10; MR 100 0x20; MR 110 0x30; MR 120 0x01;
    MR 130 0x11; MR 140 0x21; MR 150 0x31; MR 160 0x02; MR 170 0x12;
    MR 180 0x22; MR 190 0x32; MR 205 0x03; MR 220 0x13; MR 235 0x23;
    MR 250 0x33; MR 275 0x04; MR 300 0x14; MR 325 0x25; MR 350 0x35;
    MR 400 0x05; MR 450 0x16; MR 500 0x26; MR 550 0x37; MR 600 0x07;
    MR 650 0x18; MR 700 0x28; MR 750 0x39; MR 800 0x09; MR 850 0x19;
    MR 900 0x29; MR 950 0x3a; MR 1000 0x0a; MR 1050 0x1a; MR 1100 0x2a;
    MR 1150 0x3b; MR 1200 0x0b; MR 1250 0x1b; MR 1300 0x2b; MR 1350 0x3c;
    MR 1400 0x0c; MR 1450 0x1c; MR 1500 0x2c; mbps_sentinel ].

Definition hsfreqrange_m3w_h3es1 : list rcsi2_mbps_reg :=
  [ MR 80 0x00; MR 90 0x10; MR 100 0x20; MR 110 0x30; MR 120 0x01;
    MR 130 0x11; MR 140 0x21; MR 150 0x31; MR 160 0x02; MR 170 0x12;
    MR 180 0x22; MR 190 0x32; MR 205 0x03; MR 220 0x13; MR 235 0x23;
    MR 250 0x33; MR 275 0x04; MR 300 0x14; MR 325 0x05; MR 350 0x15;
    MR 400 0x25; MR 450 0x06; MR 500 0x16; MR 550 0x07; MR 600 0x17;
    MR 650 0x08; MR 700 0x18; MR 750 0x09; MR 800 0x19; MR 850 0x29;
    MR 900 0x39; MR 950 0x0a; MR 1000 0x1a; MR 1050 0x2a; MR 1100 0x3a;
    MR 1150 0x0b; MR 1200 0x1b; MR 1250 0x2b; MR 1300 0x3b; MR 1350 0x0c;
    MR 1400 0x1c; MR 1450 0x2c; MR 1500 0x3c; mbps_sentinel ].

Definition hsfreqrange_v4m : list rcsi2_mbps_reg :=
  [ MR 80 0x00; MR 90 0x10; MR 100 0x20; MR 110 0x30; MR 120 0x01;
    MR 130 0x11; MR 140 0x21; MR 150 0x31; MR 160 0x02; MR 170 0x12;
    MR 180 0x22; MR 190 0x32; MR 205 0x03; MR 220 0x13; MR 235 0x23;
    MR 250 0x33; MR 275 0x04; MR 300 0x14; MR 325 0x25; MR 350 0x35;
    MR 400 0x05; MR 450 0x16; MR 500 0x26; MR 550 0x37; MR 600 0x07;
    MR 650 0x18; MR 700 0x28; MR 750 0x39; MR 800 0x09; MR 850 0x19;
    MR 900 0x29; MR 950 0x3a; MR 1000 0x0a; MR 1050 0x1a; MR 1100 0x2a;
    MR 1150 0x3b; MR 1200 0x0b; MR 1250 0x1b; MR 1300 0x2b; MR 1350 0x3c;
    MR 1400 0x0c; MR 1450 0x1c; MR 1500 0x2c; MR 1550 0x3d; MR 1600 0x0d;
    MR 1650 0x1d; MR 1700 0x2e; MR 1750 0x3e; MR 1800 0x0e; MR 1850 0x1e;
    MR 1900 0x2f; MR 1950 0x3f; MR 2000 0x0f; MR 2050 0x40; MR 2100 0x41;
    MR 2150 0x42; MR 2200 0x43; MR 2250 0x44; MR 2300 0x45; MR 2350 0x46;
    MR 2400 0x47; MR 2450 0x48; MR 2500 0x49; mbps_sentinel ].

Definition osc_freq_target_v4m : list rcsi2_mbps_reg :=
  [ MR 80 0x1a9; MR 90 0x1a9; MR 100 0x1a9; MR 110 0x1a9; MR 120 0x1a9;
    MR 130 0x1a9; MR 140 0x1a9; MR 150 0x1a9; MR 160 0x1a9; MR 170 0x1a9;
    MR 180 0x1a9; MR 190 0x1a9; MR 205 0x1a9; MR 220 0x1a9; MR 235 0x1a9;
    MR 250 0x1a9; MR 275 0x1a9; MR 300 0x1a9; MR 325 0x1a9; MR 350 0x1a9;
    MR 400 0x1a9; MR 450 0x1a9; MR 500 0x1a9; MR 550 0x1a9; MR 600 0x1a9;
    MR 650 0x1a9; MR 700 0x1a9; MR 750 0x1a9; MR 800 0x1a9; MR 850 0x1a9;
    MR 900 0x1a9; MR 950 0x1a9; MR 1000 0x1a9; MR 1050 0x1a9; MR 1100 0x1a9;
    MR 1150 0x1a9; MR 1200 0x1a9; MR 1250 0x1a9; MR 1300 0x1a9; MR 1350 0x1a9;
    MR 1400 0x1a9; MR 1450 0x1a9; MR 1500 0x1a9; MR 1550 0x108; MR 1600 0x110;
    MR 1650 0x119; MR 1700 0x121; MR 1750 0x12a; MR 1800 0x132; MR 1850 0x13b;
    MR 1900 0x143; MR 1950 0x14c; MR 2000 0x154; MR 2050 0x15d; MR 2100 0x165;
    MR 2150 0x16e; MR 2200 0x176; MR 2250 0x17f; MR 2300 0x187; MR 2350 0x190;
    MR 2400 0x198; MR 2450 0x1a1; MR 2500 0x1a9; mbps_sentinel ].


(** *** Formats *)

Record rcar_csi2_format := { fmt_code : Z; datatype : Z; bpp : Z }.

(** Modelled from the spec: the media bus codes of
    include/uapi/linux/media-bus-format.h, which is not part of src/; the
    spec only says that a format is looked up by its pixel encoding.  No
    theorem below depends on the numeric values. *)
Definition MEDIA_BUS_FMT_RGB888_1X24 : Z := 0x100a.
Definition MEDIA_BUS_FMT_UYVY8_1X16 : Z := 0x200f.
Definition MEDIA_BUS_FMT_YUYV8_1X16 : Z := 0x2011.
Definition MEDIA_BUS_FMT_UYVY8_2X8 : Z := 0x2006.
Definition MEDIA_BUS_FMT_YUYV10_2X10 : Z := 0x200b.
Definition MEDIA_BUS_FMT_Y10_1X10 : Z := 0x200a.
Definition MEDIA_BUS_FMT_SBGGR8_1X8 : Z := 0x3001.
Definition MEDIA_BUS_FMT_SGBRG8_1X8 : Z := 0x3013.
Definition MEDIA_BUS_FMT_SGRBG8_1X8 : Z := 0x3002.
Definition MEDIA_BUS_FMT_SRGGB8_1X8 : Z := 0x3014.
Definition MEDIA_BUS_FMT_Y8_1X8 : Z := 0x2001.

Definition FMT (c dt b : Z) : rcar_csi2_format := {| fmt_code := c; datatype := dt; bpp := b |}.

Definition rcar_csi2_formats : list rcar_csi2_format :=
  [ FMT MEDIA_BUS_FMT_RGB888_1X24 0x24 24;
    FMT MEDIA_BUS_FMT_UYVY8_1X16 0x1e 16;
    FMT MEDIA_BUS_FMT_YUYV8_1X16 0x1e 16;
    FMT MEDIA_BUS_FMT_UYVY8_2X8 0x1e 16;
    FMT MEDIA_BUS_FMT_YUYV10_2X10 0x1e 20;
    FMT MEDIA_BUS_FMT_Y10_1X10 0x2b 10;
    FMT MEDIA_BUS_FMT_SBGGR8_1X8 0x2a 8;
    FMT MEDIA_BUS_FMT_SGBRG8_1X8 0x2a 8;
    FMT MEDIA_BUS_FMT_SGRBG8_1X8 0x2a 8;
    FMT MEDIA_BUS_FMT_SRGGB8_1X8 0x2a 8;
    FMT MEDIA_BUS_FMT_Y8_1X8 0x2a 8 ].

(** NULL is [None]. *)
Definition rcsi2_code_to_fmt (c : Z) : option rcar_csi2_format :=
  find (fun f => fmt_code f =? c) rcar_csi2_formats.

(** *** C-PHY pin swap tables *)

Definition ABC : Z := 0x0.
Definition CBA : Z := 0x1.
Definition ACB : Z := 0x2.
Definition CAB : Z := 0x3.
Definition BAC : Z := 0x4.
Definition BCA : Z := 0x5.

Record rcar_csi2_pin_swap := {
  ps_code : Z;
  rw_cfg0_b2_0 : Z;
  rw_cfg0_b3 : Z;
  afe_clane_29_b8 : Z
}.

Definition PS (c b20 b3 b8 : Z) : rcar_csi2_pin_swap :=
  {| ps_code := c; rw_cfg0_b2_0 := b20; rw_cfg0_b3 := b3; afe_clane_29_b8 := b8 |}.

Definition rcar_csi2_pin_swaps : list rcar_csi2_pin_swap :=
  [ PS ABC 0x0 0x0 0x0;
    PS CBA 0x1 0x1 0x1;
    PS ACB 0x2 0x1 0x1;
    PS CAB 0x3 0x0 0x0;
    PS BAC 0x4 0x1 0x1;
    PS BCA 0x5 0x0 0x0 ].

Record rcar_csi2_cphy_specific := {
  trio : Z;
  hs_receive_reg : Z;
  pin_swap_reg : Z;
  ctrl27_reg : Z;
  rwconf_reg : Z
}.

(* ================================================================== *)
(** ** Register offsets and bits *)

Definition TREF_REG : Z := 0x00.
Definition TREF_TREF : Z := BIT 0.
Definition PHYCNT_REG : Z := 0x08.
Definition PHYCNT_SHUTDOWNZ : Z := BIT 17.
Definition PHYCNT_RSTZ : Z := BIT 16.
Definition PHYCNT_ENABLECLK : Z := BIT 4.
Definition VCDT_REG : Z := 0x10.
Definition VCDT2_REG : Z := 0x14.
Definition VCDT_VCDTN_EN : Z := BIT 15.
Definition VCDT_SEL_VC (n : Z) : Z := Z.shiftl (Z.land n 0x3) 8.
Definition VCDT_SEL_DTN_ON : Z := BIT 6.
Definition VCDT_SEL_DT (n : Z) : Z := Z.shiftl (Z.land n 0x3f) 0.
Definition FLD_REG : Z := 0x1c.
Definition FLD_FLD_NUM (n : Z) : Z := Z.shiftl (Z.land n 0xff) 16.
Definition FLD_DET_SEL (n : Z) : Z := Z.shiftl (Z.land n 0x3) 4.
Definition FLD_FLD_EN4 : Z := BIT 3.
Definition FLD_FLD_EN3 : Z := BIT 2.
Definition FLD_FLD_EN2 : Z := BIT 1.
Definition FLD_FLD_EN : Z := BIT 0.
Definition INTEN_REG : Z := 0x30.
Definition INTEN_INT_AFIFO_OF : Z := BIT 27.
Definition INTEN_INT_ERRSOTHS : Z := BIT 4.
Definition INTEN_INT_ERRSOTSYNCHS : Z := BIT 3.
Definition INTSTATE_REG : Z := 0x38.
Definition INTSTATE_INT_ULPS_START : Z := BIT 7.
Definition INTSTATE_INT_ULPS_END : Z := BIT 6.
Definition INTERRSTATE_REG : Z := 0x3c.
Definition LINKCNT_REG : Z := 0x48.
Definition LINKCNT_MONITOR_EN : Z := BIT 31.
Definition LINKCNT_REG_MONI_PACT_EN : Z := BIT 25.
Definition LINKCNT_ICLK_NONSTOP : Z := BIT 24.
Definition LSWAP_REG : Z := 0x4c.
Definition LSWAP_L3SEL (n : Z) : Z := Z.shiftl (Z.land n 0x3) 6.
Definition LSWAP_L2SEL (n : Z) : Z := Z.shiftl (Z.land n 0x3) 4.
Definition LSWAP_L1SEL (n : Z) : Z := Z.shiftl (Z.land n 0x3) 2.
Definition LSWAP_L0SEL (n : Z) : Z := Z.shiftl (Z.land n 0x3) 0.
Definition PHTW_REG : Z := 0x50.
Definition PHTW_DWEN : Z := BIT 24.
Definition PHTW_TESTDIN_DATA (n : Z) : Z := Z.shiftl (Z.land n 0xff) 16.
Definition PHTW_CWEN : Z := BIT 8.
Definition PHTW_TESTDIN_CODE (n : Z) : Z := Z.land n 0xff.
Definition PHTC_REG : Z := 0x58.
Definition PHTC_TESTCLR : Z := BIT 0.
Definition PHYFRX_REG : Z := 0x64.
Definition PHYFRX_FORCERX_MODE_3 : Z := BIT 3.
Definition PHYFRX_FORCERX_MODE_2 : Z := BIT 2.
Definition PHYFRX_FORCERX_MODE_1 : Z := BIT 1.
Definition PHYFRX_FORCERX_MODE_0 : Z := BIT 0.
Definition PHYPLL_REG : Z := 0x68.
Definition PHYPLL_HSFREQRANGE (n : Z) : Z := Z.shiftl n 16.
Definition PHCLM_REG : Z := 0x78.
Definition PHCLM_STOPSTATECKL : Z := BIT 0.
Definition PHDLM_REG : Z := 0x7c.
Definition CSI0CLKFCPR_REG : Z := 0x260.
Definition CSI0CLKFREQRANGE (n : Z) : Z := Z.shiftl (Z.land n 0x3f) 16.

(** V4H registers *)
Definition N_LANES : Z := 0x0004.
Definition CSI2_RESETN : Z := 0x0008.
Definition PHY_SHUTDOWNZ : Z := 0x0040.
Definition PHY_MODE : Z := 0x001c.
Definition DPHY_RSTZ : Z := 0x0044.
Definition FLDC : Z := 0x0804.
Definition FLDD : Z := 0x0808.
Definition IDIC : Z := 0x0810.
Definition OVR1 : Z := 0x0848.
Definition OVR1_forcerxmode_3 : Z := BIT 12.
Definition OVR1_forcerxmode_2 : Z := BIT 11.
Definition OVR1_forcerxmode_1 : Z := BIT 10.
Definition OVR1_forcerxmode_0 : Z := BIT 9.
Definition OVR1_forcerxmode_dck : Z := BIT 8.
Definition PHY_EN : Z := 0x2000.
Definition PHY_ENABLE_3 : Z := BIT 7.
Definition PHY_ENABLE_2 : Z := BIT 6.
Definition PHY_ENABLE_1 : Z := BIT 5.
Definition PHY_ENABLE_0 : Z := BIT 4.
Definition PHY_ENABLE_DCK : Z := BIT 0.
Definition FRXM : Z := 0x2004.
Definition FRXM_FORCERXMODE_DCK : Z := BIT 4.
Definition FRXM_FORCERXMODE_3 : Z := BIT 3.
Definition FRXM_FORCERXMODE_2 : Z := BIT 2.
Definition FRXM_FORCERXMODE_1 : Z := BIT 1.
Definition FRXM_FORCERXMODE_0 : Z := BIT 0.

(** V4M registers *)
Definition V4M_PHYPLL : Z := 0x02050.
Definition V4M_CSI0CLKFCPR : Z := 0x02054.
Definition V4M_CSI0CLKFREQRANGE (n : Z) : Z := Z.shiftl (Z.land n 0xff) 16.
Definition V4M_PHTW : Z := 0x02060.
Definition V4M_PHTW_DIN_DATA_PP (n : Z) : Z := Z.land n 0xff.
Definition V4M_PHTW_DIN_DATA_D (n : Z) : Z := Z.shiftr (Z.land n 0xf00) 16.
Definition V4M_PHTR : Z := 0x02064.
Definition V4M_PHTC : Z := 0x02068.

Definition ST_PHYST : Z := 0x2814.
Definition ST_PHY_READY : Z := BIT 31.
Definition ST_STOPSTATE_DCK : Z := BIT 7.
Definition ST_STOPSTATE_3 : Z := BIT 3.
Definition ST_STOPSTATE_2 : Z := BIT 2.
Definition ST_STOPSTATE_1 : Z := BIT 1.
Definition ST_STOPSTATE_0 : Z := BIT 0.

(** V4H PPI and CORE registers *)
Definition PPI_STARTUP_RW_COMMON_DPHY (n : Z) : Z := 0x21800 + n * 2.
Definition PPI_STARTUP_RW_COMMON_STARTUP_1_1 : Z := 0x21822.
Definition PPI_CALIBCTRL_RW_COMMON_BG_0 : Z := 0x2184C.
Definition PPI_RW_LPDCOCAL_TIMEBASE : Z := 0x21C02.
Definition PPI_RW_LPDCOCAL_NREF : Z := 0x21C04.
Definition PPI_RW_LPDCOCAL_NREF_RANGE : Z := 0x21C06.
Definition PPI_RW_LPDCOCAL_TWAIT_CONFIG : Z := 0x21C0A.
Definition PPI_RW_LPDCOCAL_VT_CONFIG : Z := 0x21C0C.
Definition PPI_RW_LPDCOCAL_COARSE_CFG : Z := 0x21C10.
Definition PPI_RW_COMMON_CFG : Z := 0x21C6C.
Definition PPI_RW_TERMCAL_CFG_0 : Z := 0x21C80.
Definition PPI_RW_OFFSETCAL_CFG_0 : Z := 0x21CA0.
Definition CORE_DIG_IOCTRL_RW_AFE_LANE0_CTRL_2 (n : Z) : Z := 0x22040 + n * 2.
Definition CORE_DIG_IOCTRL_RW_AFE_LANE1_CTRL_2 (n : Z) : Z := 0x22440 + n * 2.
Definition CORE_DIG_IOCTRL_RW_AFE_LANE2_CTRL_2 (n : Z) : Z := 0x22840 + n * 2.
Definition CORE_DIG_IOCTRL_RW_AFE_LANE3_CTRL_2 (n : Z) : Z := 0x22C40 + n * 2.
Definition CORE_DIG_IOCTRL_RW_AFE_LANE4_CTRL_2 (n : Z) : Z := 0x23040 + n * 2.
Definition CORE_DIG_IOCTRL_RW_AFE_CB_CTRL_2 (n : Z) : Z := 0x23840 + n * 2.
Definition CORE_DIG_RW_COMMON (n : Z) : Z := 0x23880 + n * 2.
Definition CORE_DIG_ANACTRL_RW_COMMON_ANACTRL (n : Z) : Z := 0x239E0 + n * 2.
Definition CORE_DIG_CLANE_0_RW_CFG_0 : Z := 0x2A000.
Definition CORE_DIG_CLANE_1_RW_CFG_0 : Z := 0x2A400.
Definition CORE_DIG_CLANE_2_RW_CFG_0 : Z := 0x2A800.
Definition CORE_DIG_CLANE_1_RW_HS_TX_6 : Z := 0x2A60C.
Definition CORE_DIG_RW_TRIO0 (n : Z) : Z := 0x22100 + n * 2.
Definition CORE_DIG_RW_TRIO1 (n : Z) : Z := 0x22500 + n * 2.
Definition CORE_DIG_RW_TRIO2 (n : Z) : Z := 0x22900 + n * 2.
Definition CORE_DIG_CLANE_0_RW_LP_0 : Z := 0x2A080.
Definition CORE_DIG_CLANE_0_RW_HS_RX (n : Z) : Z := 0x2A100 + n * 2.
Definition CORE_DIG_CLANE_1_RW_LP_0 : Z := 0x2A480.
Definition CORE_DIG_CLANE_1_RW_HS_RX (n : Z) : Z := 0x2A500 + n * 2.
Definition CORE_DIG_CLANE_2_RW_LP_0 : Z := 0x2A880.
Definition CORE_DIG_CLANE_2_RW_HS_RX (n : Z) : Z := 0x2A900 + n * 2.

(** SNPS CSI-2 v4.0 registers (X5H) *)
Definition PWR_UP : Z := 0xc.
Definition PWR_UP_BIT : Z := BIT 0.
Definition PHY_MODE_CFG : Z := 0x100.
Definition PPI_WIDTH : Z := GENMASK 17 16.
Definition PHY_MODE_BIT : Z := BIT 0.
Definition PHY_DESKEW_CFG : Z := 0x104.
Definition DESKEW_SYS_CYCLES : Z := GENMASK 7 0.
Definition SDI_CFG : Z := 0x400.
Definition SDI_ENCODE_MODE : Z := BIT 1.
Definition SDI_ENABLE : Z := BIT 0.
Definition SDI_FILTER_CFG : Z := 0x404.
Definition SDI_EXCLUDE_SP : Z := BIT 18.
Definition SDI_SELECT_DT_EN : Z := BIT 17.
Definition SDI_SELECT_VC_EN : Z := BIT 16.
Definition SDI_SELECT_DT : Z := GENMASK 13 8.
Definition SDI_SELECT_VC : Z := GENMASK 4 0.
Definition INT_UNMASK_CSI2 : Z := 0x59c.
Definition UNMASK_MAX_N_DATA_IDS_ERR_IRQ : Z := BIT 5.
Definition UNMASK_INVALID_DT_ERR_IRQ : Z := BIT 4.
Definition UNMASK_CRC_ERR_IRQ : Z := BIT 3.
Definition UNMASK_INVALID_RX_LENGTH_ERR_IRQ : Z := BIT 2.
Definition UNMASK_HDR_NON_FATAL_ERR_IRQ : Z := BIT 1.
Definition UNMASK_HDR_FATAL_ERR_IRQ : Z := BIT 0.
Definition INT_UNMASK_FRAME : Z := 0x5a0.
Definition UNMASK_FRAME_SEQUENCE_ERR_IRQ : Z := BIT 1.
Definition UNMASK_FRAME_BOUNDARY_ERR_IRQ : Z := BIT 0.
Definition INT_UNMASK_LINE : Z := 0x5a4.
Definition UNMASK_LINE_SEQUENCE_ERR_IRQ : Z := BIT 1.
Definition UNMASK_LINE_BOUNDARY_ERR_IRQ : Z := BIT 0.

Definition cphy_specific_reg : list rcar_csi2_cphy_specific :=
  [ {| trio := 0;
       hs_receive_reg := CORE_DIG_IOCTRL_RW_AFE_LANE0_CTRL_2 9;
       pin_swap_reg := CORE_DIG_IOCTRL_RW_AFE_LANE0_CTRL_2 9;
       ctrl27_reg := CORE_DIG_IOCTRL_RW_AFE_LANE0_CTRL_2 7;
       rwconf_reg := CORE_DIG_CLANE_0_RW_CFG_0 |};
    {| trio := 1;
       hs_receive_reg := CORE_DIG_IOCTRL_RW_AFE_LANE1_CTRL_2 9;
       pin_swap_reg := CORE_DIG_IOCTRL_RW_AFE_LANE2_CTRL_2 9;
       ctrl27_reg := CORE_DIG_IOCTRL_RW_AFE_LANE1_CTRL_2 7;
       rwconf_reg := CORE_DIG_CLANE_1_RW_CFG_0 |};
    {| trio := 2;
       hs_receive_reg := CORE_DIG_IOCTRL_RW_AFE_LANE2_CTRL_2 9;
       pin_swap_reg := CORE_DIG_IOCTRL_RW_AFE_LANE3_CTRL_2 9;
       ctrl27_reg := CORE_DIG_IOCTRL_RW_AFE_LANE2_CTRL_2 7;
       rwconf_reg := CORE_DIG_CLANE_2_RW_CFG_0 |} ].

(** Modelled from the spec: the V4L2 enumerators of
    include/uapi/linux/videodev2.h and include/media/v4l2-mediabus.h, which
    are not part of src/ (progressive or alternating field mode, two-wire or
    three-wire medium, lane-count flags). *)
Definition V4L2_FIELD_NONE : Z := 1.
Definition V4L2_FIELD_ALTERNATE : Z := 7.
Definition V4L2_MBUS_CSI2_DPHY : Z := 5.
Definition V4L2_MBUS_CSI2_CPHY : Z := 6.
Definition V4L2_MBUS_CSI2_1_LANE : Z := BIT 0.
Definition V4L2_MBUS_CSI2_2_LANE : Z := BIT 1.
Definition V4L2_MBUS_CSI2_3_LANE : Z := BIT 2.
Definition V4L2_MBUS_CSI2_4_LANE : Z := BIT 3.
Definition UINT_MAX : Z := 2 ^ 32 - 1.

(* ================================================================== *)
(** ** The variant profile and the receiver instance *)

(** The function pointers of [struct rcar_csi2_info], as the names of
    the functions they can point to. *)
Inductive init_phtw_fn :=
| rcsi2_init_phtw_h3_v3h_m3n_fn
| rcsi2_init_phtw_h3es2_fn
| rcsi2_init_phtw_v3m_e3_fn
| rcsi2_init_phtw_v3u_fn
| rcsi2_init_phtw_v4m_fn.

Inductive phy_post_init_fn :=
| rcsi2_phy_post_init_v3m_e3_fn.

Record rcar_csi2_info := {
  init_phtw : option init_phtw_fn;
  phy_post_init : option phy_post_init_fn;
  hsfreqrange : option (list rcsi2_mbps_reg);
  csi0clkfreqrange : Z;
  num_channels : Z;
  features : Z;
  clear_ulps : bool;
  no_use_vdt : bool;
  has_phyfrx_reg : bool;
  osc_freq_target : option (list rcsi2_mbps_reg)
}.

Record v4l2_mbus_framefmt := {
  width : Z;
  height : Z;
  mf_code : Z;
  field : Z
}.

Record rcar_csi2 := {
  info : rcar_csi2_info;
  remote : bool;                 (* priv->remote != NULL *)
  mf : v4l2_mbus_framefmt;
  stream_count : Z;              (* int *)
  lanes : Z;                     (* unsigned short *)
  lane_swap : list Z;            (* unsigned char [4] *)
  cphy_connection : bool;
  pin_swap : bool;
  pin_swap_rx_order : list Z;    (* unsigned int [4] *)
  hs_receive_eq : list Z         (* unsigned int [4] *)
}.

Definition set_stream_count (p : rcar_csi2) (c : Z) : rcar_csi2 :=
  {| info := info p; remote := remote p; mf := mf p; stream_count := c;
     lanes := lanes p; lane_swap := lane_swap p;
     cphy_connection := cphy_connection p; pin_swap := pin_swap p;
     pin_swap_rx_order := pin_swap_rx_order p; hs_receive_eq := hs_receive_eq p |}.

(** What a bring-up function hands back: its [int] result, or a kernel
    oops where the source dereferences a NULL format pointer. *)
Inductive result := Returned (r : Z) | Oops.

Inductive irqreturn := IRQ_NONE | IRQ_HANDLED | IRQ_WAKE_THREAD.

(* ================================================================== *)
(** ** The driver *)

(** The loop shared by the three speed lookups:
    [for (e = table; e->mbps != 0; e++) { if (e->mbps >= target) break; prev = e; }].
    The result is the entry the pointer stops at (the sentinel when the
    loop runs out) and the last entry passed.  A table is the list of
    its array elements, the sentinel included; the end of the list reads
    as the sentinel too. *)
Fixpoint mbps_scan (target : Z) (table : list rcsi2_mbps_reg)
    (prev : option rcsi2_mbps_reg) : rcsi2_mbps_reg * option rcsi2_mbps_reg :=
  match table with
  | [] => (mbps_sentinel, prev)
  | e :: rest =>
      if mbps e =? 0 then (e, prev)
      else if mbps e >=? target then (e, prev)
      else mbps_scan target rest (Some e)
  end.

(** [prev && ((target - prev->mbps) <= (cur->mbps - target))], in
    [unsigned int] arithmetic. *)
Definition prefer_prev (target : Z) (cur : rcsi2_mbps_reg)
    (prev : option rcsi2_mbps_reg) : rcsi2_mbps_reg :=
  match prev with
  | Some p => if u32 (target - mbps p) <=? u32 (mbps cur - target) then p else cur
  | None => cur
  end.

(** First element of a table ([table->mbps] reads element 0). *)
Definition table_head (table : list rcsi2_mbps_reg) : rcsi2_mbps_reg :=
  hd mbps_sentinel table.

Section Driver.

(** The feature bits of rcar-vin.h, which is not part of src/. *)
Variables RCAR_VIN_R8A779G0_FEATURE RCAR_VIN_R8A779H0_FEATURE
          RCAR_VIN_R8A78000_FEATURE : Z.

Variable env : environment.

(** The value found in an automatic variable that was never assigned. *)
Variable uninit : Z.

Definition has_feature (priv : rcar_csi2) (f : Z) : bool :=
  truthy (Z.land (features (info priv)) f).

(** *** Register access

    A register is named by its offset from [priv->base]; the accessors
    take no [priv]. *)

Definition rcsi2_read (reg : Z) : M Z :=
  fun tr => let v := u32 (env_ioread32 env tr reg) in (v, tr ++ [EvRead32 reg v]).

Definition rcsi2_write (reg data : Z) : M unit := emit (EvWrite32 reg (u32 data)).

Definition rcsi2_modify (reg data mask : Z) : M unit :=
  val <- rcsi2_read reg ;;
  let val := Z.land val (Z.lnot mask) in
  let val := Z.lor val data in
  rcsi2_write reg val.

Definition rcsi2_read16 (reg : Z) : M Z :=
  fun tr => let v := u16 (env_ioread16 env tr reg) in (v, tr ++ [EvRead16 reg v]).

Definition rcsi2_write16 (reg data : Z) : M unit := emit (EvWrite16 reg (u16 data)).

Definition rcsi2_modify16 (reg data mask : Z) : M unit :=
  val <- rcsi2_read16 reg ;;
  let val := Z.land val (Z.lnot mask) in
  let val := Z.lor val data in
  rcsi2_write16 reg val.

(** [v4l2_subdev_call(priv->remote, video, s_stream, enable)]: -ENODEV
    without a call when the remote is NULL. *)
Definition v4l2_subdev_call_s_stream (priv : rcar_csi2) (enable : Z) : M Z :=
  if remote priv then
    fun tr => let r := env_s_stream env tr enable in (r, tr ++ [EvSubdevStream enable r])
  else ret (- ENODEV).

Definition v4l2_subdev_call_get_mbus_config (priv : rcar_csi2) : M (Z * Z * Z) :=
  if remote priv then
    fun tr => let '(r, ty, fl) := env_get_mbus_config env tr in
              ((r, ty, fl), tr ++ [EvMbusConfig r ty fl])
  else ret (- ENODEV, 0, 0).

(** [v4l2_ctrl_find(source->ctrl_handler, V4L2_CID_PIXEL_RATE)] followed,
    when the control exists, by [v4l2_ctrl_g_ctrl_int64]. *)
Definition v4l2_ctrl_pixel_rate : M (option Z) :=
  fun tr => match env_pixel_rate env tr with
            | Some r => (Some r, tr ++ [EvPixelRate true r])
            | None => (None, tr ++ [EvPixelRate false 0])
            end.

Definition csi2cam_start : M Z :=
  fun tr => let r := env_csi2cam_start env tr in (r, tr ++ [EvCamStart r]).

(** *** Standby *)

Definition rcsi2_enter_standby (priv : rcar_csi2) : M unit :=
  when (negb (has_feature priv RCAR_VIN_R8A779G0_FEATURE))
    (rcsi2_write PHYCNT_REG 0 ;;
     rcsi2_write PHTC_REG PHTC_TESTCLR) ;;
  when (negb (has_feature priv RCAR_VIN_R8A78000_FEATURE))
    (emit EvResetAssert) ;;
  usleep_range 100 150 ;;
  emit EvPmPut.

Definition rcsi2_exit_standby (priv : rcar_csi2) : M unit :=
  emit EvPmGet ;;
  when (negb (has_feature priv RCAR_VIN_R8A78000_FEATURE))
    (emit EvResetDeassert).

(** The loop of [rcsi2_wait_phy_start], [n] iterations left. *)
Fixpoint wait_lp11 (lanes_ : Z) (n : nat) : M bool :=
  match n with
  | O => ret false
  | S n' =>
      let lane_mask := u32 (Z.shiftl 1 lanes_ - 1) in
      clm <- rcsi2_read PHCLM_REG ;;
      if truthy (Z.land clm PHCLM_STOPSTATECKL) then
        dlm <- rcsi2_read PHDLM_REG ;;
        if Z.land dlm lane_mask =? lane_mask then ret true
        else usleep_range 1000 2000 ;; wait_lp11 lanes_ n'
      else usleep_range 1000 2000 ;; wait_lp11 lanes_ n'
  end.

Definition rcsi2_wait_phy_start (priv : rcar_csi2) (lanes_ : Z) : M Z :=
  if has_feature priv RCAR_VIN_R8A78000_FEATURE then ret 0
  else
    ok <- wait_lp11 lanes_ 21 ;;
    if ok then ret 0
    else dev_err "Timeout waiting for LP-11 state" [] ;; ret (- ETIMEDOUT).

(** *** Speed lookups

    The table is the pointer of [priv->info] that the caller has tested
    against NULL ([hsfreqrange], [osc_freq_target]), passed as an
    argument. *)

Definition rcsi2_set_phypll (priv : rcar_csi2) (table : list rcsi2_mbps_reg)
    (target : Z) : M Z :=
  when (target <? mbps (table_head table))
    (dev_warn "%u Mbps less than min PHY speed %u Mbps"
       [target; mbps (table_head table)]) ;;
  let '(hsfreq, hsfreq_prev) := mbps_scan target table None in
  if mbps hsfreq =? 0 then
    dev_err "Unsupported PHY speed (%u Mbps)" [target] ;;
    ret (- ERANGE)
  else
    let hsfreq := prefer_prev target hsfreq hsfreq_prev in
    (if has_feature priv RCAR_VIN_R8A779H0_FEATURE
     then rcsi2_write V4M_PHYPLL (PHYPLL_HSFREQRANGE (reg hsfreq))
     else rcsi2_write PHYPLL_REG (PHYPLL_HSFREQRANGE (reg hsfreq))) ;;
    ret 0.

(** The result type is [u16]: [return -ERANGE] is converted to it. *)
Definition rcsi2_get_osc_freq (table : list rcsi2_mbps_reg) (target : Z) : M Z :=
  when (target <? mbps (table_head table))
    (dev_warn "%u Mbps less than min PHY speed %u Mbps"
       [target; mbps (table_head table)]) ;;
  let '(osc_freq, osc_freq_prev) := mbps_scan target table None in
  if mbps osc_freq =? 0 then
    dev_err "Unsupported PHY speed (%u Mbps)" [target] ;;
    ret (u16 (- ERANGE))
  else
    let osc_freq := prefer_prev target osc_freq osc_freq_prev in
    ret (reg osc_freq).

(** *** Link speed *)

Definition rcsi2_calc_mbps (priv : rcar_csi2) (bpp_ lanes_ : Z) : M Z :=
  if negb (has_feature priv RCAR_VIN_R8A78000_FEATURE) then
    if negb (remote priv) then ret (- ENODEV)
    else
      ctrl <- v4l2_ctrl_pixel_rate ;;
      match ctrl with
      | None =>
          dev_err "no pixel rate control in subdev %s" [] ;;
          ret (- EINVAL)
      | Some rate =>
          ret (to_int (do_div (u64 (rate * bpp_)) (u32 (lanes_ * 1000000))))
      end
  else ret (to_int (do_div 7423000000 (u32 (lanes_ * 1000000)))).

(** Result and the value stored through [lanes]. *)
Definition rcsi2_get_active_lanes (priv : rcar_csi2) : M (Z * Z) :=
  let lanes_ := lanes priv in
  if negb (has_feature priv RCAR_VIN_R8A78000_FEATURE) then
    cfg <- v4l2_subdev_call_get_mbus_config priv ;;
    let '(r, ty, flags) := cfg in
    if r =? - ENOIOCTLCMD then
      dev_dbg "No remote mbus configuration available" [] ;;
      ret (0, lanes_)
    else if truthy r then
      dev_err "Failed to get remote mbus configuration" [] ;;
      ret (r, lanes_)
    else if negb (ty =? V4L2_MBUS_CSI2_DPHY) && negb (ty =? V4L2_MBUS_CSI2_CPHY) then
      dev_err "Unsupported media bus type %u" [ty] ;;
      ret (- EINVAL, lanes_)
    else
      let num_lanes :=
        if truthy (Z.land flags V4L2_MBUS_CSI2_1_LANE) then 1
        else if truthy (Z.land flags V4L2_MBUS_CSI2_2_LANE) then 2
        else if truthy (Z.land flags V4L2_MBUS_CSI2_3_LANE) then 3
        else if truthy (Z.land flags V4L2_MBUS_CSI2_4_LANE) then 4
        else UINT_MAX in
      if num_lanes >? lanes_ then
        dev_err "Unsupported mbus config: too many data lanes %u" [num_lanes] ;;
        ret (- EINVAL, lanes_)
      else ret (0, num_lanes)
  else ret (0, lanes_).

(** *** The indirect-register channel (PHTW) *)

(** The acknowledge poll of [rcsi2_phtw_write], [n] iterations left. *)
Fixpoint phtw_poll (n : nat) : M bool :=
  match n with
  | O => ret false
  | S n' =>
      v <- rcsi2_read PHTW_REG ;;
      if negb (truthy (Z.land v (Z.lor PHTW_DWEN PHTW_CWEN))) then ret true
      else usleep_range 1000 2000 ;; phtw_poll n'
  end.

Definition phtw_word (data_ code_ : Z) : Z :=
  Z.lor (Z.lor (Z.lor PHTW_DWEN (PHTW_TESTDIN_DATA data_)) PHTW_CWEN)
        (PHTW_TESTDIN_CODE code_).

Definition rcsi2_phtw_write (priv : rcar_csi2) (data_ code_ : Z) : M Z :=
  rcsi2_write PHTW_REG (phtw_word data_ code_) ;;
  if has_feature priv RCAR_VIN_R8A78000_FEATURE then ret 0
  else
    ok <- phtw_poll 21 ;;
    if ok then ret 0
    else
      dev_err "Timeout waiting for PHTW_DWEN and/or PHTW_CWEN" [] ;;
      ret (- ETIMEDOUT).

(** [for (value = values; value->data || value->code; value++)]. *)
Fixpoint rcsi2_phtw_write_array (priv : rcar_csi2) (values : list phtw_value) : M Z :=
  match values with
  | [] => ret 0
  | value :: rest =>
      if truthy (data value) || truthy (code value) then
        r <- rcsi2_phtw_write priv (data value) (code value) ;;
        if truthy r then ret r
        else rcsi2_phtw_write_array priv rest
      else ret 0
  end.

Definition rcsi2_phtw_write_mbps (priv : rcar_csi2) (target : Z)
    (values : list rcsi2_mbps_reg) (code_ : Z) : M Z :=
  let '(value, prev_value) := mbps_scan target values None in
  let value := prefer_prev target value prev_value in
  if mbps value =? 0 then
    dev_err "Unsupported PHY speed (%u Mbps)" [target] ;;
    ret (- ERANGE)
  else rcsi2_phtw_write priv (reg value) code_.

(** *** PHTW initialisation sequences *)

Definition h3_v3h_m3n_step1 : list phtw_value :=
  [ PV 0xcc 0xe2; PV 0x01 0xe3; PV 0x11 0xe4; PV 0x01 0xe5; PV 0x10 0x04;
    phtw_sentinel ].

Definition h3_v3h_m3n_step2 : list phtw_value :=
  [ PV 0x38 0x08; PV 0x01 0x00; PV 0x4b 0xac; PV 0x03 0x00; PV 0x80 0x07;
    phtw_sentinel ].

Definition __rcsi2_init_phtw_h3_v3h_m3n (priv : rcar_csi2) (target : Z) : M Z :=
  r <- rcsi2_phtw_write_array priv h3_v3h_m3n_step1 ;;
  if truthy r then ret r
  else if negb (target =? 0) && (target <=? 250) then
    r <- rcsi2_phtw_write priv 0x39 0x05 ;;
    if truthy r then ret r
    else
      r <- rcsi2_phtw_write_mbps priv target phtw_mbps_h3_v3h_m3n 0xf1 ;;
      if truthy r then ret r
      else rcsi2_phtw_write_array priv h3_v3h_m3n_step2
  else rcsi2_phtw_write_array priv h3_v3h_m3n_step2.

Definition rcsi2_init_phtw_h3_v3h_m3n (priv : rcar_csi2) (target : Z) : M Z :=
  __rcsi2_init_phtw_h3_v3h_m3n priv target.

Definition rcsi2_init_phtw_h3es2 (priv : rcar_csi2) (target : Z) : M Z :=
  __rcsi2_init_phtw_h3_v3h_m3n priv 0.

Definition rcsi2_init_phtw_v3m_e3 (priv : rcar_csi2) (target : Z) : M Z :=
  rcsi2_phtw_write_mbps priv target phtw_mbps_v3m_e3 0x44.

Definition v3m_e3_post_step1 : list phtw_value :=
  [ PV 0xee 0x34; PV 0xee 0x44; PV 0xee 0x54; PV 0xee 0x84; PV 0xee 0x94;
    phtw_sentinel ].

Definition rcsi2_phy_post_init_v3m_e3 (priv : rcar_csi2) : M Z :=
  rcsi2_phtw_write_array priv v3m_e3_post_step1.

Definition v3u_step1 : list phtw_value := [ PV 0xcc 0xe2; phtw_sentinel ].
Definition v3u_step2 : list phtw_value :=
  [ PV 0x01 0xe3; PV 0x11 0xe4; PV 0x01 0xe5; phtw_sentinel ].
Definition v3u_step3 : list phtw_value := [ PV 0x38 0x08; phtw_sentinel ].
Definition v3u_step4 : list phtw_value :=
  [ PV 0x01 0x00; PV 0x4b 0xac; PV 0x03 0x00; PV 0x80 0x07; phtw_sentinel ].

Definition rcsi2_init_phtw_v3u (priv : rcar_csi2) (target : Z) : M Z :=
  r <- (if negb (target =? 0) && (target <=? 1500)
        then rcsi2_phtw_write_array priv v3u_step1
        else rcsi2_phtw_write_mbps priv target phtw_mbps_v3u 0xe2) ;;
  if truthy r then ret r
  else
    r <- rcsi2_phtw_write_array priv v3u_step2 ;;
    if truthy r then ret r
    else
      r <- (if negb (target =? 0) && (target <=? 1500)
            then rcsi2_phtw_write_array priv v3u_step3
            else ret r) ;;
      if truthy r then ret r
      else
        r <- rcsi2_phtw_write_array priv v3u_step4 ;;
        ret r.

Definition v4m_step32 : list phtw_value :=
  [ PV 0x00 0x00; PV 0x00 0xE2; PV 0x00 0xE3; PV 0x01 0xE4; phtw_sentinel ].

Definition v4m_step33 : list phtw_value :=
  [ PV 0x00 0x00; PV 0x3C 0x08; phtw_sentinel ].

Definition v4m_step36 : list phtw_value :=
  [ PV 0x00 0x00; PV 0x80 0xE0; PV 0x01 0xE1; PV 0x06 0x00; PV 0x0F 0x11;
    PV 0x08 0x00; PV 0x0F 0x11; PV 0x0A 0x00; PV 0x0F 0x11; PV 0x0C 0x00;
    PV 0x0F 0x11; PV 0x01 0x00; PV 0x31 0xAA; PV 0x05 0x00; PV 0x05 0x09;
    PV 0x07 0x00; PV 0x05 0x09; PV 0x09 0x00; PV 0x05 0x09; PV 0x0B 0x00;
    PV 0x05 0x09; phtw_sentinel ].

(** The loop over [step32] in [rcsi2_init_phtw_v4m]; [r] is the current
    value of [ret].  The boolean tells whether the loop returned from
    the function. *)
Fixpoint v4m_step32_loop (priv : rcar_csi2) (osc_freq : Z)
    (values : list phtw_value) (r : Z) : M (bool * Z) :=
  match values with
  | [] => ret (false, r)
  | value :: rest =>
      if truthy (data value) || truthy (code value) then
        r' <- (if code value =? 0xE2 then
                 rcsi2_phtw_write priv (V4M_PHTW_DIN_DATA_PP osc_freq) (code value)
               else if code value =? 0xE3 then
                 rcsi2_phtw_write priv (V4M_PHTW_DIN_DATA_D osc_freq) (code value)
               else rcsi2_phtw_write priv (data value) (code value)) ;;
        if truthy r' then ret (true, r')
        else v4m_step32_loop priv osc_freq rest r'
      else ret (false, r)
  end.

(** The part of [rcsi2_init_phtw_v4m] after the two table lookups. *)
Definition rcsi2_init_phtw_v4m_tail (priv : rcar_csi2) (target : Z)
    (r : Z) (osc_freq : Z) : M Z :=
  lr <- v4m_step32_loop priv osc_freq v4m_step32 r ;;
  let '(returned, r) := lr in
  if returned then ret r
  else
    (* T3-3 *)
    r33 <- (if negb (target =? 0) && (target <=? 1500)
            then rcsi2_phtw_write_array priv v4m_step33
            else ret r) ;;
    if negb (target =? 0) && (target <=? 1500) && truthy r33 then ret r33
    else
      (* T3-4 *)
      when (truthy (csi0clkfreqrange (info priv)))
        (rcsi2_write V4M_CSI0CLKFCPR
           (V4M_CSI0CLKFREQRANGE (csi0clkfreqrange (info priv)))) ;;
      (* T3-5 *)
      read32 <- rcsi2_read PHY_EN ;;
      rcsi2_write PHY_EN
        (Z.lor read32 (Z.lor (Z.lor (Z.lor PHY_ENABLE_DCK PHY_ENABLE_0)
                                    PHY_ENABLE_1) PHY_ENABLE_2)) ;;
      (* T3-6 *)
      if negb (target =? 0) && (target >? 1500) then
        r36 <- rcsi2_phtw_write_array priv v4m_step36 ;;
        ret r36
      else ret r33.

Definition rcsi2_init_phtw_v4m (priv : rcar_csi2) (target : Z) : M Z :=
  (* T3-1 *)
  r <- match hsfreqrange (info priv) with
       | Some table => rcsi2_set_phypll priv table target
       | None => ret uninit
       end ;;
  if match hsfreqrange (info priv) with Some _ => truthy r | None => false end
  then ret r
  else
    (* T3-2 *)
    match osc_freq_target (info priv) with
    | Some table =>
        osc_freq <- rcsi2_get_osc_freq table target ;;
        if osc_freq =? 0 then ret r
        else rcsi2_init_phtw_v4m_tail priv target r osc_freq
    | None => rcsi2_init_phtw_v4m_tail priv target r (u16 uninit)
    end.

Definition call_init_phtw (f : init_phtw_fn) (priv : rcar_csi2) (target : Z) : M Z :=
  match f with
  | rcsi2_init_phtw_h3_v3h_m3n_fn => rcsi2_init_phtw_h3_v3h_m3n priv target
  | rcsi2_init_phtw_h3es2_fn => rcsi2_init_phtw_h3es2 priv target
  | rcsi2_init_phtw_v3m_e3_fn => rcsi2_init_phtw_v3m_e3 priv target
  | rcsi2_init_phtw_v3u_fn => rcsi2_init_phtw_v3u priv target
  | rcsi2_init_phtw_v4m_fn => rcsi2_init_phtw_v4m priv target
  end.

Definition call_phy_post_init (f : phy_post_init_fn) (priv : rcar_csi2) : M Z :=
  match f with
  | rcsi2_phy_post_init_v3m_e3_fn => rcsi2_phy_post_init_v3m_e3 priv
  end.

(** *** Bring-up sequences *)

(** [for (i = start; i < start + length l; i++) body(i, l[i - start])]. *)
Fixpoint for_each {A} (l : list A) (i : Z) (body : Z -> A -> M unit) : M unit :=
  match l with
  | [] => ret tt
  | a :: rest => body i a ;; for_each rest (i + 1) body
  end.

(** The channel loop of [rcsi2_start_receiver]: the values of [vcdt]
    and [vcdt2] after it. *)
Definition vcdt_regs (priv : rcar_csi2) (format : rcar_csi2_format) : Z * Z :=
  fold_left
    (fun acc i =>
       let '(vcdt, vcdt2) := acc in
       let vcdt_part :=
         Z.lor (Z.lor (Z.lor (VCDT_SEL_VC i) VCDT_VCDTN_EN) VCDT_SEL_DTN_ON)
               (VCDT_SEL_DT (datatype format)) in
       if i <? 2 then (Z.lor vcdt (u32 (Z.shiftl vcdt_part ((i mod 2) * 16))), vcdt2)
       else (vcdt, Z.lor vcdt2 (u32 (Z.shiftl vcdt_part ((i mod 2) * 16)))))
    (map Z.of_nat (seq 0 (Z.to_nat (num_channels (info priv)))))
    (0, 0).

Definition fld_reg (priv : rcar_csi2) : Z :=
  if field (mf priv) =? V4L2_FIELD_ALTERNATE then
    Z.lor (Z.lor (Z.lor (Z.lor (Z.lor (FLD_DET_SEL 1) FLD_FLD_EN4) FLD_FLD_EN3)
                        FLD_FLD_EN2) FLD_FLD_EN)
          (if height (mf priv) =? 240 then FLD_FLD_NUM 0 else FLD_FLD_NUM 1)
  else 0.

Definition rcsi2_start_receiver (priv : rcar_csi2) : M Z :=
  dev_dbg "Input size (%ux%u%c)"
    [width (mf priv); height (mf priv);
     if field (mf priv) =? V4L2_FIELD_NONE then 112 else 105] ;;
  (* Code is validated in set_fmt. *)
  match rcsi2_code_to_fmt (mf_code (mf priv)) with
  | None => ret (- EINVAL)
  | Some format =>
      let '(vcdt, vcdt2) := vcdt_regs priv format in
      let fld := fld_reg priv in
      al <- rcsi2_get_active_lanes priv ;;
      let '(r, lanes_) := al in
      if truthy r then ret r
      else
        let phycnt := Z.lor PHYCNT_ENABLECLK (u32 (Z.shiftl 1 lanes_ - 1)) in
        mbps_ <- rcsi2_calc_mbps priv (bpp format) lanes_ ;;
        if mbps_ <? 0 then ret mbps_
        else
          (* Enable interrupts. *)
          rcsi2_write INTEN_REG
            (Z.lor (Z.lor INTEN_INT_AFIFO_OF INTEN_INT_ERRSOTHS) INTEN_INT_ERRSOTSYNCHS) ;;
          (* Init *)
          rcsi2_write TREF_REG TREF_TREF ;;
          rcsi2_write PHTC_REG 0 ;;
          (* Configure *)
          when (negb (no_use_vdt (info priv)))
            (rcsi2_write VCDT_REG vcdt ;;
             when (truthy vcdt2) (rcsi2_write VCDT2_REG vcdt2)) ;;
          (* Lanes are zero indexed. *)
          rcsi2_write LSWAP_REG
            (Z.lor (Z.lor (Z.lor (LSWAP_L0SEL (nth 0 (lane_swap priv) 0 - 1))
                                 (LSWAP_L1SEL (nth 1 (lane_swap priv) 0 - 1)))
                          (LSWAP_L2SEL (nth 2 (lane_swap priv) 0 - 1)))
                   (LSWAP_L3SEL (nth 3 (lane_swap priv) 0 - 1))) ;;
          (* Start *)
          r <- match init_phtw (info priv) with
               | Some f => call_init_phtw f priv (u32 mbps_)
               | None => ret 0
               end ;;
          if truthy r then ret r
          else
            r <- match hsfreqrange (info priv) with
                 | Some table => rcsi2_set_phypll priv table (u32 mbps_)
                 | None => ret 0
                 end ;;
            if truthy r then ret r
            else
              when (truthy (csi0clkfreqrange (info priv)))
                (rcsi2_write CSI0CLKFCPR_REG
                   (CSI0CLKFREQRANGE (csi0clkfreqrange (info priv)))) ;;
              when (has_phyfrx_reg (info priv))
                (rcsi2_write PHYFRX_REG
                   (Z.lor (Z.lor (Z.lor PHYFRX_FORCERX_MODE_3 PHYFRX_FORCERX_MODE_2)
                                 PHYFRX_FORCERX_MODE_1) PHYFRX_FORCERX_MODE_0)) ;;
              rcsi2_write PHYCNT_REG phycnt ;;
              rcsi2_write LINKCNT_REG
                (Z.lor (Z.lor LINKCNT_MONITOR_EN LINKCNT_REG_MONI_PACT_EN)
                       LINKCNT_ICLK_NONSTOP) ;;
              rcsi2_write FLD_REG fld ;;
              rcsi2_write PHYCNT_REG (Z.lor phycnt PHYCNT_SHUTDOWNZ) ;;
              rcsi2_write PHYCNT_REG (Z.lor (Z.lor phycnt PHYCNT_SHUTDOWNZ) PHYCNT_RSTZ) ;;
              r <- rcsi2_wait_phy_start priv lanes_ ;;
              if truthy r then ret r
              else
                when (has_phyfrx_reg (info priv)) (rcsi2_write PHYFRX_REG 0) ;;
                (* Run post PHY start initialization, if needed. *)
                r <- match phy_post_init (info priv) with
                     | Some f => call_phy_post_init f priv
                     | None => ret 0
                     end ;;
                if truthy r then ret r
                else
                  (* Clear Ultra Low Power interrupt. *)
                  when (clear_ulps (info priv))
                    (rcsi2_write INTSTATE_REG
                       (Z.lor INTSTATE_INT_ULPS_START INTSTATE_INT_ULPS_END)) ;;
                  ret 0
  end.

(** The table loop of [rcsi2_c_phy_setting]:
    [for (v = table; v->msps != 0; v++) if (v->msps > data_rate) break;]. *)
Fixpoint cphy_scan (data_rate : Z) (table : list rcsi2_cphy_setting) : rcsi2_cphy_setting :=
  match table with
  | [] => cphy_sentinel
  | v :: rest =>
      if msps v =? 0 then v
      else if msps v >? data_rate then v
      else cphy_scan data_rate rest
  end.

(** A bounded poll of a 32-bit register, [n] iterations left:
    [for (timeout = n; timeout > 0; --timeout) { status = read; if (ready) break; usleep; }],
    true when the loop left through [break]. *)
Fixpoint poll32 (reg_ : Z) (ready : Z -> bool) (n : nat) : M bool :=
  match n with
  | O => ret false
  | S n' =>
      status <- rcsi2_read reg_ ;;
      if ready status then ret true
      else usleep_range 1000 2000 ;; poll32 reg_ ready n'
  end.

Definition rcsi2_c_phy_setting (priv : rcar_csi2) (data_rate : Z) : M Z :=
  let cphy_setting_value := cphy_scan data_rate cphy_setting_table_r8a779g0 in
  if msps cphy_setting_value =? 0 then
    dev_err "Unsupported PHY speed for mpsp setting (%u Msps)" [data_rate] ;;
    ret (- ERANGE)
  else
    (* C-PHY specific *)
    rcsi2_write16 (CORE_DIG_RW_COMMON 7) 0x0155 ;;
    rcsi2_write16 (PPI_STARTUP_RW_COMMON_DPHY 7) 0x0068 ;;
    rcsi2_write16 (PPI_STARTUP_RW_COMMON_DPHY 8) 0x0010 ;;
    rcsi2_write16 CORE_DIG_CLANE_0_RW_LP_0 0x463C ;;
    rcsi2_write16 CORE_DIG_CLANE_1_RW_LP_0 0x463C ;;
    rcsi2_write16 CORE_DIG_CLANE_2_RW_LP_0 0x463C ;;
    rcsi2_write16 (CORE_DIG_CLANE_0_RW_HS_RX 0) 0x0195 ;;
    rcsi2_write16 (CORE_DIG_CLANE_1_RW_HS_RX 0) 0x0195 ;;
    rcsi2_write16 (CORE_DIG_CLANE_2_RW_HS_RX 0) 0x0195 ;;
    rcsi2_write16 (CORE_DIG_CLANE_0_RW_HS_RX 1) 0x0013 ;;
    rcsi2_write16 (CORE_DIG_CLANE_1_RW_HS_RX 1) 0x0013 ;;
    rcsi2_write16 (CORE_DIG_CLANE_2_RW_HS_RX 1) 0x0013 ;;
    rcsi2_write16 (CORE_DIG_CLANE_0_RW_HS_RX 5) 0x0013 ;;
    rcsi2_write16 (CORE_DIG_CLANE_1_RW_HS_RX 5) 0x0013 ;;
    rcsi2_write16 (CORE_DIG_CLANE_2_RW_HS_RX 5) 0x0013 ;;
    rcsi2_write16 (CORE_DIG_CLANE_0_RW_HS_RX 6) 0x000A ;;
    rcsi2_write16 (CORE_DIG_CLANE_1_RW_HS_RX 6) 0x000A ;;
    rcsi2_write16 (CORE_DIG_CLANE_2_RW_HS_RX 6) 0x000A ;;
    rcsi2_write16 (CORE_DIG_CLANE_0_RW_HS_RX 2) (rw_hs_rx_2 cphy_setting_value) ;;
    rcsi2_write16 (CORE_DIG_CLANE_1_RW_HS_RX 2) (rw_hs_rx_2 cphy_setting_value) ;;
    rcsi2_write16 (CORE_DIG_CLANE_2_RW_HS_RX 2) (rw_hs_rx_2 cphy_setting_value) ;;
    rcsi2_write16 (CORE_DIG_IOCTRL_RW_AFE_LANE0_CTRL_2 2) 0x0001 ;;
    rcsi2_write16 (CORE_DIG_IOCTRL_RW_AFE_LANE1_CTRL_2 2) 0 ;;
    rcsi2_write16 (CORE_DIG_IOCTRL_RW_AFE_LANE2_CTRL_2 2) 0x0001 ;;
    rcsi2_write16 (CORE_DIG_IOCTRL_RW_AFE_LANE3_CTRL_2 2) 0x0001 ;;
    rcsi2_write16 (CORE_DIG_IOCTRL_RW_AFE_LANE4_CTRL_2 2) 0 ;;
    rcsi2_write16 (CORE_DIG_RW_TRIO0 0) 0x044A ;;
    rcsi2_write16 (CORE_DIG_RW_TRIO1 0) 0x044A ;;
    rcsi2_write16 (CORE_DIG_RW_TRIO2 0) 0x044A ;;
    (* Write value from LUT to CORE_DIG_RW_TRIO[0-2]_2, [7:0] *)
    rcsi2_modify16 (CORE_DIG_RW_TRIO0 2) (rw_trio_2 cphy_setting_value) (GENMASK 7 0) ;;
    rcsi2_modify16 (CORE_DIG_RW_TRIO1 2) (rw_trio_2 cphy_setting_value) (GENMASK 7 0) ;;
    rcsi2_modify16 (CORE_DIG_RW_TRIO2 2) (rw_trio_2 cphy_setting_value) (GENMASK 7 0) ;;
    rcsi2_write16 (CORE_DIG_RW_TRIO0 1) (rw_trio_1 cphy_setting_value) ;;
    rcsi2_write16 (CORE_DIG_RW_TRIO1 1) (rw_trio_1 cphy_setting_value) ;;
    rcsi2_write16 (CORE_DIG_RW_TRIO2 1) (rw_trio_1 cphy_setting_value) ;;
    (* Write value from LUT to CORE_DIG_RW_TRIO[0-2]_0, [11:9] *)
    rcsi2_modify16 (CORE_DIG_RW_TRIO0 0) (rw_trio_0 cphy_setting_value) (GENMASK 11 9) ;;
    rcsi2_modify16 (CORE_DIG_RW_TRIO1 0) (rw_trio_0 cphy_setting_value) (GENMASK 11 9) ;;
    rcsi2_modify16 (CORE_DIG_RW_TRIO2 0) (rw_trio_0 cphy_setting_value) (GENMASK 11 9) ;;
    rcsi2_write16 CORE_DIG_CLANE_0_RW_LP_0 0x163C ;;
    rcsi2_write16 CORE_DIG_CLANE_1_RW_LP_0 0x163C ;;
    rcsi2_write16 CORE_DIG_CLANE_2_RW_LP_0 0x163C ;;
    for_each cphy_specific_reg 0 (fun i sr =>
      let val := u16 (Z.lor (afe_lane0_29 cphy_setting_value)
                            (nth (Z.to_nat i) (hs_receive_eq priv) 0)) in
      rcsi2_modify16 (hs_receive_reg sr) val (GENMASK 4 0) ;;
      let val := afe_lane0_27 cphy_setting_value in
      rcsi2_modify16 (ctrl27_reg sr) val (GENMASK 12 10)) ;;
    when (pin_swap priv)
      ((* For WhiteHawk board *)
       rcsi2_write16 CORE_DIG_CLANE_1_RW_CFG_0 0xf5 ;;
       rcsi2_write16 CORE_DIG_CLANE_1_RW_HS_TX_6 0x5000 ;;
       for_each cphy_specific_reg 0 (fun i sr =>
         let val := u16 (Z.shiftl (afe_clane_29_b8
                                     (nth (Z.to_nat i) rcar_csi2_pin_swaps (PS 0 0 0 0))) 8) in
         rcsi2_modify16 (pin_swap_reg sr) val (GENMASK 8 8) ;;
         for_each rcar_csi2_pin_swaps 0 (fun j sw =>
           when (nth (Z.to_nat i) (pin_swap_rx_order priv) 0 =? ps_code sw)
             (let val := u16 (Z.lor (rw_cfg0_b2_0 sw) (Z.shiftl (rw_cfg0_b3 sw) 3)) in
              rcsi2_modify16 (rwconf_reg sr) val (GENMASK 3 0))))) ;;
    (* Step T4: Leave Shutdown mode *)
    rcsi2_write DPHY_RSTZ (BIT 0) ;;
    rcsi2_write PHY_SHUTDOWNZ (BIT 0) ;;
    (* Step T5: waiting for calibration *)
    ok <- poll32 ST_PHYST (fun status => truthy (Z.land status ST_PHY_READY)) 10 ;;
    if negb ok then
      dev_err "PHY calibration failed" [] ;;
      ret (- ETIMEDOUT)
    else ret 0.

Definition d_phy_step5 : list phtw_value :=
  [ PV 0x00 0x00; PV 0x00 0x1E; phtw_sentinel ].

(** V4M D-PHY *)
Definition rcsi2_d_phy_setting (priv : rcar_csi2) (data_rate : Z) : M Z :=
  (* T4 *)
  rcsi2_write DPHY_RSTZ (BIT 0) ;;
  rcsi2_write PHY_SHUTDOWNZ (BIT 0) ;;
  (* T5: Internal calibrations ongoing *)
  r <- rcsi2_phtw_write_array priv d_phy_step5 ;;
  if truthy r then ret r
  else
    (* Wait for PHTR[19:16] = H'7 that POR is complete *)
    ok <- poll32 V4M_PHTR
            (fun status => truthy (Z.land (Z.land status 0xf0000) 0x70000)) 10 ;;
    if negb ok then
      dev_err "PHY calibration failed" [] ;;
      ret (- ETIMEDOUT)
    else ret 0.

(** The C constant 2.8 of [do_div(data_rate, 2.8)]. *)
Definition cphy_symbol_factor : Q := 28 # 10.

(** Step T3 of [rcsi2_start_receiver_v4h]: common static settings. *)
Definition v4h_common_setting : M unit :=
  rcsi2_write16 (PPI_STARTUP_RW_COMMON_DPHY 10) 0x0030 ;;
  rcsi2_write16 (CORE_DIG_ANACTRL_RW_COMMON_ANACTRL 2) 0x1444 ;;
  rcsi2_write16 (CORE_DIG_ANACTRL_RW_COMMON_ANACTRL 0) 0x1BFD ;;
  rcsi2_write16 PPI_STARTUP_RW_COMMON_STARTUP_1_1 0x0233 ;;
  rcsi2_write16 (PPI_STARTUP_RW_COMMON_DPHY 6) 0x0027 ;;
  rcsi2_write16 PPI_CALIBCTRL_RW_COMMON_BG_0 0x01F4 ;;
  rcsi2_write16 PPI_RW_TERMCAL_CFG_0 0x0013 ;;
  rcsi2_write16 PPI_RW_OFFSETCAL_CFG_0 0x0003 ;;
  rcsi2_write16 PPI_RW_LPDCOCAL_TIMEBASE 0x004F ;;
  rcsi2_write16 PPI_RW_LPDCOCAL_NREF 0x0320 ;;
  rcsi2_write16 PPI_RW_LPDCOCAL_NREF_RANGE 0x000F ;;
  rcsi2_write16 PPI_RW_LPDCOCAL_TWAIT_CONFIG 0xFE18 ;;
  rcsi2_write16 PPI_RW_LPDCOCAL_VT_CONFIG 0x0C3C ;;
  rcsi2_write16 PPI_RW_LPDCOCAL_COARSE_CFG 0x0105 ;;
  rcsi2_write16 (CORE_DIG_IOCTRL_RW_AFE_CB_CTRL_2 6) 0x1000 ;;
  rcsi2_write16 PPI_RW_COMMON_CFG 0x0003 ;;
  rcsi2_write16 (CORE_DIG_IOCTRL_RW_AFE_CB_CTRL_2 0) 0x0000 ;;
  rcsi2_write16 (CORE_DIG_IOCTRL_RW_AFE_CB_CTRL_2 1) 0x0400 ;;
  rcsi2_write16 (CORE_DIG_IOCTRL_RW_AFE_CB_CTRL_2 3) 0x41F6 ;;
  rcsi2_write16 (CORE_DIG_IOCTRL_RW_AFE_CB_CTRL_2 0) 0x0000 ;;
  rcsi2_write16 (CORE_DIG_IOCTRL_RW_AFE_CB_CTRL_2 3) 0x43F6 ;;
  rcsi2_write16 (CORE_DIG_IOCTRL_RW_AFE_CB_CTRL_2 6) 0x3000 ;;
  rcsi2_write16 (CORE_DIG_IOCTRL_RW_AFE_CB_CTRL_2 7) 0x0000 ;;
  rcsi2_write16 (CORE_DIG_IOCTRL_RW_AFE_CB_CTRL_2 6) 0x3000 ;;
  rcsi2_write16 (CORE_DIG_IOCTRL_RW_AFE_CB_CTRL_2 7) 0x0000 ;;
  rcsi2_write16 (CORE_DIG_IOCTRL_RW_AFE_CB_CTRL_2 6) 0x7000 ;;
  rcsi2_write16 (CORE_DIG_IOCTRL_RW_AFE_CB_CTRL_2 7) 0x0000 ;;
  rcsi2_write16 (CORE_DIG_IOCTRL_RW_AFE_CB_CTRL_2 5) 0x4000.

(** The rate [rcsi2_start_receiver_v4h] hands to the PHY setting:
    [if (priv->cphy_connection) do_div(data_rate, 2.8);]. *)
Definition v4h_data_rate (priv : rcar_csi2) (data_rate : Z) : Z :=
  if cphy_connection priv
  then to_int (do_div data_rate (double_to_u32 cphy_symbol_factor))
  else data_rate.

Definition rcsi2_start_receiver_v4h (priv : rcar_csi2) : M result :=
  (* Calculate parameters *)
  let format := rcsi2_code_to_fmt (mf_code (mf priv)) in
  al <- rcsi2_get_active_lanes priv ;;
  let '(r, lanes_) := al in
  if truthy r then ret (Returned r)
  else
    match format with
    | None => ret Oops
    | Some format =>
        data_rate <- rcsi2_calc_mbps priv (bpp format) lanes_ ;;
        if data_rate <? 0 then ret (Returned data_rate)
        else
          let data_rate := v4h_data_rate priv data_rate in
          (* Step T0: Reset LINK and PHY *)
          rcsi2_write CSI2_RESETN 0 ;;
          rcsi2_write DPHY_RSTZ 0 ;;
          rcsi2_write PHY_SHUTDOWNZ 0 ;;
          (* Step T1: PHY static setting *)
          read32 <- rcsi2_read PHY_EN ;;
          rcsi2_write PHY_EN
            (Z.lor read32 (Z.lor (Z.lor (Z.lor PHY_ENABLE_DCK PHY_ENABLE_0)
                                        PHY_ENABLE_1) PHY_ENABLE_2)) ;;
          read32 <- rcsi2_read FRXM ;;
          rcsi2_write FRXM
            (Z.lor read32 (Z.lor (Z.lor (Z.lor FRXM_FORCERXMODE_DCK FRXM_FORCERXMODE_0)
                                        FRXM_FORCERXMODE_1) FRXM_FORCERXMODE_2)) ;;
          read32 <- rcsi2_read OVR1 ;;
          rcsi2_write OVR1
            (Z.lor read32 (Z.lor (Z.lor (Z.lor OVR1_forcerxmode_dck OVR1_forcerxmode_0)
                                        OVR1_forcerxmode_1) OVR1_forcerxmode_2)) ;;
          rcsi2_write FLDC 0 ;;
          rcsi2_write FLDD 0 ;;
          rcsi2_write IDIC 0 ;;
          rcsi2_write PHY_MODE (BIT 0) ;;
          rcsi2_write N_LANES (lanes_ - 1) ;;
          (* Step T2: Reset CSI2 *)
          rcsi2_write CSI2_RESETN (BIT 0) ;;
          (* Step T3: Registers static setting through APB *)
          v4h_common_setting ;;
          (if cphy_connection priv then
             r <- rcsi2_c_phy_setting priv data_rate ;;
             when (truthy r) (dev_err "Setting C-PHY failed" [])
           else
             r <- rcsi2_d_phy_setting priv data_rate ;;
             when (truthy r) (dev_err "Setting D-PHY failed" [])) ;;
          ret (Returned 0)
    end.

Definition rcsi2_start_receiver_v4m (priv : rcar_csi2) : M result :=
  (* Calculate parameters *)
  let format := rcsi2_code_to_fmt (mf_code (mf priv)) in
  al <- rcsi2_get_active_lanes priv ;;
  let '(r, lanes_) := al in
  if truthy r then ret (Returned r)
  else
    match format with
    | None => ret Oops
    | Some format =>
        data_rate <- rcsi2_calc_mbps priv (bpp format) lanes_ ;;
        if data_rate <? 0 then ret (Returned data_rate)
        else
          (* Step T0: Reset LINK and PHY *)
          rcsi2_write CSI2_RESETN 0 ;;
          rcsi2_write DPHY_RSTZ 0 ;;
          rcsi2_write PHY_SHUTDOWNZ 0 ;;
          rcsi2_write PHTC_REG PHTC_TESTCLR ;;
          (* Step T1: PHY static setting *)
          read32 <- rcsi2_read FRXM ;;
          rcsi2_write FRXM
            (Z.lor read32 (Z.lor (Z.lor FRXM_FORCERXMODE_0 FRXM_FORCERXMODE_1)
                                 FRXM_FORCERXMODE_2)) ;;
          read32 <- rcsi2_read OVR1 ;;
          rcsi2_write OVR1
            (Z.lor read32 (Z.lor (Z.lor OVR1_forcerxmode_0 OVR1_forcerxmode_1)
                                 OVR1_forcerxmode_2)) ;;
          rcsi2_write FLDC 0 ;;
          rcsi2_write FLDD 0 ;;
          rcsi2_write IDIC 0 ;;
          (* Step T2: Reset CSI2 *)
          rcsi2_write PHTC_REG 0 ;;
          rcsi2_write CSI2_RESETN (BIT 0) ;;
          (* Step T3: PHY register is programmed/read with PHY in reset. *)
          r <- match init_phtw (info priv) with
               | Some f => call_init_phtw f priv (u32 data_rate)
               | None => ret 0
               end ;;
          if truthy r then ret (Returned r)
          else
            (* V4M has D-PHY only *)
            if negb (cphy_connection priv) then
              r <- rcsi2_d_phy_setting priv data_rate ;;
              when (truthy r) (dev_err "Setting D-PHY failed" []) ;;
              ret (Returned 0)
            else
              dev_err "R-Car V4M does not support C-PHY." [] ;;
              ret (Returned (- EINVAL))
    end.

Definition rcsi2_start_receiver_x5h (priv : rcar_csi2) : M result :=
  let bBypassMode := true in
  let bExcludeSP := false in
  let bEnableVCFilter := false in
  let nVCtoFilter := 0 in
  let bEnableDTFilter := false in
  let nDTtoFilter := 0 in
  (* Calculate parameters *)
  let format := rcsi2_code_to_fmt (mf_code (mf priv)) in
  al <- rcsi2_get_active_lanes priv ;;
  let '(r, lanes_) := al in
  if truthy r then ret (Returned r)
  else
    match format with
    | None => ret Oops
    | Some format =>
        data_rate <- rcsi2_calc_mbps priv (bpp format) lanes_ ;;
        if data_rate <? 0 then ret (Returned data_rate)
        else
          (* 1. reset the CSI-2 v4 controller *)
          rcsi2_modify PWR_UP 0x0 PWR_UP_BIT ;;
          (* 2. PHY Programming *)
          rcsi2_modify PHY_MODE_CFG (if cphy_connection priv then 1 else 0) PHY_MODE_BIT ;;
          rcsi2_modify PHY_MODE_CFG (bpp format) PPI_WIDTH ;;
          rcsi2_modify PHY_DESKEW_CFG 0x0 DESKEW_SYS_CYCLES ;;
          (* 6. SDI Programming *)
          rcsi2_modify SDI_CFG 0x1 SDI_ENABLE ;;
          rcsi2_modify SDI_CFG (if bBypassMode then 0 else 1) SDI_ENCODE_MODE ;;
          rcsi2_modify SDI_FILTER_CFG (if bEnableVCFilter then 1 else 0) SDI_SELECT_VC_EN ;;
          rcsi2_modify SDI_FILTER_CFG nVCtoFilter SDI_SELECT_VC ;;
          rcsi2_modify SDI_FILTER_CFG (if bEnableDTFilter then 1 else 0) SDI_SELECT_DT_EN ;;
          rcsi2_modify SDI_FILTER_CFG nDTtoFilter SDI_SELECT_DT ;;
          rcsi2_modify SDI_FILTER_CFG (if bExcludeSP then 1 else 0) SDI_EXCLUDE_SP ;;
          (* 7. Interrupt mask programming *)
          rcsi2_modify INT_UNMASK_CSI2 0x1 UNMASK_HDR_FATAL_ERR_IRQ ;;
          rcsi2_modify INT_UNMASK_CSI2 0x1 UNMASK_HDR_NON_FATAL_ERR_IRQ ;;
          rcsi2_modify INT_UNMASK_CSI2 0x1 UNMASK_INVALID_RX_LENGTH_ERR_IRQ ;;
          rcsi2_modify INT_UNMASK_CSI2 0x1 UNMASK_CRC_ERR_IRQ ;;
          rcsi2_modify INT_UNMASK_CSI2 0x1 UNMASK_INVALID_DT_ERR_IRQ ;;
          rcsi2_modify INT_UNMASK_CSI2 0x1 UNMASK_MAX_N_DATA_IDS_ERR_IRQ ;;
          rcsi2_modify INT_UNMASK_FRAME 0x1 UNMASK_FRAME_BOUNDARY_ERR_IRQ ;;
          rcsi2_modify INT_UNMASK_FRAME 0x1 UNMASK_FRAME_SEQUENCE_ERR_IRQ ;;
          rcsi2_modify INT_UNMASK_LINE 0x1 UNMASK_LINE_BOUNDARY_ERR_IRQ ;;
          rcsi2_modify INT_UNMASK_LINE 0x1 UNMASK_LINE_SEQUENCE_ERR_IRQ ;;
          (* 8. Assert the PWR_UP[0] to wake-up controller. *)
          rcsi2_modify PWR_UP 0x1 PWR_UP_BIT ;;
          ret (Returned 0)
    end.

Definition v4h_stopstate (status : Z) : bool :=
  truthy (Z.land status ST_STOPSTATE_0) &&
  truthy (Z.land status ST_STOPSTATE_1) &&
  truthy (Z.land status ST_STOPSTATE_2) &&
  truthy (Z.land status ST_STOPSTATE_DCK).

Definition rcsi2_wait_phy_start_v4h : M Z :=
  (* Step T7: wait for stopstate_N *)
  ok <- poll32 ST_PHYST v4h_stopstate 10 ;;
  if ok then ret 0 else ret (- ETIMEDOUT).

(** *** Stream control *)

Definition rcsi2_start (priv : rcar_csi2) : M result :=
  (* Start CSI PHY *)
  rcsi2_exit_standby priv ;;
  res <- (if has_feature priv RCAR_VIN_R8A779G0_FEATURE then
            rcsi2_start_receiver_v4h priv
          else if has_feature priv RCAR_VIN_R8A779H0_FEATURE then
            rcsi2_start_receiver_v4m priv
          else if has_feature priv RCAR_VIN_R8A78000_FEATURE then
            rcsi2_start_receiver_x5h priv
          else
            r <- rcsi2_start_receiver priv ;; ret (Returned r)) ;;
  match res with
  | Oops => ret Oops
  | Returned r =>
      if truthy r then
        rcsi2_enter_standby priv ;;
        ret (Returned r)
      else
        dev_dbg "Set the Link and PHY of CSI-2 module registers" [] ;;
        (* Start camera side device *)
        r <- (if has_feature priv RCAR_VIN_R8A78000_FEATURE
              then csi2cam_start
              else v4l2_subdev_call_s_stream priv 1) ;;
        if truthy r then
          rcsi2_enter_standby priv ;;
          ret (Returned r)
        else
          (* Confirmation of CSI PHY *)
          when (has_feature priv RCAR_VIN_R8A779G0_FEATURE ||
                has_feature priv RCAR_VIN_R8A779H0_FEATURE)
            (_ <- rcsi2_wait_phy_start_v4h ;; ret tt) ;;
          (* Step T8: De-assert FRXM *)
          (if has_feature priv RCAR_VIN_R8A779G0_FEATURE then
             read32 <- rcsi2_read FRXM ;;
             rcsi2_write FRXM
               (Z.land read32
                  (Z.lnot (Z.lor (Z.lor (Z.lor FRXM_FORCERXMODE_DCK FRXM_FORCERXMODE_0)
                                        FRXM_FORCERXMODE_1) FRXM_FORCERXMODE_2)))
           else if has_feature priv RCAR_VIN_R8A779H0_FEATURE then
             read32 <- rcsi2_read FRXM ;;
             rcsi2_write FRXM
               (Z.land read32
                  (Z.lnot (Z.lor (Z.lor FRXM_FORCERXMODE_0 FRXM_FORCERXMODE_1)
                                 FRXM_FORCERXMODE_2)))
           else ret tt) ;;
          dev_dbg "Confirmed PHY of CSI-2 module starts." [] ;;
          ret (Returned 0)
  end.

Definition rcsi2_stop (priv : rcar_csi2) : M unit :=
  rcsi2_enter_standby priv ;;
  if has_feature priv RCAR_VIN_R8A78000_FEATURE then emit EvCamStop
  else (_ <- v4l2_subdev_call_s_stream priv 0 ;; ret tt).

(** [priv->stream_count += enable ? 1 : -1], in [int]. *)
Definition stream_count_step (priv : rcar_csi2) (enable : Z) : rcar_csi2 :=
  set_stream_count priv
    (to_int (stream_count priv + (if truthy enable then 1 else -1))).

(** The result and the receiver instance after the call.  After an oops
    the lock stays held and the instance is as it was. *)
Definition rcsi2_s_stream (priv : rcar_csi2) (enable : Z) : M (result * rcar_csi2) :=
  emit EvLock ;;
  if negb (has_feature priv RCAR_VIN_R8A78000_FEATURE) && negb (remote priv) then
    emit EvUnlock ;;
    ret (Returned (- ENODEV), priv)
  else if truthy enable && (stream_count priv =? 0) then
    res <- rcsi2_start priv ;;
    match res with
    | Oops => ret (Oops, priv)
    | Returned r =>
        if truthy r then
          emit EvUnlock ;;
          ret (Returned r, priv)
        else
          emit EvUnlock ;;
          ret (Returned 0, stream_count_step priv enable)
    end
  else
    when (negb (truthy enable) && (stream_count priv =? 1)) (rcsi2_stop priv) ;;
    emit EvUnlock ;;
    ret (Returned 0, stream_count_step priv enable).

(** *** Fault interrupt *)

Definition rcsi2_irq : M irqreturn :=
  status <- rcsi2_read INTSTATE_REG ;;
  err_status <- rcsi2_read INTERRSTATE_REG ;;
  if status =? 0 then ret IRQ_HANDLED
  else
    rcsi2_write INTSTATE_REG status ;;
    if err_status =? 0 then ret IRQ_HANDLED
    else
      rcsi2_write INTERRSTATE_REG err_status ;;
      dev_info "Transfer error, restarting CSI-2 receiver" [] ;;
      ret IRQ_WAKE_THREAD.

(** [None] when the restart ends in an oops (the lock stays held). *)
Definition rcsi2_irq_thread (priv : rcar_csi2) : M (option irqreturn) :=
  emit EvLock ;;
  rcsi2_stop priv ;;
  usleep_range 1000 2000 ;;
  res <- rcsi2_start priv ;;
  match res with
  | Oops => ret None
  | Returned r =>
      when (truthy r) (dev_warn "Failed to restart CSI-2 receiver" []) ;;
      emit EvUnlock ;;
      ret (Some IRQ_HANDLED)
  end.

(** The threaded interrupt as request_threaded_irq runs it: the handler,
    then the thread function when the handler asks for it. *)
Definition rcsi2_fault_interrupt (priv : rcar_csi2) : M (option irqreturn) :=
  r <- rcsi2_irq ;;
  match r with
  | IRQ_WAKE_THREAD => rcsi2_irq_thread priv
  | _ => ret (Some r)
  end.

(** *** Endpoint parsing *)

(** The fields of [struct v4l2_fwnode_endpoint] that the driver reads. *)
Record v4l2_fwnode_endpoint := {
  ep_port : Z;                   (* base.port *)
  ep_id : Z;                     (* base.id *)
  bus_type : Z;
  num_data_lanes : Z;            (* bus.mipi_csi2.num_data_lanes *)
  data_lanes : list Z            (* bus.mipi_csi2.data_lanes[] *)
}.

Definition set_lanes (p : rcar_csi2) (n : Z) : rcar_csi2 :=
  {| info := info p; remote := remote p; mf := mf p; stream_count := stream_count p;
     lanes := n; lane_swap := lane_swap p;
     cphy_connection := cphy_connection p; pin_swap := pin_swap p;
     pin_swap_rx_order := pin_swap_rx_order p; hs_receive_eq := hs_receive_eq p |}.

Definition set_cphy_connection (p : rcar_csi2) (b : bool) : rcar_csi2 :=
  {| info := info p; remote := remote p; mf := mf p; stream_count := stream_count p;
     lanes := lanes p; lane_swap := lane_swap p;
     cphy_connection := b; pin_swap := pin_swap p;
     pin_swap_rx_order := pin_swap_rx_order p; hs_receive_eq := hs_receive_eq p |}.

Definition set_lane_swap (p : rcar_csi2) (l : list Z) : rcar_csi2 :=
  {| info := info p; remote := remote p; mf := mf p; stream_count := stream_count p;
     lanes := lanes p; lane_swap := l;
     cphy_connection := cphy_connection p; pin_swap := pin_swap p;
     pin_swap_rx_order := pin_swap_rx_order p; hs_receive_eq := hs_receive_eq p |}.

(** [a[i] = v] on an array held as a list; nothing outside the array. *)
Fixpoint array_set (a : list Z) (i : nat) (v : Z) : list Z :=
  match a, i with
  | [], _ => []
  | _ :: rest, O => v :: rest
  | x :: rest, S i' => x :: array_set rest i' v
  end.

(** The loop over [priv->lane_swap], from index [i], [n] iterations
    left: the result of the function if the loop returns from it
    (0 when it runs to its end), and the array. *)
Fixpoint lane_swap_loop (lanes_ : Z) (dl : list Z) (i : Z) (n : nat)
    (ls : list Z) : M (Z * list Z) :=
  match n with
  | O => ret (0, ls)
  | S n' =>
      let v := (if i <? lanes_ then nth (Z.to_nat i) dl 0 else i) mod 256 in
      let ls := array_set ls (Z.to_nat i) v in
      (* Check for valid lane number. *)
      if (v <? 1) || (v >? 4) then
        dev_err "data-lanes must be in 1-4 range" [] ;;
        ret (- EINVAL, ls)
      else lane_swap_loop lanes_ dl (i + 1) n' ls
  end.

Definition rcsi2_parse_v4l2 (priv : rcar_csi2) (vep : v4l2_fwnode_endpoint)
  : M (Z * rcar_csi2) :=
  (* Only port 0 endpoint 0 is valid. *)
  if truthy (ep_port vep) || truthy (ep_id vep) then ret (- ENOTCONN, priv)
  else if negb (bus_type vep =? V4L2_MBUS_CSI2_DPHY) &&
          negb (bus_type vep =? V4L2_MBUS_CSI2_CPHY) then
    dev_err "Unsupported bus: %u" [bus_type vep] ;;
    ret (- EINVAL, priv)
  else
    let priv := set_lanes priv (u16 (num_data_lanes vep)) in
    let bad_lanes :=
      if bus_type vep =? V4L2_MBUS_CSI2_DPHY
      then negb (lanes priv =? 1) && negb (lanes priv =? 2) && negb (lanes priv =? 4)
      else negb (lanes priv =? 3) in
    if bad_lanes then
      dev_err "Unsupported number of data-lanes: %u" [lanes priv] ;;
      ret (- EINVAL, priv)
    else
      let priv := set_cphy_connection priv (negb (bus_type vep =? V4L2_MBUS_CSI2_DPHY)) in
      rl <- lane_swap_loop (lanes priv) (data_lanes vep) 0 4 (lane_swap priv) ;;
      let '(r, ls) := rl in
      ret (r, set_lane_swap priv ls).

(** *** Variant profiles *)

Definition rcar_csi2_info_r8a7795 : rcar_csi2_info :=
  {| init_phtw := Some rcsi2_init_phtw_h3_v3h_m3n_fn; phy_post_init := None;
     hsfreqrange := Some hsfreqrange_h3_v3h_m3n; csi0clkfreqrange := 0x20;
     num_channels := 4; features := 0; clear_ulps := true;
     no_use_vdt := false; has_phyfrx_reg := false; osc_freq_target := None |}.

Definition rcar_csi2_info_r8a7795es1 : rcar_csi2_info :=
  {| init_phtw := None; phy_post_init := None;
     hsfreqrange := Some hsfreqrange_m3w_h3es1; csi0clkfreqrange := 0;
     num_channels := 4; features := 0; clear_ulps := false;
     no_use_vdt := false; has_phyfrx_reg := false; osc_freq_target := None |}.

Definition rcar_csi2_info_r8a7795es2 : rcar_csi2_info :=
  {| init_phtw := Some rcsi2_init_phtw_h3es2_fn; phy_post_init := None;
     hsfreqrange := Some hsfreqrange_h3_v3h_m3n; csi0clkfreqrange := 0x20;
     num_channels := 4; features := 0; clear_ulps := true;
     no_use_vdt := false; has_phyfrx_reg := false; osc_freq_target := None |}.

Definition rcar_csi2_info_r8a7796 : rcar_csi2_info :=
  {| init_phtw := None; phy_post_init := None;
     hsfreqrange := Some hsfreqrange_m3w_h3es1; csi0clkfreqrange := 0;
     num_channels := 4; features := 0; clear_ulps := false;
     no_use_vdt := false; has_phyfrx_reg := false; osc_freq_target := None |}.

Definition rcar_csi2_info_r8a77965 : rcar_csi2_info :=
  {| init_phtw := Some rcsi2_init_phtw_h3_v3h_m3n_fn; phy_post_init := None;
     hsfreqrange := Some hsfreqrange_h3_v3h_m3n; csi0clkfreqrange := 0x20;
     num_channels := 4; features := 0; clear_ulps := true;
     no_use_vdt := false; has_phyfrx_reg := false; osc_freq_target := None |}.

Definition rcar_csi2_info_r8a77970 : rcar_csi2_info :=
  {| init_phtw := Some rcsi2_init_phtw_v3m_e3_fn;
     phy_post_init := Some rcsi2_phy_post_init_v3m_e3_fn;
     hsfreqrange := None; csi0clkfreqrange := 0;
     num_channels := 4; features := 0; clear_ulps := false;
     no_use_vdt := false; has_phyfrx_reg := false; osc_freq_target := None |}.

Definition rcar_csi2_info_r8a77980 : rcar_csi2_info :=
  {| init_phtw := Some rcsi2_init_phtw_h3_v3h_m3n_fn; phy_post_init := None;
     hsfreqrange := Some hsfreqrange_h3_v3h_m3n; csi0clkfreqrange := 0x20;
     num_channels := 4; features := 0; clear_ulps := true;
     no_use_vdt := false; has_phyfrx_reg := false; osc_freq_target := None |}.

Definition rcar_csi2_info_r8a77990 : rcar_csi2_info :=
  {| init_phtw := Some rcsi2_init_phtw_v3m_e3_fn;
     phy_post_init := Some rcsi2_phy_post_init_v3m_e3_fn;
     hsfreqrange := None; csi0clkfreqrange := 0;
     num_channels := 2; features := 0; clear_ulps := false;
     no_use_vdt := false; has_phyfrx_reg := false; osc_freq_target := None |}.

Definition rcar_csi2_info_r8a779g0 : rcar_csi2_info :=
  {| init_phtw := None; phy_post_init := None;
     hsfreqrange := None; csi0clkfreqrange := 0;
     num_channels := 16; features := RCAR_VIN_R8A779G0_FEATURE; clear_ulps := false;
     no_use_vdt := false; has_phyfrx_reg := false; osc_freq_target := None |}.

Definition rcar_csi2_info_r8a779a0 : rcar_csi2_info :=
  {| init_phtw := Some rcsi2_init_phtw_v3u_fn; phy_post_init := None;
     hsfreqrange := Some hsfreqrange_v3u; csi0clkfreqrange := 0x20;
     num_channels := 4; features := 0; clear_ulps := true;
     no_use_vdt := true; has_phyfrx_reg := true; osc_freq_target := None |}.

Definition rcar_csi2_info_r8a779h0 : rcar_csi2_info :=
  {| init_phtw := Some rcsi2_init_phtw_v4m_fn; phy_post_init := None;
     hsfreqrange := Some hsfreqrange_v4m; csi0clkfreqrange := 0x0C;
     num_channels := 16; features := RCAR_VIN_R8A779H0_FEATURE; clear_ulps := false;
     no_use_vdt := false; has_phyfrx_reg := false;
     osc_freq_target := Some osc_freq_target_v4m |}.

Definition rcar_csi2_info_r8a78000 : rcar_csi2_info :=
  {| init_phtw := Some rcsi2_init_phtw_v3u_fn; phy_post_init := None;
     hsfreqrange := Some hsfreqrange_v3u; csi0clkfreqrange := 0x20;
     num_channels := 4; features := RCAR_VIN_R8A78000_FEATURE; clear_ulps := true;
     no_use_vdt := true; has_phyfrx_reg := true; osc_freq_target := None |}.

End Driver.

(* ================================================================== *)
(** ** Vocabulary of the properties *)

(** Thresholds are non-zero, fit [u16] and never decrease; [lo] is a
    lower bound of the first one. *)
Fixpoint ascending (lo : Z) (body : list rcsi2_mbps_reg) : bool :=
  match body with
  | [] => true
  | e :: rest => (lo <=? mbps e) && (mbps e <? 2 ^ 16) && ascending (mbps e) rest
  end.

Definition ascending_table (body : list rcsi2_mbps_reg) : Prop :=
  ascending 1 body = true.

(** [e] is an entry of [body] nearest to [x]; among the entries at the
    same distance it has the lowest threshold. *)
Definition nearest_lower (body : list rcsi2_mbps_reg) (x : Z)
    (e : rcsi2_mbps_reg) : Prop :=
  In e body /\
  (forall e', In e' body -> Z.abs (mbps e - x) <= Z.abs (mbps e' - x)) /\
  (forall e', In e' body ->
     Z.abs (mbps e' - x) = Z.abs (mbps e - x) -> mbps e <= mbps e').

Definition is_log (e : event) : bool :=
  match e with EvLog _ _ _ => true | _ => false end.

Definition is_warning (e : event) : bool :=
  match e with EvLog KERN_WARNING _ _ => true | _ => false end.

Definition is_reg_write (e : event) : bool :=
  match e with EvWrite32 _ _ | EvWrite16 _ _ => true | _ => false end.

Definition is_pm_get (e : event) : bool :=
  match e with EvPmGet => true | _ => false end.

(** The request to the source to stop: [s_stream(0)] or [csi2cam_stop]. *)
Definition is_source_stop (e : event) : bool :=
  match e with
  | EvSubdevStream enable _ => enable =? 0
  | EvCamStop => true
  | _ => false
  end.

(** PHY teardown: the standby writes, the reset and the power release. *)
Definition is_teardown (e : event) : bool :=
  match e with
  | EvWrite32 _ _ | EvResetAssert | EvPmPut => true
  | _ => false
  end.

Definition count_events (p : event -> bool) (evs : list event) : nat :=
  List.length (filter p evs).

(** Index of the first event satisfying [p]. *)
Fixpoint first_index (p : event -> bool) (evs : list event) : option nat :=
  match evs with
  | [] => None
  | e :: rest => if p e then Some O else option_map S (first_index p rest)
  end.

(** Some [a]-event occurs, and before every [b]-event. *)
Definition precedes (a b : event -> bool) (evs : list event) : bool :=
  match first_index a evs, first_index b evs with
  | Some i, Some j => Nat.ltb i j
  | Some _, None => true
  | None, _ => false
  end.

(** The values written to PHTW_REG, in order. *)
Fixpoint phtw_writes (evs : list event) : list Z :=
  match evs with
  | [] => []
  | EvWrite32 r d :: rest =>
      if r =? PHTW_REG then d :: phtw_writes rest else phtw_writes rest
  | _ :: rest => phtw_writes rest
  end.

(** The entries of a register program before its first all-zero entry. *)
Fixpoint before_sentinel (values : list phtw_value) : list phtw_value :=
  match values with
  | [] => []
  | v :: rest =>
      if truthy (data v) || truthy (code v) then v :: before_sentinel rest else []
  end.

Definition is_prefix (l1 l2 : list Z) : Prop := exists l3, l2 = l1 ++ l3.

(** Whether the receiver is powered, read off the history: the last of
    [rcsi2_exit_standby] and [rcsi2_enter_standby] decides. *)
Inductive receiver_state := Standby | Active.

Definition receiver_state_of (init : receiver_state) (tr : trace) : receiver_state :=
  fold_left (fun s e => match e with
                        | EvPmGet => Active
                        | EvPmPut => Standby
                        | _ => s
                        end) tr init.

Definition INT_MAX : Z := 2 ^ 31 - 1.

(** The claim of the spec about a lookup above the table: the error, and
    no register written. *)
Definition out_of_range_outcome (tr : trace) (out : Z * trace) : Prop :=
  fst out = - ERANGE /\
  forall evs, snd out = tr ++ evs -> forallb (fun e => negb (is_reg_write e)) evs = true.

(** The previous-entry pointer after the scan has passed all of [l]. *)
Definition last_or (l : list rcsi2_mbps_reg) (prev : option rcsi2_mbps_reg)
  : option rcsi2_mbps_reg :=
  match l with
  | [] => prev
  | _ => Some (last l mbps_sentinel)
  end.

(** Every event a computation adds satisfies [p]. *)
Definition emits {A} (p : event -> bool) (m : M A) : Prop :=
  forall tr, exists evs, snd (m tr) = tr ++ evs /\ forallb p evs = true.

Definition not_pm_get (e : event) : bool := negb (is_pm_get e).
Definition not_warning (e : event) : bool := negb (is_warning e).

Definition not_reg_write (e : event) : bool := negb (is_reg_write e).

(** The word [rcsi2_phtw_write] puts on PHTW_REG for a program entry. *)
Definition phtw_entry_word (v : phtw_value) : Z := u32 (phtw_word (data v) (code v)).

(** A physical lane number that [rcsi2_parse_v4l2] lets through. *)
Definition lane_in_range (v : Z) : bool := (1 <=? v) && (v <=? 4).

(** Port 0, endpoint 0, a CSI-2 bus and a lane count that fits it. *)
Definition endpoint_header_ok (vep : v4l2_fwnode_endpoint) : bool :=
  (ep_port vep =? 0) && (ep_id vep =? 0) &&
  (((bus_type vep =? V4L2_MBUS_CSI2_DPHY) &&
    ((u16 (num_data_lanes vep) =? 1) || (u16 (num_data_lanes vep) =? 2) ||
     (u16 (num_data_lanes vep) =? 4))) ||
   ((bus_type vep =? V4L2_MBUS_CSI2_CPHY) && (u16 (num_data_lanes vep) =? 3))).

(** The lane numbers the endpoint assigns to the lanes in use. *)
Definition used_data_lanes (vep : v4l2_fwnode_endpoint) : list Z :=
  map (fun v => v mod 256)
      (firstn (Z.to_nat (u16 (num_data_lanes vep))) (data_lanes vep)).

(** What [priv->lane_swap] holds after a successful parse. *)
Definition parsed_lane_swap (vep : v4l2_fwnode_endpoint) : list Z :=
  map (fun i => if i <? u16 (num_data_lanes vep)
                then nth (Z.to_nat i) (data_lanes vep) 0 mod 256 else i)
      [0; 1; 2; 3].

(** The events of [rcsi2_enter_standby] on a variant with the feature
    bits [g0] (R8A779G0) and [x5h] (R8A78000). *)
Definition standby_events (g0 x5h : Z) (priv : rcar_csi2) : list event :=
  (if has_feature priv g0 then []
   else [EvWrite32 PHYCNT_REG 0; EvWrite32 PHTC_REG PHTC_TESTCLR]) ++
  (if has_feature priv x5h then [] else [EvResetAssert]) ++
  [EvSleep 100 150; EvPmPut].

(** [rcsi2_s_stream] gets past its NULL check: the variant has the
    R8A78000 feature [x5h], or a remote is bound. *)
Definition passes_remote_check (x5h : Z) (priv : rcar_csi2) : bool :=
  has_feature priv x5h || remote priv.

(** A bring-up result other than 0 leaves the receiver in standby. *)
Definition fails_in_standby (m : M result) : Prop :=
  forall tr res tr', m tr = (res, tr') ->
  forall r, res = Returned r -> r <> 0 ->
  forall s, receiver_state_of s tr' = Standby.

(** Hardware whose calibration-ready bit never comes up. *)
Definition never_ready (env : environment) : Prop :=
  forall tr, Z.land (u32 (env_ioread32 env tr ST_PHYST)) ST_PHY_READY = 0.

(** A computation whose result is [c] whatever happened before. *)
Definition returns {A} (c : A) (m : M A) : Prop := forall tr, fst (m tr) = c.

(** The log line of [rcsi2_irq_thread] after a failed restart. *)
Definition restart_failed : event :=
  EvLog KERN_WARNING "Failed to restart CSI-2 receiver" [].

(** The request to the source to start: [s_stream(1)] or [csi2cam_start]. *)
Definition is_source_start (e : event) : bool :=
  match e with
  | EvSubdevStream enable _ => negb (enable =? 0)
  | EvCamStart _ => true
  | _ => false
  end.

Section Runs.

Variables RCAR_VIN_R8A779G0_FEATURE RCAR_VIN_R8A779H0_FEATURE
          RCAR_VIN_R8A78000_FEATURE : Z.
Variable env : environment.
Variable uninit : Z.

(** A sequence of [s_stream] calls, one after the other.  After an oops
    the lock is never released and no later call gets in. *)
Fixpoint run_calls (calls : list Z) (priv : rcar_csi2) : M (list result * rcar_csi2) :=
  match calls with
  | [] => ret ([], priv)
  | enable :: rest =>
      rp <- rcsi2_s_stream RCAR_VIN_R8A779G0_FEATURE RCAR_VIN_R8A779H0_FEATURE
              RCAR_VIN_R8A78000_FEATURE env uninit priv enable ;;
      let '(r, priv') := rp in
      match r with
      | Oops => ret ([Oops], priv')
      | Returned _ =>
          rr <- run_calls rest priv' ;;
          let '(rs, priv'') := rr in
          ret (r :: rs, priv'')
      end
  end.

(** One [s_stream] call that returns, and that is no [stop()] at count 0
    and no [start()] at the largest [int]. *)
Inductive paired_step : rcar_csi2 * trace -> rcar_csi2 * trace -> Prop :=
| paired_call priv tr enable r priv' tr' :
    rcsi2_s_stream RCAR_VIN_R8A779G0_FEATURE RCAR_VIN_R8A779H0_FEATURE
      RCAR_VIN_R8A78000_FEATURE env uninit priv enable tr
      = ((Returned r, priv'), tr') ->
    (truthy enable = false -> stream_count priv <> 0) ->
    (truthy enable = true -> stream_count priv < INT_MAX) ->
    paired_step (priv, tr) (priv', tr').

Inductive paired_run : rcar_csi2 * trace -> rcar_csi2 * trace -> Prop :=
| paired_nil s : paired_run s s
| paired_cons s1 s2 s3 : paired_run s1 s2 -> paired_step s2 s3 -> paired_run s1 s3.

End Runs.

(* ================================================================== *)
(** ** Concrete inputs *)

(** An assignment of the three feature bits. *)
Definition G0_BIT : Z := BIT 1.
Definition H0_BIT : Z := BIT 2.
Definition X5H_BIT : Z := BIT 3.

(** Hardware that acknowledges every PHTW request at once and shows
    every status bit set; a source that streams at 100 MHz pixel rate
    and has no get_mbus_config operation. *)
Definition env_ready : environment :=
  {| env_ioread32 := fun _ r => if r =? PHTW_REG then 0 else 0xffffffff;
     env_ioread16 := fun _ _ => 0;
     env_s_stream := fun _ _ => 0;
     env_csi2cam_start := fun _ => 0;
     env_pixel_rate := fun _ => Some 100000000;
     env_get_mbus_config := fun _ => (- ENOIOCTLCMD, 0, 0) |}.

(** The same, with hardware whose registers all read zero: no status
    bit ever comes up. *)
Definition env_silent : environment :=
  {| env_ioread32 := fun _ _ => 0;
     env_ioread16 := fun _ _ => 0;
     env_s_stream := fun _ _ => 0;
     env_csi2cam_start := fun _ => 0;
     env_pixel_rate := fun _ => Some 100000000;
     env_get_mbus_config := fun _ => (- ENOIOCTLCMD, 0, 0) |}.

Definition mf_rgb888 : v4l2_mbus_framefmt :=
  {| width := 1920; height := 1080; mf_code := MEDIA_BUS_FMT_RGB888_1X24;
     field := V4L2_FIELD_NONE |}.

(** An H3 (r8a7795) receiver on four D-PHY lanes, bound to its source. *)
Definition priv_h3 : rcar_csi2 :=
  {| info := rcar_csi2_info_r8a7795; remote := true; mf := mf_rgb888;
     stream_count := 0; lanes := 4; lane_swap := [1; 2; 3; 4];
     cphy_connection := false; pin_swap := false;
     pin_swap_rx_order := [0; 0; 0; 0]; hs_receive_eq := [4; 4; 4; 4] |}.

(** A V3M (r8a77970) receiver, whose PHTW program is keyed by speed. *)
Definition priv_v3m : rcar_csi2 :=
  {| info := rcar_csi2_info_r8a77970; remote := true; mf := mf_rgb888;
     stream_count := 0; lanes := 4; lane_swap := [1; 2; 3; 4];
     cphy_connection := false; pin_swap := false;
     pin_swap_rx_order := [0; 0; 0; 0]; hs_receive_eq := [4; 4; 4; 4] |}.

(** A V4H (r8a779g0) receiver on three C-PHY trios. *)
Definition priv_v4h_cphy : rcar_csi2 :=
  {| info := rcar_csi2_info_r8a779g0 G0_BIT; remote := true; mf := mf_rgb888;
     stream_count := 0; lanes := 3; lane_swap := [1; 2; 3; 3];
     cphy_connection := true; pin_swap := false;
     pin_swap_rx_order := [0; 0; 0; 0]; hs_receive_eq := [4; 4; 4; 4] |}.

(** An X5H (r8a78000) receiver. *)
Definition priv_x5h : rcar_csi2 :=
  {| info := rcar_csi2_info_r8a78000 X5H_BIT; remote := false; mf := mf_rgb888;
     stream_count := 0; lanes := 4; lane_swap := [1; 2; 3; 4];
     cphy_connection := false; pin_swap := false;
     pin_swap_rx_order := [0; 0; 0; 0]; hs_receive_eq := [4; 4; 4; 4] |}.

(** The table of the spec's example. *)
Definition example_table : list rcsi2_mbps_reg :=
  [ MR 90 0x10; MR 100 0x20; MR 110 0x30 ].

(** Two D-PHY lanes both mapped to physical lane 1. *)
Definition vep_duplicate : v4l2_fwnode_endpoint :=
  {| ep_port := 0; ep_id := 0; bus_type := V4L2_MBUS_CSI2_DPHY;
     num_data_lanes := 2; data_lanes := [1; 1; 0; 0] |}.

(** Two D-PHY lanes, the second mapped to physical lane 5. *)
Definition vep_out_of_range : v4l2_fwnode_endpoint :=
  {| ep_port := 0; ep_id := 0; bus_type := V4L2_MBUS_CSI2_DPHY;
     num_data_lanes := 2; data_lanes := [1; 5; 0; 0] |}.

(** The run on which a calibration timeout goes unreported: the first
    [s_stream(1)] of a V4H C-PHY receiver whose PHY never gets ready. *)
Definition v4h_timeout_run : result * rcar_csi2 * trace :=
  rcsi2_s_stream G0_BIT H0_BIT X5H_BIT env_silent 0 priv_v4h_cphy 1 [].

(** An H3 receiver with one stream running. *)
Definition priv_h3_streaming : rcar_csi2 := set_stream_count priv_h3 1.

(** Three [s_stream(1)] calls in a row on the H3 receiver. *)
Definition three_starts : list result * rcar_csi2 * trace :=
  run_calls G0_BIT H0_BIT X5H_BIT env_ready 0 (repeat 1 3%nat) priv_h3 [].

(** The last [s_stream(0)] of the H3 receiver. *)
Definition last_stop : result * rcar_csi2 * trace :=
  rcsi2_s_stream G0_BIT H0_BIT X5H_BIT env_ready 0 priv_h3_streaming 0 [].

(* ================================================================== *)
(** ** The subdevice operations *)

(** *** Pad formats *)

(** Modelled from the spec: [enum v4l2_subdev_format_whence] of
    include/uapi/linux/v4l2-subdev.h, which is not part of src/; the spec
    has the format accessors as pass-through. *)
Definition V4L2_SUBDEV_FORMAT_TRY : Z := 0.
Definition V4L2_SUBDEV_FORMAT_ACTIVE : Z := 1.

(** The fields of [struct v4l2_subdev_format] that the driver uses. *)
Record v4l2_subdev_format := {
  which : Z;
  format : v4l2_mbus_framefmt
}.

Definition set_code (f : v4l2_mbus_framefmt) (c : Z) : v4l2_mbus_framefmt :=
  {| width := width f; height := height f; mf_code := c; field := field f |}.

Definition set_format (f : v4l2_subdev_format) (m : v4l2_mbus_framefmt)
  : v4l2_subdev_format :=
  {| which := which f; format := m |}.

Definition set_mf (p : rcar_csi2) (m : v4l2_mbus_framefmt) : rcar_csi2 :=
  {| info := info p; remote := remote p; mf := m; stream_count := stream_count p;
     lanes := lanes p; lane_swap := lane_swap p;
     cphy_connection := cphy_connection p; pin_swap := pin_swap p;
     pin_swap_rx_order := pin_swap_rx_order p; hs_receive_eq := hs_receive_eq p |}.

(** Modelled from the spec: [v4l2_subdev_get_try_format(sd, cfg, 0)] of
    include/media/v4l2-subdev.h, which is not part of src/, is the address
    of the try format of pad 0 in the pad configuration; the spec has the
    format accessors as pass-through.  The pad configuration is that one
    format, [try_fmt], handed in and out.

    The result, the receiver instance, the try format and [*format] after
    the call. *)
Definition rcsi2_set_pad_format (priv : rcar_csi2) (try_fmt : v4l2_mbus_framefmt)
    (fmt : v4l2_subdev_format)
  : Z * rcar_csi2 * v4l2_mbus_framefmt * v4l2_subdev_format :=
  let fmt :=
    match rcsi2_code_to_fmt (mf_code (format fmt)) with
    | None =>
        set_format fmt
          (set_code (format fmt) (fmt_code (nth 0 rcar_csi2_formats (FMT 0 0 0))))
    | Some _ => fmt
    end in
  if which fmt =? V4L2_SUBDEV_FORMAT_ACTIVE
  then (0, set_mf priv (format fmt), try_fmt, fmt)
  else (0, priv, format fmt, fmt).

(** The result and [*format] after the call. *)
Definition rcsi2_get_pad_format (priv : rcar_csi2) (try_fmt : v4l2_mbus_framefmt)
    (fmt : v4l2_subdev_format) : Z * v4l2_subdev_format :=
  if which fmt =? V4L2_SUBDEV_FORMAT_ACTIVE
  then (0, set_format fmt (mf priv))
  else (0, set_format fmt try_fmt).

(** *** Binding of the source *)

Definition set_remote (p : rcar_csi2) (b : bool) : rcar_csi2 :=
  {| info := info p; remote := b; mf := mf p; stream_count := stream_count p;
     lanes := lanes p; lane_swap := lane_swap p;
     cphy_connection := cphy_connection p; pin_swap := pin_swap p;
     pin_swap_rx_order := pin_swap_rx_order p; hs_receive_eq := hs_receive_eq p |}.

(** Modelled from the spec: media_entity_get_fwnode_pad and
    media_create_pad_link belong to the media core, which is not part of
    src/; the spec has the source as an external collaborator.  [pad] is
    what the first answers and [link] what the second answers.  Of
    [priv->remote] the instance keeps whether it is NULL; [priv->remote_pad]
    is [pad] whenever the remote is set here. *)
Definition rcsi2_notify_bound (priv : rcar_csi2) (pad link : Z) : M (Z * rcar_csi2) :=
  if pad <? 0 then
    dev_err "Failed to find pad for %s" [] ;;
    ret (pad, priv)
  else
    let priv := set_remote priv true in
    dev_dbg "Bound %s pad: %d" [pad] ;;
    ret (link, priv).

Definition rcsi2_notify_unbind (priv : rcar_csi2) : M rcar_csi2 :=
  let priv := set_remote priv false in
  dev_dbg "Unbind %s" [] ;;
  ret priv.

(* ================================================================== *)
(** ** Vocabulary of the further properties *)

(** A pixel code that [rcsi2_code_to_fmt] finds in the format table. *)
Definition supported_code (c : Z) : Prop := rcsi2_code_to_fmt c <> None.

Definition is_sleep (e : event) : bool :=
  match e with EvSleep _ _ => true | _ => false end.

Definition is_reg_read (e : event) : bool :=
  match e with EvRead32 _ _ | EvRead16 _ _ => true | _ => false end.

Definition is_error_log (e : event) : bool :=
  match e with EvLog KERN_ERR _ _ => true | _ => false end.

Definition is_lock_event (e : event) : bool :=
  match e with EvLock | EvUnlock => true | _ => false end.

Definition is_pm_put (e : event) : bool :=
  match e with EvPmPut => true | _ => false end.

Definition is_reset_assert (e : event) : bool :=
  match e with EvResetAssert => true | _ => false end.

Definition is_reset_deassert (e : event) : bool :=
  match e with EvResetDeassert => true | _ => false end.

(** What programming the receiver consists of: register accesses,
    sleeps, log lines and the two questions to the source (pixel rate,
    bus configuration).  No power reference, reset line, lock or stream
    request. *)
Definition is_programming (e : event) : bool :=
  match e with
  | EvWrite32 _ _ | EvWrite16 _ _ | EvRead32 _ _ | EvRead16 _ _
  | EvSleep _ _ | EvLog _ _ _ | EvPixelRate _ _ | EvMbusConfig _ _ _ => true
  | _ => false
  end.

(** No register is touched and nobody sleeps. *)
Definition is_quiet (e : event) : bool :=
  match e with
  | EvLog _ _ _ | EvPixelRate _ _ | EvMbusConfig _ _ _ => true
  | _ => false
  end.

(** Register reads and sleeps: what a poll loop does. *)
Definition is_polling (e : event) : bool :=
  match e with EvRead32 _ _ | EvSleep _ _ => true | _ => false end.

(** Anything but a write to PHTW_REG or a sleep. *)
Definition not_phtw_traffic (e : event) : bool :=
  match e with
  | EvWrite32 r _ => negb (r =? PHTW_REG)
  | EvSleep _ _ => false
  | _ => true
  end.

(** The interrupt handler may read and write registers and log. *)
Definition is_handler_event (e : event) : bool :=
  match e with
  | EvWrite32 _ _ | EvRead32 _ _ | EvLog _ _ _ => true
  | _ => false
  end.

(** The 2-bit field [i] of a lane-swap word. *)
Definition lswap_field (w : Z) (i : Z) : Z := Z.land (Z.shiftr w (2 * i)) 0x3.

(** Every write to LSWAP_REG carries the word [w]. *)
Definition lswap_writes_are (w : Z) (e : event) : bool :=
  match e with
  | EvWrite32 r d => if r =? LSWAP_REG then d =? w else true
  | _ => true
  end.

(** The entries of a C-PHY table have non-zero rates in strictly
    increasing order above [lo]. *)
Fixpoint cphy_ascending (lo : Z) (body : list rcsi2_cphy_setting) : bool :=
  match body with
  | [] => true
  | e :: rest => (lo <? msps e) && cphy_ascending (msps e) rest
  end.

(** Hardware whose clock lane never reports the stop state. *)
Definition never_lp11 (env : environment) : Prop :=
  forall tr, Z.land (u32 (env_ioread32 env tr PHCLM_REG)) PHCLM_STOPSTATECKL = 0.

(** The power state follows the stream count. *)
Definition power_follows_count (s : rcar_csi2 * trace) : Prop :=
  0 <= stream_count (fst s) <= INT_MAX /\
  receiver_state_of Standby (snd s) =
    (if 0 <? stream_count (fst s) then Active else Standby).

(** The word of a PHTW request for the bytes [d] and [c]: both enable
    bits, [d] in bits 23..16 and [c] in bits 7..0. *)
Definition phtw_word_ok (d c : Z) : bool :=
  let w := u32 (phtw_word d c) in
  (w =? 2 ^ 24 + 2 ^ 16 * d + 2 ^ 8 + c) &&
  Z.testbit w 24 && Z.testbit w 8 &&
  (Z.land (Z.shiftr w 16) 0xff =? d) && (Z.land w 0xff =? c).

(** What the PHY helpers do: as [is_programming], and no write to
    LSWAP_REG. *)
Definition is_phy_programming (e : event) : bool :=
  match e with
  | EvWrite32 r _ => negb (r =? LSWAP_REG)
  | EvWrite16 _ _ | EvRead32 _ _ | EvRead16 _ _
  | EvSleep _ _ | EvLog _ _ _ | EvPixelRate _ _ | EvMbusConfig _ _ _ => true
  | _ => false
  end.

(** A computation that never returns 0. *)
Definition never_zero (m : M Z) : Prop := forall tr, fst (m tr) <> 0.


(** The events of [rcsi2_exit_standby] on a variant with the feature
    bit [x5h] (R8A78000). *)
Definition wakeup_events (x5h : Z) (priv : rcar_csi2) : list event :=
  EvPmGet :: (if has_feature priv x5h then [] else [EvResetDeassert]).

(** The log line between the receiver bring-up and the start of the source. *)
Definition link_programmed : event :=
  EvLog KERN_DEBUG "Set the Link and PHY of CSI-2 module registers" [].

(** The ways [rcsi2_start] can end, as the events after the receiver
    bring-up: an oops in it, its failure, the failure of the source, or
    success. *)
Inductive start_outcome (g0 x5h : Z) (priv : rcar_csi2) : result -> list event -> Prop :=
| start_oops : start_outcome g0 x5h priv Oops []
| start_receiver_failed r :
    r <> 0 -> start_outcome g0 x5h priv (Returned r) (standby_events g0 x5h priv)
| start_source_failed r src :
    r <> 0 -> is_source_start src = true ->
    start_outcome g0 x5h priv (Returned r)
      ([link_programmed; src] ++ standby_events g0 x5h priv)
| start_succeeded src hw :
    is_source_start src = true -> forallb is_programming hw = true ->
    start_outcome g0 x5h priv (Returned 0) ([link_programmed; src] ++ hw).

(** The receiver bring-up that [rcsi2_start] picks for the variant. *)
Definition start_receiver_of (g0 h0 x5h : Z) (env : environment) (uninit : Z)
    (priv : rcar_csi2) : M result :=
  if has_feature priv g0 then rcsi2_start_receiver_v4h x5h env priv
  else if has_feature priv h0 then rcsi2_start_receiver_v4m h0 x5h env uninit priv
  else if has_feature priv x5h then rcsi2_start_receiver_x5h x5h env priv
  else (r <- rcsi2_start_receiver h0 x5h env uninit priv ;; ret (Returned r)).

(** Hardware whose D-PHY never reports the end of its power-on reset. *)
Definition never_por (env : environment) : Prop :=
  forall tr, Z.land (Z.land (u32 (env_ioread32 env tr V4M_PHTR)) 0xf0000) 0x70000 = 0.

(** The word of four physical lane numbers in LSWAP_REG. *)
Definition lswap_word (l : list Z) : Z :=
  u32 (Z.lor (Z.lor (Z.lor (LSWAP_L0SEL (nth 0 l 0 - 1)) (LSWAP_L1SEL (nth 1 l 0 - 1)))
                    (LSWAP_L2SEL (nth 2 l 0 - 1)))
             (LSWAP_L3SEL (nth 3 l 0 - 1))).

(** Hardware whose lanes never all report the stop state. *)
Definition never_stopstate (env : environment) : Prop :=
  forall tr, v4h_stopstate (u32 (env_ioread32 env tr ST_PHYST)) = false.

(** The request of [rcsi2_start] to the source, by variant. *)
Definition source_start (x5h : Z) (env : environment) (priv : rcar_csi2) : M Z :=
  if has_feature priv x5h then csi2cam_start env
  else v4l2_subdev_call_s_stream env priv 1.

(* ================================================================== *)
(** ** Further concrete inputs *)

(** A V4M (r8a779h0) receiver on four D-PHY lanes. *)
Definition priv_v4m : rcar_csi2 :=
  {| info := rcar_csi2_info_r8a779h0 H0_BIT; remote := true; mf := mf_rgb888;
     stream_count := 0; lanes := 4; lane_swap := [1; 2; 3; 4];
     cphy_connection := false; pin_swap := false;
     pin_swap_rx_order := [0; 0; 0; 0]; hs_receive_eq := [4; 4; 4; 4] |}.

(** The first [s_stream(1)] of the H3 receiver. *)
Definition first_start : result * rcar_csi2 * trace :=
  rcsi2_s_stream G0_BIT H0_BIT X5H_BIT env_ready 0 priv_h3 1 [].

(* ================================================================== *)
(** ** Facts about ascending tables and the scan *)

Lemma ascending_bounds lo body e :
  ascending lo body = true -> In e body -> lo <= mbps e < 2 ^ 16.
Proof.
  revert lo. induction body as [|a body IH]; simpl; intros lo H Hin; [easy|].
  apply andb_prop in H as [H Hrest]. apply andb_prop in H as [Hlo Hhi].
  apply Z.leb_le in Hlo. apply Z.ltb_lt in Hhi.
  destruct Hin as [->|Hin]; [lia|].
  specialize (IH _ Hrest Hin). lia.
Qed.

Lemma ascending_cross lo l1 l2 a b :
  ascending lo (l1 ++ l2) = true -> In a l1 -> In b l2 -> mbps a <= mbps b.
Proof.
  revert lo. induction l1 as [|c l1 IH]; simpl; intros lo H Ha Hb; [easy|].
  apply andb_prop in H as [_ Hrest].
  destruct Ha as [->|Ha].
  - apply (ascending_bounds _ _ b) in Hrest; [lia|]. apply in_or_app. now right.
  - eapply IH; eauto.
Qed.


Lemma mbps_scan_split x l1 cur l2 prev :
  Forall (fun e => mbps e <> 0 /\ mbps e < x) l1 ->
  mbps cur <> 0 -> x <= mbps cur ->
  mbps_scan x (l1 ++ cur :: l2) prev = (cur, last_or l1 prev).
Proof.
  intros Hl1 Hnz Hge. revert prev.
  induction Hl1 as [|a l1 [Ha0 Hax] _ IH]; intros prev; simpl.
  - apply Z.eqb_neq in Hnz. rewrite Hnz.
    assert ((mbps cur >=? x) = true) as -> by (apply Z.geb_le; lia). reflexivity.
  - apply Z.eqb_neq in Ha0. rewrite Ha0.
    assert ((mbps a >=? x) = false) as ->.
    { rewrite Z.geb_leb. apply Z.leb_gt. lia. }
    rewrite IH. destruct l1; reflexivity.
Qed.

Lemma mbps_scan_all_below x body prev :
  Forall (fun e => mbps e <> 0 /\ mbps e < x) body ->
  mbps_scan x (body ++ [mbps_sentinel]) prev = (mbps_sentinel, last_or body prev).
Proof.
  intros H. revert prev.
  induction H as [|a l1 [Ha0 Hax] _ IH]; intros prev; simpl; [reflexivity|].
  apply Z.eqb_neq in Ha0. rewrite Ha0.
  assert ((mbps a >=? x) = false) as ->.
  { rewrite Z.geb_leb. apply Z.leb_gt. lia. }
  rewrite IH. destruct l1; reflexivity.
Qed.

(** The first entry at or above [x], when there is one. *)
Lemma first_at_or_above x (body : list rcsi2_mbps_reg) :
  (exists e, In e body /\ x <= mbps e) ->
  exists l1 cur l2, body = l1 ++ cur :: l2 /\
    Forall (fun e => mbps e < x) l1 /\ x <= mbps cur.
Proof.
  induction body as [|a body IH]; intros [e [Hin He]]; [easy|].
  destruct (Z_lt_le_dec (mbps a) x) as [Hlt|Hge].
  - destruct Hin as [->|Hin]; [lia|].
    destruct IH as (l1 & cur & l2 & -> & Hl1 & Hcur); [now exists e|].
    exists (a :: l1), cur, l2. repeat split; auto.
  - exists [], a, body. repeat split; auto.
Qed.

Lemma last_in (l : list rcsi2_mbps_reg) d : l <> [] -> In (last l d) l.
Proof.
  induction l as [|a l IH]; [easy|]. intros _.
  destruct l as [|b l]; [now left|].
  right. apply IH. discriminate.
Qed.

Lemma last_snoc (l : list rcsi2_mbps_reg) a d : last (l ++ [a]) d = a.
Proof. apply last_last. Qed.

(** The entry the three lookups settle on, for a target inside the table. *)
Lemma lookup_in_range body x :
  ascending_table body -> body <> [] ->
  mbps (table_head body) <= x <= mbps (last body mbps_sentinel) ->
  exists cur prev,
    mbps_scan x (body ++ [mbps_sentinel]) None = (cur, prev) /\
    mbps cur <> 0 /\
    nearest_lower body x (prefer_prev x cur prev).
Proof.
  intros Hasc Hne [Hlo Hhi].
  destruct (first_at_or_above x body) as (l1 & cur & l2 & Hbody & Hl1 & Hcur).
  { exists (last body mbps_sentinel). split; [now apply last_in|lia]. }
  assert (Hb : forall e, In e body -> 1 <= mbps e < 2 ^ 16)
    by (intros e He; eapply ascending_bounds; eauto).
  assert (Hcin : In cur body) by (subst body; apply in_or_app; right; now left).
  assert (Hl1' : Forall (fun e => mbps e <> 0 /\ mbps e < x) l1).
  { rewrite Forall_forall in *. intros e He. specialize (Hl1 e He).
    assert (In e body) by (subst body; apply in_or_app; now left).
    specialize (Hb e H). lia. }
  exists cur, (last_or l1 None). split; [|split].
  - subst body. rewrite <- app_assoc. simpl.
    apply mbps_scan_split; auto. specialize (Hb cur Hcin). lia.
  - specialize (Hb cur Hcin). lia.
  - assert (Hl2 : forall e, In e (cur :: l2) -> mbps cur <= mbps e).
    { intros e [->|He]; [lia|].
      unfold ascending_table in Hasc. subst body.
      replace (l1 ++ cur :: l2) with ((l1 ++ [cur]) ++ l2) in Hasc
        by (rewrite <- app_assoc; reflexivity).
      eapply ascending_cross; eauto. apply in_or_app. right. now left. }
    destruct l1 as [|a l1'] using rev_ind.
    + (* no previous entry: the first entry is chosen *)
      simpl. subst body. simpl in *.
      split; [now left|]. split.
      * intros e' He'. specialize (Hl2 e' He'). lia.
      * intros e' He' _. now apply Hl2.
    + clear IHl1'.
      assert (Hlast : last_or (l1' ++ [a]) None = Some a).
      { unfold last_or. rewrite last_snoc. destruct l1'; reflexivity. }
      rewrite Hlast. simpl.
      assert (Hax : mbps a < x).
      { rewrite Forall_forall in Hl1. apply Hl1. apply in_or_app. right. now left. }
      assert (Hain : In a body).
      { subst body. apply in_or_app. left. apply in_or_app. right. now left. }
      assert (Hbefore : forall e, In e (l1' ++ [a]) -> mbps e <= mbps a).
      { intros e He. apply in_app_or in He as [He|[->|[]]]; [|lia].
        unfold ascending_table in Hasc. subst body.
        rewrite <- app_assoc in Hasc.
        eapply ascending_cross; eauto. now left. }
      pose proof (Hb a Hain) as Ha. pose proof (Hb cur Hcin) as Hc.
      assert (Hsplit : forall e, In e body ->
                 mbps e <= mbps a \/ mbps cur <= mbps e).
      { intros e He. subst body. apply in_app_or in He as [He|He]; auto. }
      assert (Hu1 : u32 (x - mbps a) = x - mbps a).
      { unfold u32. apply Z.mod_small. lia. }
      assert (Hu2 : u32 (mbps cur - x) = mbps cur - x).
      { unfold u32. apply Z.mod_small. lia. }
      rewrite Hu1, Hu2.
      destruct (Z.leb_spec (x - mbps a) (mbps cur - x)) as [Hle|Hgt].
      * split; [assumption|]. split.
        -- intros e' He'. destruct (Hsplit e' He'); lia.
        -- intros e' He' Heq. destruct (Hsplit e' He'); lia.
      * split; [assumption|]. split.
        -- intros e' He'. destruct (Hsplit e' He'); lia.
        -- intros e' He' Heq. destruct (Hsplit e' He'); lia.
Qed.

Lemma ascending_le_last lo body e :
  ascending lo body = true -> In e body -> mbps e <= mbps (last body mbps_sentinel).
Proof.
  intros Hasc Hin.
  destruct body as [|a body] using rev_ind; [easy|]. clear IHbody.
  rewrite last_snoc.
  apply in_app_or in Hin as [Hin|[->|[]]]; [|lia].
  eapply ascending_cross; eauto. now left.
Qed.

Lemma table_head_app body :
  body <> [] -> table_head (body ++ [mbps_sentinel]) = table_head body.
Proof. destruct body; [easy|reflexivity]. Qed.

Lemma mbps_scan_below x table :
  0 <= x -> x < mbps (table_head table) ->
  mbps_scan x table None = (table_head table, None).
Proof.
  intros Hx Hlt. destruct table as [|first rest]; [simpl in Hlt; lia|].
  simpl in *.
  assert ((mbps first =? 0) = false) as -> by (apply Z.eqb_neq; lia).
  assert ((mbps first >=? x) = true) as -> by (apply Z.geb_le; lia). reflexivity.
Qed.

Lemma u16_neg_ERANGE : u16 (- ERANGE) = 65502.
Proof. reflexivity. Qed.


(** ** The events a computation adds *)

Lemma emits_ret {A} p (a : A) : emits p (ret a).
Proof. intros tr. exists []. now rewrite app_nil_r. Qed.

Lemma emits_emit p e : p e = true -> emits p (emit e).
Proof. intros He tr. exists [e]. simpl. now rewrite He. Qed.

Lemma emits_bind {A B} p (m : M A) (f : A -> M B) :
  emits p m -> (forall a, emits p (f a)) -> emits p (bind m f).
Proof.
  intros Hm Hf tr. unfold bind.
  destruct (Hm tr) as (evs1 & H1 & A1).
  destruct (m tr) as [a tr']. simpl in H1. subst tr'.
  destruct (Hf a (tr ++ evs1)) as (evs2 & H2 & A2).
  exists (evs1 ++ evs2). rewrite H2, app_assoc. split; [reflexivity|].
  now rewrite forallb_app, A1, A2.
Qed.

Lemma emits_when p b m : emits p m -> emits p (when b m).
Proof. destruct b; simpl; [auto|intros _; apply emits_ret]. Qed.

Lemma emits_read p env r : (forall v, p (EvRead32 r v) = true) -> emits p (rcsi2_read env r).
Proof. intros H tr. eexists [_]. split; [reflexivity|]. simpl. now rewrite H. Qed.

Lemma emits_read16 p env r : (forall v, p (EvRead16 r v) = true) -> emits p (rcsi2_read16 env r).
Proof. intros H tr. eexists [_]. split; [reflexivity|]. simpl. now rewrite H. Qed.

Lemma emits_for_each {A} p (l : list A) (body : Z -> A -> M unit) :
  (forall i a, emits p (body i a)) -> forall i, emits p (for_each l i body).
Proof.
  intros Hbody. induction l as [|a l IH]; intros i; simpl.
  - apply emits_ret.
  - apply emits_bind; auto.
Qed.

Create HintDb emits discriminated.

Ltac emits_auto :=
  unfold rcsi2_modify, rcsi2_modify16;
  unfold dev_dbg, dev_info, dev_warn, dev_err, usleep_range,
    rcsi2_write, rcsi2_write16;
  cbv zeta;
  repeat match goal with
         | |- emits _ (bind _ _) => apply emits_bind; [|intros; cbv beta zeta]
         | |- emits _ (ret _) => apply emits_ret
         | |- emits _ (emit _) => apply emits_emit; reflexivity
         | |- emits _ (when _ _) => apply emits_when
         | |- emits _ (for_each _ _ _) => apply emits_for_each; intros; cbv beta zeta
         | |- emits _ (rcsi2_read _ _) => apply emits_read; intros; reflexivity
         | |- emits _ (rcsi2_read16 _ _) => apply emits_read16; intros; reflexivity
         | |- emits _ (if ?b then _ else _) => destruct b
         | |- emits _ (match ?x with _ => _ end) => destruct x
         | |- emits _ _ => solve [auto with emits]
         end.

Section LookupProperties.

Variables RCAR_VIN_R8A779H0_FEATURE RCAR_VIN_R8A78000_FEATURE : Z.
Variable env : environment.

Local Abbreviation set_phypll := (rcsi2_set_phypll RCAR_VIN_R8A779H0_FEATURE).
Local Abbreviation phtw_write := (rcsi2_phtw_write RCAR_VIN_R8A78000_FEATURE env).
Local Abbreviation phtw_write_mbps := (rcsi2_phtw_write_mbps RCAR_VIN_R8A78000_FEATURE env).

(** The register [rcsi2_set_phypll] writes on this variant. *)
Local Abbreviation phypll_reg priv :=
  (if has_feature priv RCAR_VIN_R8A779H0_FEATURE then V4M_PHYPLL else PHYPLL_REG).

Lemma set_phypll_found priv table x tr cur prev :
  ~ x < mbps (table_head table) ->
  mbps_scan x table None = (cur, prev) -> mbps cur <> 0 ->
  set_phypll priv table x tr =
    (0, tr ++ [EvWrite32 (phypll_reg priv)
                 (u32 (PHYPLL_HSFREQRANGE (reg (prefer_prev x cur prev))))]).
Proof.
  intros Hlo Hscan Hnz. unfold rcsi2_set_phypll, bind, when.
  assert ((x <? mbps (table_head table)) = false) as -> by (apply Z.ltb_ge; lia).
  unfold ret at 1. rewrite Hscan.
  apply Z.eqb_neq in Hnz. rewrite Hnz.
  destruct (has_feature priv RCAR_VIN_R8A779H0_FEATURE); reflexivity.
Qed.

Lemma get_osc_freq_found table x tr cur prev :
  ~ x < mbps (table_head table) ->
  mbps_scan x table None = (cur, prev) -> mbps cur <> 0 ->
  rcsi2_get_osc_freq table x tr = (reg (prefer_prev x cur prev), tr).
Proof.
  intros Hlo Hscan Hnz. unfold rcsi2_get_osc_freq, bind, when.
  assert ((x <? mbps (table_head table)) = false) as -> by (apply Z.ltb_ge; lia).
  unfold ret at 1. rewrite Hscan.
  apply Z.eqb_neq in Hnz. rewrite Hnz. reflexivity.
Qed.

(** C1.  For every ascending, non-empty speed table and every target x
    between its first and its last threshold, [rcsi2_set_phypll] writes
    and [rcsi2_get_osc_freq] returns the register value of an entry whose
    threshold is nearest to x, the lower one when the two neighbours are
    equally far; on the table 90, 100, 110 the target 95 selects the
    entry of 90. *)
Theorem C1_lookup_nearest_lower_tie :
  (forall priv body x tr,
      ascending_table body -> body <> [] ->
      mbps (table_head body) <= x <= mbps (last body mbps_sentinel) ->
      exists e,
        nearest_lower body x e /\
        set_phypll priv (body ++ [mbps_sentinel]) x tr =
          (0, tr ++ [EvWrite32 (phypll_reg priv) (u32 (PHYPLL_HSFREQRANGE (reg e)))]) /\
        rcsi2_get_osc_freq (body ++ [mbps_sentinel]) x tr = (reg e, tr)) /\
  (forall priv tr,
      set_phypll priv (example_table ++ [mbps_sentinel]) 95 tr =
        (0, tr ++ [EvWrite32 (phypll_reg priv) (u32 (PHYPLL_HSFREQRANGE 0x10))]) /\
      rcsi2_get_osc_freq (example_table ++ [mbps_sentinel]) 95 tr = (0x10, tr)).
Proof.
  split.
  - intros priv body x tr Hasc Hne Hrange.
    destruct (lookup_in_range body x Hasc Hne Hrange) as (cur & prev & Hscan & Hnz & Hnear).
    exists (prefer_prev x cur prev). split; [exact Hnear|].
    assert (Hlo : ~ x < mbps (table_head (body ++ [mbps_sentinel]))).
    { rewrite table_head_app by assumption. lia. }
    split.
    + now apply set_phypll_found.
    + now apply get_osc_freq_found.
  - intros priv tr. split.
    + unfold rcsi2_set_phypll, bind, when, ret. simpl.
      destruct (has_feature priv RCAR_VIN_R8A779H0_FEATURE); reflexivity.
    + reflexivity.
Qed.

Lemma phtw_poll_not_warning n : emits not_warning (phtw_poll env n).
Proof. induction n; simpl; emits_auto. Qed.

Lemma phtw_write_not_warning priv d c : emits not_warning (phtw_write priv d c).
Proof.
  unfold rcsi2_phtw_write. pose proof phtw_poll_not_warning. emits_auto.
Qed.

(** C2, as the driver has it.  Below the first threshold,
    [rcsi2_set_phypll] and [rcsi2_get_osc_freq] warn and use the first
    entry; [rcsi2_phtw_write_mbps] uses the first entry and warns
    nobody.  Strictly above the last threshold of an ascending table,
    [rcsi2_set_phypll] logs the unsupported speed and fails with -ERANGE
    without a register write, and [rcsi2_get_osc_freq], whose result is a
    u16, logs it and returns -ERANGE in that type (65502). *)
Theorem C2_lookup_outside_table :
  (forall priv table x tr,
      0 <= x -> x < mbps (table_head table) ->
      let warning := EvLog KERN_WARNING "%u Mbps less than min PHY speed %u Mbps"
                       [x; mbps (table_head table)] in
      set_phypll priv table x tr =
        (0, tr ++ [warning;
                   EvWrite32 (phypll_reg priv)
                     (u32 (PHYPLL_HSFREQRANGE (reg (table_head table))))]) /\
      rcsi2_get_osc_freq table x tr = (reg (table_head table), tr ++ [warning]) /\
      forall code_,
        phtw_write_mbps priv x table code_ tr =
          phtw_write priv (reg (table_head table)) code_ tr /\
        emits not_warning (phtw_write_mbps priv x table code_)) /\
  (forall priv body x tr,
      ascending_table body -> mbps (last body mbps_sentinel) < x ->
      let error := EvLog KERN_ERR "Unsupported PHY speed (%u Mbps)" [x] in
      set_phypll priv (body ++ [mbps_sentinel]) x tr = (- ERANGE, tr ++ [error]) /\
      out_of_range_outcome tr (set_phypll priv (body ++ [mbps_sentinel]) x tr) /\
      rcsi2_get_osc_freq (body ++ [mbps_sentinel]) x tr = (65502, tr ++ [error])).
Proof.
  split.
  - intros priv table x tr Hx Hlt warning.
    pose proof (mbps_scan_below x table Hx Hlt) as Hscan.
    assert (Hnz : (mbps (table_head table) =? 0) = false) by (apply Z.eqb_neq; lia).
    assert (Hltb : (x <? mbps (table_head table)) = true) by (apply Z.ltb_lt; lia).
    split; [|split].
    + unfold rcsi2_set_phypll, bind, when.
      rewrite Hltb. unfold dev_warn, emit. rewrite Hscan, Hnz. simpl prefer_prev.
      unfold rcsi2_write, emit, ret.
      destruct (has_feature priv RCAR_VIN_R8A779H0_FEATURE);
        rewrite <- app_assoc; reflexivity.
    + unfold rcsi2_get_osc_freq, bind, when.
      rewrite Hltb. unfold dev_warn, emit. rewrite Hscan, Hnz. reflexivity.
    + intros code_.
      assert (Heq : forall tr0, phtw_write_mbps priv x table code_ tr0 =
                                phtw_write priv (reg (table_head table)) code_ tr0).
      { intros tr0. unfold rcsi2_phtw_write_mbps. rewrite Hscan.
        cbv beta iota zeta. unfold prefer_prev. rewrite Hnz. reflexivity. }
      split; [apply Heq|].
      intros tr0. rewrite Heq. apply phtw_write_not_warning.
  - intros priv body x tr Hasc Hlast error.
    assert (Hall : Forall (fun e => mbps e <> 0 /\ mbps e < x) body).
    { apply Forall_forall. intros e He.
      pose proof (ascending_bounds _ _ _ Hasc He).
      pose proof (ascending_le_last _ _ _ Hasc He). lia. }
    pose proof (mbps_scan_all_below x body None Hall) as Hscan.
    assert (Hnowarn : (x <? mbps (table_head (body ++ [mbps_sentinel]))) = false).
    { apply Z.ltb_ge. destruct body as [|a body]; [simpl in *; lia|].
      simpl. inversion Hall; subst.
      pose proof (ascending_le_last _ _ a Hasc (or_introl eq_refl)). lia. }
    assert (Hset : set_phypll priv (body ++ [mbps_sentinel]) x tr = (- ERANGE, tr ++ [error])).
    { unfold rcsi2_set_phypll, bind, when. rewrite Hnowarn. unfold ret at 1.
      rewrite Hscan. reflexivity. }
    split; [exact Hset|]. split.
    + rewrite Hset. split; [reflexivity|]. simpl. intros evs Hevs.
      apply app_inv_head in Hevs. subst evs. reflexivity.
    + unfold rcsi2_get_osc_freq, bind, when. rewrite Hnowarn. unfold ret at 1.
      rewrite Hscan. reflexivity.
Qed.

(** Above the last threshold [rcsi2_phtw_write_mbps] does not reach its
    error branch: the pointer rests on the sentinel, the unsigned
    difference [0 - x] wraps, the last entry counts as the nearer one
    and its value is written. *)
Lemma phtw_write_mbps_above_last priv body x code_ tr :
  ascending_table body -> body <> [] ->
  mbps (last body mbps_sentinel) < x <= 2 ^ 31 ->
  phtw_write_mbps priv x (body ++ [mbps_sentinel]) code_ tr =
    phtw_write priv (reg (last body mbps_sentinel)) code_ tr.
Proof.
  intros Hasc Hne [Hlast Hx].
  assert (Hall : Forall (fun e => mbps e <> 0 /\ mbps e < x) body).
  { apply Forall_forall. intros e He.
    pose proof (ascending_bounds _ _ _ Hasc He).
    pose proof (ascending_le_last _ _ _ Hasc He). lia. }
  pose proof (ascending_bounds _ _ _ Hasc (last_in body mbps_sentinel Hne)) as Hb.
  unfold rcsi2_phtw_write_mbps. rewrite (mbps_scan_all_below x body None Hall).
  assert (Hprev : last_or body None = Some (last body mbps_sentinel))
    by (destruct body; [easy|reflexivity]).
  rewrite Hprev. cbv beta iota zeta. unfold prefer_prev.
  assert (Hu1 : u32 (x - mbps (last body mbps_sentinel)) = x - mbps (last body mbps_sentinel)).
  { unfold u32. apply Z.mod_small. lia. }
  assert (Hu2 : u32 (mbps mbps_sentinel - x) = 2 ^ 32 - x).
  { unfold u32. cbn [mbps mbps_sentinel].
    replace (0 - x) with ((2 ^ 32 - x) + (-1) * 2 ^ 32) by lia.
    rewrite Z.mod_add by lia. apply Z.mod_small. lia. }
  rewrite Hu1, Hu2.
  assert ((x - mbps (last body mbps_sentinel) <=? 2 ^ 32 - x) = true) as ->
    by (apply Z.leb_le; lia).
  assert ((mbps (last body mbps_sentinel) =? 0) = false) as ->
    by (apply Z.eqb_neq; lia).
  reflexivity.
Qed.

End LookupProperties.

(** ** The indirect-register array writer *)

Lemma phtw_writes_app a b : phtw_writes (a ++ b) = phtw_writes a ++ phtw_writes b.
Proof.
  induction a as [|e a IH]; [reflexivity|].
  destruct e; simpl; auto. destruct (_ =? _); simpl; now rewrite IH.
Qed.

Lemma phtw_writes_none evs : forallb not_reg_write evs = true -> phtw_writes evs = [].
Proof.
  induction evs as [|e evs IH]; [reflexivity|]. simpl.
  intros H. apply andb_prop in H as [He Hevs].
  destruct e; simpl in *; try discriminate; auto.
Qed.

Section ArrayWriter.

Variable RCAR_VIN_R8A78000_FEATURE : Z.
Variable env : environment.

Local Abbreviation phtw_write := (rcsi2_phtw_write RCAR_VIN_R8A78000_FEATURE env).
Local Abbreviation phtw_write_array := (rcsi2_phtw_write_array RCAR_VIN_R8A78000_FEATURE env).

Lemma phtw_poll_no_write n : emits not_reg_write (phtw_poll env n).
Proof. induction n; simpl; emits_auto. Qed.

(** One [rcsi2_phtw_write] puts exactly one word on PHTW_REG. *)
Lemma phtw_write_one_word priv d c tr :
  exists r evs,
    phtw_write priv d c tr = (r, tr ++ evs) /\
    phtw_writes evs = [u32 (phtw_word d c)].
Proof.
  unfold rcsi2_phtw_write, bind, rcsi2_write, emit.
  destruct (has_feature priv RCAR_VIN_R8A78000_FEATURE).
  - exists 0, [EvWrite32 PHTW_REG (u32 (phtw_word d c))]. split; reflexivity.
  - destruct (phtw_poll_no_write 21 (tr ++ [EvWrite32 PHTW_REG (u32 (phtw_word d c))]))
      as (evs & Hevs & Hall).
    destruct (phtw_poll env 21 _) as [ok tr'] eqn:Hpoll. simpl in Hevs. subst tr'.
    apply phtw_writes_none in Hall.
    destruct ok.
    + exists 0, (EvWrite32 PHTW_REG (u32 (phtw_word d c)) :: evs).
      rewrite <- app_assoc. split; [reflexivity|]. simpl. now rewrite Hall.
    + exists (- ETIMEDOUT),
        (EvWrite32 PHTW_REG (u32 (phtw_word d c)) :: evs ++
         [EvLog KERN_ERR "Timeout waiting for PHTW_DWEN and/or PHTW_CWEN" []]).
      unfold dev_err, emit, ret. rewrite <- !app_assoc. split; [reflexivity|].
      simpl. rewrite phtw_writes_app, Hall. reflexivity.
Qed.

(** C10.  [rcsi2_phtw_write_array] writes, in order, entries that come
    before the first entry whose data and code are both zero - all of
    them when it returns 0 - and never that entry or a later one; a
    program that starts with the pair (0x00, 0x00), as step5 of
    [rcsi2_d_phy_setting] and step33 of [rcsi2_init_phtw_v4m] do, makes
    it return 0 with no event at all. *)
Theorem C10_write_array_stops_at_zero_entry :
  (forall priv values tr,
      exists r evs,
        phtw_write_array priv values tr = (r, tr ++ evs) /\
        is_prefix (phtw_writes evs) (map phtw_entry_word (before_sentinel values)) /\
        (r = 0 -> phtw_writes evs = map phtw_entry_word (before_sentinel values))) /\
  (forall priv rest tr, phtw_write_array priv (PV 0x00 0x00 :: rest) tr = (0, tr)) /\
  (forall priv tr,
      phtw_write_array priv d_phy_step5 tr = (0, tr) /\
      phtw_write_array priv v4m_step33 tr = (0, tr)).
Proof.
  split; [|split].
  - intros priv values. induction values as [|v rest IH]; intros tr.
    + exists 0, []. simpl. rewrite app_nil_r. repeat split. now exists [].
    + simpl. destruct (truthy (data v) || truthy (code v)).
      * unfold bind.
        destruct (phtw_write_one_word priv (data v) (code v) tr) as (r & evs & Hw & Hone).
        rewrite Hw. destruct (truthy r) eqn:Hr.
        -- exists r, evs. split; [reflexivity|]. split.
           ++ exists (map phtw_entry_word (before_sentinel rest)).
              rewrite Hone. reflexivity.
           ++ intros ->. discriminate.
        -- destruct (IH (tr ++ evs)) as (r' & evs' & Hrest & [l3 Hpre] & Hall).
           exists r', (evs ++ evs'). rewrite Hrest, app_assoc.
           split; [reflexivity|]. rewrite phtw_writes_app, Hone. split.
           ++ exists l3. simpl. now rewrite Hpre.
           ++ intros Hr'. simpl. now rewrite Hall.
      * exists 0, []. rewrite app_nil_r. repeat split. now exists [].
  - reflexivity.
  - intros priv tr. split; reflexivity.
Qed.

End ArrayWriter.

(** ** Link speed *)

Lemma to_int_small x : 0 <= x < 2 ^ 31 -> to_int x = x.
Proof. intros H. unfold to_int. rewrite Z.mod_small; lia. Qed.

Lemma cphy_divisor : double_to_u32 cphy_symbol_factor = 2.
Proof. reflexivity. Qed.

(** What [do_div(data_rate, 2.8)] leaves in [data_rate]: the macro keeps
    its divisor in a 32-bit integer. *)
Lemma v4h_data_rate_cphy priv r :
  cphy_connection priv = true -> 0 <= r < 2 ^ 31 ->
  v4h_data_rate priv r = r / 2.
Proof.
  intros Hc Hr. unfold v4h_data_rate. rewrite Hc, cphy_divisor.
  unfold do_div, u64. rewrite (Z.mod_small r) by lia.
  apply to_int_small.
  split; [apply Z.div_pos; lia|].
  apply Z.div_lt_upper_bound; lia.
Qed.

Section LinkSpeed.

Variable RCAR_VIN_R8A78000_FEATURE : Z.
Variable env : environment.

Local Abbreviation calc_mbps := (rcsi2_calc_mbps RCAR_VIN_R8A78000_FEATURE env).

(** C3, as the driver has it.  On a generation that reads the pixel
    rate p of its source, the link speed is floor(bpp * p / (L * 1000000))
    as long as the product fits 64 bits, the divisor 32 bits and the
    quotient an int; with the R8A78000 feature it is
    floor(7423000000 / (L * 1000000)), whatever bpp and the source say.
    On V4H a D-PHY connection hands the rate on unchanged and a C-PHY
    connection hands on a rate the symbol division has not increased. *)
Theorem C3_link_speed :
  (forall priv bpp_ L p tr,
      has_feature priv RCAR_VIN_R8A78000_FEATURE = false ->
      remote priv = true ->
      env_pixel_rate env tr = Some p ->
      0 <= bpp_ * p < 2 ^ 64 ->
      0 < L * 1000000 < 2 ^ 32 ->
      bpp_ * p / (L * 1000000) < 2 ^ 31 ->
      calc_mbps priv bpp_ L tr =
        (bpp_ * p / (L * 1000000), tr ++ [EvPixelRate true p])) /\
  (forall priv bpp_ L tr,
      has_feature priv RCAR_VIN_R8A78000_FEATURE = true ->
      0 < L * 1000000 < 2 ^ 32 ->
      calc_mbps priv bpp_ L tr = (7423000000 / (L * 1000000), tr)) /\
  (forall priv r, cphy_connection priv = false -> v4h_data_rate priv r = r) /\
  (forall priv r,
      cphy_connection priv = true -> 0 <= r < 2 ^ 31 ->
      0 <= v4h_data_rate priv r <= r).
Proof.
  split; [|split; [|split]].
  - intros priv bpp_ L p tr Hf Hrem Hp Hprod Hdiv Hq.
    unfold rcsi2_calc_mbps. rewrite Hf, Hrem. cbn [negb].
    unfold bind, v4l2_ctrl_pixel_rate. rewrite Hp. unfold ret. f_equal.
    unfold do_div, u64, u32. rewrite (Z.mul_comm p bpp_).
    rewrite (Z.mod_small (bpp_ * p)) by lia.
    rewrite (Z.mod_small (bpp_ * p)) by lia.
    rewrite (Z.mod_small (L * 1000000)) by lia.
    apply to_int_small. split; [apply Z.div_pos; lia|lia].
  - intros priv bpp_ L tr Hf Hdiv.
    unfold rcsi2_calc_mbps. rewrite Hf. cbn [negb]. unfold ret. f_equal.
    unfold do_div, u64, u32.
    rewrite (Z.mod_small 7423000000) by lia.
    rewrite (Z.mod_small (L * 1000000)) by lia.
    apply to_int_small. split; [apply Z.div_pos; lia|].
    apply Z.div_lt_upper_bound; lia.
  - intros priv r Hc. unfold v4h_data_rate. now rewrite Hc.
  - intros priv r Hc Hr. rewrite v4h_data_rate_cphy by assumption.
    split; [apply Z.div_pos; lia|]. apply Z.div_le_upper_bound; lia.
Qed.

End LinkSpeed.

(** ** Endpoint parsing *)

Lemma range_check v : ((v <? 1) || (v >? 4)) = negb (lane_in_range v).
Proof.
  unfold lane_in_range. rewrite Z.gtb_ltb.
  destruct (Z.ltb_spec v 1), (Z.ltb_spec 4 v), (Z.leb_spec 1 v), (Z.leb_spec v 4);
    simpl; try reflexivity; lia.
Qed.

Lemma lane_swap_loop_log lanes_ dl n : forall i ls,
  emits is_log (lane_swap_loop lanes_ dl i n ls).
Proof. induction n; intros; simpl; emits_auto. Qed.

Lemma parse_v4l2_log priv vep : emits is_log (rcsi2_parse_v4l2 priv vep).
Proof.
  unfold rcsi2_parse_v4l2. pose proof lane_swap_loop_log. emits_auto.
Qed.

(** The four iterations of the lane loop, written out. *)
Lemma lane_swap_loop_4 lanes_ dl w x y z tr :
  let v i := (if i <? lanes_ then nth (Z.to_nat i) dl 0 else i) mod 256 in
  let error := EvLog KERN_ERR "data-lanes must be in 1-4 range" [] in
  lane_swap_loop lanes_ dl 0 4 [w; x; y; z] tr =
    if negb (lane_in_range (v 0)) then ((- EINVAL, [v 0; x; y; z]), tr ++ [error])
    else if negb (lane_in_range (v 1)) then ((- EINVAL, [v 0; v 1; y; z]), tr ++ [error])
    else if negb (lane_in_range (v 2)) then ((- EINVAL, [v 0; v 1; v 2; z]), tr ++ [error])
    else if negb (lane_in_range (v 3)) then ((- EINVAL, [v 0; v 1; v 2; v 3]), tr ++ [error])
    else ((0, [v 0; v 1; v 2; v 3]), tr).
Proof.
  intros v error. unfold lane_swap_loop. rewrite !range_check.
  change (0 + 1) with 1. change (1 + 1) with 2. change (2 + 1) with 3.
  fold (v 0). fold (v 1). fold (v 2). fold (v 3).
  destruct (lane_in_range (v 0)); [|reflexivity].
  destruct (lane_in_range (v 1)); [|reflexivity].
  destruct (lane_in_range (v 2)); [|reflexivity].
  destruct (lane_in_range (v 3)); reflexivity.
Qed.

(** C9, as the driver has it.  [rcsi2_parse_v4l2] touches no register
    and, for an endpoint on port 0 with a CSI-2 bus and a fitting lane
    count, returns 0 exactly when every lane in use is mapped to a
    physical lane in 1..4 and -EINVAL otherwise; the lanes not in use get
    their own index.  Nothing compares two entries of the mapping. *)
Theorem C9_lane_swap_range_checked :
  forall priv vep tr,
    emits is_log (rcsi2_parse_v4l2 priv vep) /\
    (endpoint_header_ok vep = true ->
     List.length (data_lanes vep) = 4%nat ->
     List.length (lane_swap priv) = 4%nat ->
     (forallb lane_in_range (used_data_lanes vep) = true ->
        exists priv',
          rcsi2_parse_v4l2 priv vep tr = ((0, priv'), tr) /\
          lanes priv' = u16 (num_data_lanes vep) /\
          lane_swap priv' = parsed_lane_swap vep) /\
     (forallb lane_in_range (used_data_lanes vep) = false ->
        fst (fst (rcsi2_parse_v4l2 priv vep tr)) = - EINVAL)).
Proof.
  intros priv vep tr. split; [apply parse_v4l2_log|].
  intros Hhdr Hdl Hls.
  destruct vep as [port id ty n dl]. destruct priv as [inf rem fmt cnt ln ls cphy ps pso hse].
  cbn [data_lanes lane_swap] in Hdl, Hls.
  destruct dl as [|a [|b [|c [|d [|? ?]]]]]; try discriminate.
  destruct ls as [|w [|x [|y [|z [|? ?]]]]]; try discriminate.
  unfold endpoint_header_ok in Hhdr. cbn [ep_port ep_id bus_type num_data_lanes] in Hhdr.
  apply andb_prop in Hhdr as [Hpi Hbus]. apply andb_prop in Hpi as [Hport Hid].
  apply Z.eqb_eq in Hport, Hid. subst port id.
  unfold rcsi2_parse_v4l2, used_data_lanes, parsed_lane_swap.
  cbn -[lane_swap_loop Z.modulo Z.ltb Z.eqb lane_in_range u16 V4L2_MBUS_CSI2_DPHY
        V4L2_MBUS_CSI2_CPHY firstn Z.to_nat nth].
  change (truthy 0 || truthy 0) with false. cbv iota.
  assert (Hcases :
    (ty =? V4L2_MBUS_CSI2_DPHY) = true /\ (u16 n = 1 \/ u16 n = 2 \/ u16 n = 4) \/
    (ty =? V4L2_MBUS_CSI2_DPHY) = false /\ (ty =? V4L2_MBUS_CSI2_CPHY) = true /\ u16 n = 3).
  { apply orb_prop in Hbus as [H|H]; apply andb_prop in H as [Hty Hn].
    - left. split; [assumption|].
      apply orb_prop in Hn as [Hn|Hn]; [apply orb_prop in Hn as [Hn|Hn]|];
        apply Z.eqb_eq in Hn; auto.
    - right. apply Z.eqb_eq in Hty, Hn. rewrite Hty. auto. }
  destruct Hcases as [[Hty Hn]|[Hty [Hty' Hn]]]; rewrite Hty; try rewrite Hty';
    [destruct Hn as [Hn|[Hn|Hn]]|]; rewrite Hn;
    change (Z.to_nat 0) with 0%nat; change (Z.to_nat 1) with 1%nat;
    change (Z.to_nat 2) with 2%nat; change (Z.to_nat 3) with 3%nat;
    change (Z.to_nat 4) with 4%nat;
    cbn -[lane_swap_loop Z.modulo lane_in_range];
    unfold bind; rewrite lane_swap_loop_4;
    change (Z.to_nat 0) with 0%nat; change (Z.to_nat 1) with 1%nat;
    change (Z.to_nat 2) with 2%nat; change (Z.to_nat 3) with 3%nat;
    cbn -[Z.modulo lane_in_range];
    change (1 mod 256) with 1; change (2 mod 256) with 2; change (3 mod 256) with 3;
    change (lane_in_range 1) with true; change (lane_in_range 2) with true;
    change (lane_in_range 3) with true;
    repeat match goal with
           | |- context [lane_in_range ?v] => destruct (lane_in_range v) eqn:?
           end;
    cbn -[Z.modulo];
    (split; intros; try discriminate; try reflexivity;
     try (eexists; repeat split; reflexivity)).
Qed.

(** ** Bring-up never touches the power reference *)

Section StreamControl.

Variables RCAR_VIN_R8A779G0_FEATURE RCAR_VIN_R8A779H0_FEATURE
          RCAR_VIN_R8A78000_FEATURE : Z.
Variable env : environment.
Variable uninit : Z.

Lemma phtw_poll_no_pm n : emits not_pm_get (phtw_poll env n).
Proof. induction n; simpl; emits_auto. Qed.
#[local] Hint Resolve phtw_poll_no_pm : emits.

Lemma phtw_write_no_pm priv d c :
  emits not_pm_get (rcsi2_phtw_write RCAR_VIN_R8A78000_FEATURE env priv d c).
Proof. unfold rcsi2_phtw_write. emits_auto. Qed.
#[local] Hint Resolve phtw_write_no_pm : emits.

Lemma phtw_write_array_no_pm priv values :
  emits not_pm_get (rcsi2_phtw_write_array RCAR_VIN_R8A78000_FEATURE env priv values).
Proof. induction values; simpl; emits_auto. Qed.
#[local] Hint Resolve phtw_write_array_no_pm : emits.

Lemma phtw_write_mbps_no_pm priv x values c :
  emits not_pm_get (rcsi2_phtw_write_mbps RCAR_VIN_R8A78000_FEATURE env priv x values c).
Proof. unfold rcsi2_phtw_write_mbps. emits_auto. Qed.
#[local] Hint Resolve phtw_write_mbps_no_pm : emits.

Lemma set_phypll_no_pm priv table x :
  emits not_pm_get (rcsi2_set_phypll RCAR_VIN_R8A779H0_FEATURE priv table x).
Proof. unfold rcsi2_set_phypll. emits_auto. Qed.
#[local] Hint Resolve set_phypll_no_pm : emits.

Lemma get_osc_freq_no_pm table x : emits not_pm_get (rcsi2_get_osc_freq table x).
Proof. unfold rcsi2_get_osc_freq. emits_auto. Qed.
#[local] Hint Resolve get_osc_freq_no_pm : emits.

Lemma v4m_step32_loop_no_pm priv osc values : forall r,
  emits not_pm_get (v4m_step32_loop RCAR_VIN_R8A78000_FEATURE env priv osc values r).
Proof. induction values; intros; simpl; emits_auto. Qed.
#[local] Hint Resolve v4m_step32_loop_no_pm : emits.

Lemma call_init_phtw_no_pm f priv x :
  emits not_pm_get
    (call_init_phtw RCAR_VIN_R8A779H0_FEATURE RCAR_VIN_R8A78000_FEATURE env uninit f priv x).
Proof.
  destruct f; unfold call_init_phtw, rcsi2_init_phtw_h3_v3h_m3n, rcsi2_init_phtw_h3es2,
    __rcsi2_init_phtw_h3_v3h_m3n, rcsi2_init_phtw_v3m_e3, rcsi2_init_phtw_v3u,
    rcsi2_init_phtw_v4m, rcsi2_init_phtw_v4m_tail; emits_auto.
Qed.
#[local] Hint Resolve call_init_phtw_no_pm : emits.

Lemma call_phy_post_init_no_pm f priv :
  emits not_pm_get (call_phy_post_init RCAR_VIN_R8A78000_FEATURE env f priv).
Proof. destruct f. unfold call_phy_post_init, rcsi2_phy_post_init_v3m_e3. emits_auto. Qed.
#[local] Hint Resolve call_phy_post_init_no_pm : emits.

Lemma wait_lp11_no_pm l n : emits not_pm_get (wait_lp11 env l n).
Proof. induction n; simpl; emits_auto. Qed.
#[local] Hint Resolve wait_lp11_no_pm : emits.

Lemma poll32_no_pm r ready n : emits not_pm_get (poll32 env r ready n).
Proof. induction n; simpl; emits_auto. Qed.
#[local] Hint Resolve poll32_no_pm : emits.

Lemma calc_mbps_no_pm priv b l :
  emits not_pm_get (rcsi2_calc_mbps RCAR_VIN_R8A78000_FEATURE env priv b l).
Proof.
  unfold rcsi2_calc_mbps.
  assert (emits not_pm_get (v4l2_ctrl_pixel_rate env)).
  { intros tr. unfold v4l2_ctrl_pixel_rate. destruct (env_pixel_rate env tr);
      eexists [_]; split; reflexivity. }
  emits_auto.
Qed.
#[local] Hint Resolve calc_mbps_no_pm : emits.

Lemma get_active_lanes_no_pm priv :
  emits not_pm_get (rcsi2_get_active_lanes RCAR_VIN_R8A78000_FEATURE env priv).
Proof.
  unfold rcsi2_get_active_lanes.
  assert (emits not_pm_get (v4l2_subdev_call_get_mbus_config env priv)).
  { unfold v4l2_subdev_call_get_mbus_config. destruct (remote priv); [|apply emits_ret].
    intros tr. destruct (env_get_mbus_config env tr) as [[r ty] fl].
    eexists [_]; split; reflexivity. }
  emits_auto.
Qed.
#[local] Hint Resolve get_active_lanes_no_pm : emits.

Lemma s_stream_call_no_pm priv en : emits not_pm_get (v4l2_subdev_call_s_stream env priv en).
Proof.
  unfold v4l2_subdev_call_s_stream. destruct (remote priv); [|apply emits_ret].
  intros tr. eexists [_]; split; reflexivity.
Qed.
#[local] Hint Resolve s_stream_call_no_pm : emits.

Lemma csi2cam_start_no_pm : emits not_pm_get (csi2cam_start env).
Proof. intros tr. eexists [_]; split; reflexivity. Qed.
#[local] Hint Resolve csi2cam_start_no_pm : emits.

Lemma enter_standby_no_pm priv :
  emits not_pm_get
    (rcsi2_enter_standby RCAR_VIN_R8A779G0_FEATURE RCAR_VIN_R8A78000_FEATURE priv).
Proof. unfold rcsi2_enter_standby. emits_auto. Qed.
#[local] Hint Resolve enter_standby_no_pm : emits.

Lemma wait_phy_start_no_pm priv l :
  emits not_pm_get (rcsi2_wait_phy_start RCAR_VIN_R8A78000_FEATURE env priv l).
Proof. unfold rcsi2_wait_phy_start. emits_auto. Qed.
#[local] Hint Resolve wait_phy_start_no_pm : emits.

Lemma start_receiver_no_pm priv :
  emits not_pm_get
    (rcsi2_start_receiver RCAR_VIN_R8A779H0_FEATURE RCAR_VIN_R8A78000_FEATURE
       env uninit priv).
Proof. unfold rcsi2_start_receiver. emits_auto. Qed.
#[local] Hint Resolve start_receiver_no_pm : emits.

Lemma c_phy_setting_no_pm priv rate : emits not_pm_get (rcsi2_c_phy_setting env priv rate).
Proof. unfold rcsi2_c_phy_setting. emits_auto. Qed.
#[local] Hint Resolve c_phy_setting_no_pm : emits.

Lemma d_phy_setting_no_pm priv rate :
  emits not_pm_get (rcsi2_d_phy_setting RCAR_VIN_R8A78000_FEATURE env priv rate).
Proof. unfold rcsi2_d_phy_setting. emits_auto. Qed.
#[local] Hint Resolve d_phy_setting_no_pm : emits.

Lemma start_receiver_v4h_no_pm priv :
  emits not_pm_get (rcsi2_start_receiver_v4h RCAR_VIN_R8A78000_FEATURE env priv).
Proof. unfold rcsi2_start_receiver_v4h, v4h_common_setting. emits_auto. Qed.
#[local] Hint Resolve start_receiver_v4h_no_pm : emits.

Lemma start_receiver_v4m_no_pm priv :
  emits not_pm_get
    (rcsi2_start_receiver_v4m RCAR_VIN_R8A779H0_FEATURE RCAR_VIN_R8A78000_FEATURE
       env uninit priv).
Proof. unfold rcsi2_start_receiver_v4m. emits_auto. Qed.
#[local] Hint Resolve start_receiver_v4m_no_pm : emits.

Lemma start_receiver_x5h_no_pm priv :
  emits not_pm_get (rcsi2_start_receiver_x5h RCAR_VIN_R8A78000_FEATURE env priv).
Proof. unfold rcsi2_start_receiver_x5h. emits_auto. Qed.
#[local] Hint Resolve start_receiver_x5h_no_pm : emits.

Lemma wait_phy_start_v4h_no_pm : emits not_pm_get (rcsi2_wait_phy_start_v4h env).
Proof. unfold rcsi2_wait_phy_start_v4h. emits_auto. Qed.
#[local] Hint Resolve wait_phy_start_v4h_no_pm : emits.


(** ** Stream control *)

Local Abbreviation G0 := RCAR_VIN_R8A779G0_FEATURE.
Local Abbreviation H0 := RCAR_VIN_R8A779H0_FEATURE.
Local Abbreviation X5H := RCAR_VIN_R8A78000_FEATURE.
Local Abbreviation enter_standby := (rcsi2_enter_standby G0 X5H).
Local Abbreviation exit_standby := (rcsi2_exit_standby X5H).
Local Abbreviation start := (rcsi2_start G0 H0 X5H env uninit).
Local Abbreviation stop := (rcsi2_stop G0 X5H env).
Local Abbreviation s_stream := (rcsi2_s_stream G0 H0 X5H env uninit).
Local Abbreviation irq_thread := (rcsi2_irq_thread G0 H0 X5H env uninit).
Local Abbreviation fault_interrupt := (rcsi2_fault_interrupt G0 H0 X5H env uninit).
Local Abbreviation calls := (run_calls G0 H0 X5H env uninit).

Lemma enter_standby_eq priv tr :
  enter_standby priv tr = (tt, tr ++ standby_events G0 X5H priv).
Proof.
  unfold rcsi2_enter_standby, standby_events, bind, when, rcsi2_write, usleep_range, emit, ret.
  destruct (has_feature priv G0), (has_feature priv X5H); simpl;
    rewrite <- ?app_assoc; reflexivity.
Qed.

Lemma exit_standby_eq priv tr :
  exit_standby priv tr =
    (tt, tr ++ EvPmGet :: (if has_feature priv X5H then [] else [EvResetDeassert])).
Proof.
  unfold rcsi2_exit_standby, bind, when, emit, ret.
  destruct (has_feature priv X5H); simpl; rewrite <- ?app_assoc; reflexivity.
Qed.

Lemma receiver_state_app s a b :
  receiver_state_of s (a ++ b) = receiver_state_of (receiver_state_of s a) b.
Proof. apply fold_left_app. Qed.

Lemma standby_events_state s priv :
  receiver_state_of s (standby_events G0 X5H priv) = Standby.
Proof.
  unfold standby_events.
  destruct (has_feature priv G0), (has_feature priv X5H); reflexivity.
Qed.

Lemma count_events_none p q evs :
  (forall e, q e = true -> p e = false) ->
  forallb q evs = true -> count_events p evs = 0%nat.
Proof.
  intros Hpq. unfold count_events. induction evs as [|e evs IH]; [reflexivity|].
  simpl. intros H. apply andb_prop in H as [He Hevs].
  rewrite (Hpq e He). auto.
Qed.

Lemma count_events_app p a b :
  count_events p (a ++ b) = (count_events p a + count_events p b)%nat.
Proof. unfold count_events. now rewrite filter_app, length_app. Qed.

Lemma not_pm_get_count evs :
  forallb not_pm_get evs = true -> count_events is_pm_get evs = 0%nat.
Proof.
  apply count_events_none. intros e. unfold not_pm_get. now destruct (is_pm_get e).
Qed.

(** *** Shape of [rcsi2_start] *)

Lemma fis_bind {A} (m : M A) (f : A -> M result) :
  (forall a, fails_in_standby (f a)) -> fails_in_standby (bind m f).
Proof.
  intros Hf tr res tr'. unfold bind. destruct (m tr) as [a tr1]. apply Hf.
Qed.

Lemma fis_ret_zero : fails_in_standby (ret (Returned 0)).
Proof. intros tr res tr' H r -> Hr. inversion H. congruence. Qed.

Lemma fis_ret_oops : fails_in_standby (ret Oops).
Proof. intros tr res tr' H r ->. inversion H. Qed.

Lemma fis_enter_standby priv r :
  fails_in_standby (enter_standby priv ;; ret (Returned r)).
Proof.
  intros tr res tr' H r' _ _ s. unfold bind in H. rewrite enter_standby_eq in H.
  inversion H. subst. rewrite receiver_state_app. apply standby_events_state.
Qed.

Lemma start_fails_in_standby priv : fails_in_standby (start priv).
Proof.
  unfold rcsi2_start.
  apply fis_bind; intros _. apply fis_bind; intros res.
  destruct res as [r|]; [|apply fis_ret_oops].
  destruct (truthy r); [apply fis_enter_standby|].
  apply fis_bind; intros _. apply fis_bind; intros r2.
  destruct (truthy r2); [apply fis_enter_standby|].
  apply fis_bind; intros _. apply fis_bind; intros _. apply fis_bind; intros _.
  apply fis_ret_zero.
Qed.

(** [rcsi2_start] takes the power reference once, first thing. *)
Lemma start_events priv tr :
  exists evs,
    snd (start priv tr) = tr ++ EvPmGet :: evs /\ forallb not_pm_get evs = true.
Proof.
  unfold rcsi2_start. unfold bind at 1. rewrite exit_standby_eq.
  match goal with
  | |- exists evs, snd (?m ?t) = _ /\ _ =>
      assert (Hm : emits not_pm_get m) by emits_auto;
      destruct (Hm t) as (evs & Hevs & Hall)
  end.
  exists ((if has_feature priv X5H then [] else [EvResetDeassert]) ++ evs).
  rewrite Hevs, <- app_assoc. split; [reflexivity|].
  rewrite forallb_app, Hall. now destruct (has_feature priv X5H).
Qed.

Lemma start_run priv tr :
  exists res evs,
    start priv tr = (res, tr ++ EvPmGet :: evs) /\
    forallb not_pm_get evs = true.
Proof.
  destruct (start_events priv tr) as (evs & Hevs & Hall).
  destruct (start priv tr) as [res tr'] eqn:Hrun. simpl in Hevs. subst tr'.
  now exists res, evs.
Qed.

(** *** The four ways through [rcsi2_s_stream] *)

Lemma s_stream_no_remote priv enable tr :
  passes_remote_check X5H priv = false ->
  s_stream priv enable tr = ((Returned (- ENODEV), priv), tr ++ [EvLock; EvUnlock]).
Proof.
  unfold passes_remote_check. intros H. apply orb_false_elim in H as [Hf Hr].
  unfold rcsi2_s_stream, bind, emit, ret. rewrite Hf, Hr. simpl.
  now rewrite <- app_assoc.
Qed.

Lemma s_stream_first priv enable tr :
  passes_remote_check X5H priv = true ->
  truthy enable = true -> stream_count priv = 0 ->
  s_stream priv enable tr =
    match start priv (tr ++ [EvLock]) with
    | (Oops, tr') => ((Oops, priv), tr')
    | (Returned r, tr') =>
        if truthy r then ((Returned r, priv), tr' ++ [EvUnlock])
        else ((Returned 0, stream_count_step priv enable), tr' ++ [EvUnlock])
    end.
Proof.
  unfold passes_remote_check. intros Hg Hen Hc.
  unfold rcsi2_s_stream, bind, emit, ret.
  assert (negb (has_feature priv X5H) && negb (remote priv) = false) as ->.
  { destruct (has_feature priv X5H), (remote priv); simpl in *; congruence. }
  rewrite Hen, Hc. simpl.
  destruct (start priv (tr ++ [EvLock])) as [[r|] tr']; [|reflexivity].
  destruct (truthy r); reflexivity.
Qed.

Lemma s_stream_bookkeeping priv enable tr :
  passes_remote_check X5H priv = true ->
  (truthy enable = true -> stream_count priv <> 0) ->
  (truthy enable = false -> stream_count priv <> 1) ->
  s_stream priv enable tr =
    ((Returned 0, stream_count_step priv enable), tr ++ [EvLock; EvUnlock]).
Proof.
  unfold passes_remote_check. intros Hg Hstart Hstop.
  unfold rcsi2_s_stream, bind, emit, ret, when.
  assert (negb (has_feature priv X5H) && negb (remote priv) = false) as ->.
  { destruct (has_feature priv X5H), (remote priv); simpl in *; congruence. }
  destruct (truthy enable) eqn:Hen; simpl.
  - assert ((stream_count priv =? 0) = false) as -> by (apply Z.eqb_neq; auto).
    simpl. now rewrite <- app_assoc.
  - assert ((stream_count priv =? 1) = false) as -> by (apply Z.eqb_neq; auto).
    simpl. now rewrite <- app_assoc.
Qed.

Lemma s_stream_last_stop priv enable tr :
  passes_remote_check X5H priv = true ->
  truthy enable = false -> stream_count priv = 1 ->
  s_stream priv enable tr =
    ((Returned 0, stream_count_step priv enable),
     snd (stop priv (tr ++ [EvLock])) ++ [EvUnlock]).
Proof.
  unfold passes_remote_check. intros Hg Hen Hc.
  unfold rcsi2_s_stream, bind, emit, ret, when.
  assert (negb (has_feature priv X5H) && negb (remote priv) = false) as ->.
  { destruct (has_feature priv X5H), (remote priv); simpl in *; congruence. }
  rewrite Hen, Hc. simpl.
  destruct (stop priv (tr ++ [EvLock])) as [[] tr']. reflexivity.
Qed.

(** The events of [rcsi2_stop]: the teardown, then the stop request. *)
Lemma stop_eq priv tr :
  passes_remote_check X5H priv = true ->
  exists src_stop,
    stop priv tr = (tt, tr ++ standby_events G0 X5H priv ++ [src_stop]) /\
    is_source_stop src_stop = true.
Proof.
  unfold passes_remote_check. intros Hg.
  unfold rcsi2_stop, bind. rewrite enter_standby_eq.
  destruct (has_feature priv X5H) eqn:Hf.
  - exists EvCamStop. unfold emit. now rewrite <- app_assoc.
  - simpl in Hg. unfold v4l2_subdev_call_s_stream, bind, ret. rewrite Hg.
    eexists (EvSubdevStream 0 _). rewrite <- app_assoc. split; reflexivity.
Qed.

Lemma to_int_id x : - 2 ^ 31 <= x < 2 ^ 31 -> to_int x = x.
Proof. intros H. unfold to_int. rewrite Z.mod_small; lia. Qed.

Lemma set_stream_count_same priv : set_stream_count priv (stream_count priv) = priv.
Proof. now destruct priv. Qed.

Lemma truthy_1 : truthy 1 = true.
Proof. reflexivity. Qed.

(** Every [start()] after the first is bookkeeping under the lock. *)
Lemma later_starts n : forall priv tr,
  passes_remote_check X5H priv = true ->
  1 <= stream_count priv ->
  stream_count priv + Z.of_nat n <= INT_MAX ->
  calls (repeat 1 n) priv tr =
    ((repeat (Returned 0) n,
      set_stream_count priv (stream_count priv + Z.of_nat n)),
     tr ++ List.concat (repeat [EvLock; EvUnlock] n)).
Proof.
  induction n as [|n IH]; intros priv tr Hg Hc Hmax.
  - simpl. unfold ret. rewrite Z.add_0_r, set_stream_count_same, app_nil_r. reflexivity.
  - cbn [repeat run_calls]. unfold bind.
    rewrite s_stream_bookkeeping; auto; try (intros; lia); [|rewrite truthy_1; discriminate].
    cbn iota beta.
    unfold INT_MAX in *.
    assert (Hstep : stream_count_step priv 1 = set_stream_count priv (stream_count priv + 1)).
    { unfold stream_count_step. rewrite truthy_1, to_int_id by lia. reflexivity. }
    rewrite Hstep, IH; cbn [stream_count set_stream_count]; auto; try lia.
    unfold ret. cbn [List.concat]. rewrite <- !app_assoc.
    replace (stream_count priv + 1 + Z.of_nat n) with (stream_count priv + Z.of_nat (S n)) by lia.
    reflexivity.
Qed.

Lemma count_lock_pairs n :
  count_events is_pm_get (List.concat (repeat [EvLock; EvUnlock] n)) = 0%nat.
Proof. induction n; [reflexivity|]. simpl. exact IHn. Qed.

(** C4.  N consecutive [s_stream(1)] calls that all return 0, on a
    receiver whose count is 0: the count ends at N, and the events are
    the lock, one run of [rcsi2_start], the unlock, and then N - 1 times
    lock and unlock with nothing in between; the power reference is
    taken once.  N is at most INT_MAX: the count is an int. *)
Theorem C4_repeated_start_brings_up_once :
  forall priv N tr rs priv' tr',
    stream_count priv = 0 ->
    (1 <= N)%nat -> Z.of_nat N <= INT_MAX ->
    calls (repeat 1 N) priv tr = ((rs, priv'), tr') ->
    rs = repeat (Returned 0) N ->
    stream_count priv' = Z.of_nat N /\
    exists bringup,
      start priv (tr ++ [EvLock]) = (Returned 0, (tr ++ [EvLock]) ++ bringup) /\
      tr' = tr ++ [EvLock] ++ bringup ++ [EvUnlock] ++
                  List.concat (repeat [EvLock; EvUnlock] (N - 1)) /\
      count_events is_pm_get
        ([EvLock] ++ bringup ++ [EvUnlock] ++
         List.concat (repeat [EvLock; EvUnlock] (N - 1))) = 1%nat.
Proof.
  intros priv N tr rs priv' tr' Hc HN Hmax Hrun Hrs.
  destruct N as [|n]; [lia|]. cbn [repeat run_calls] in Hrun. unfold bind in Hrun.
  destruct (passes_remote_check X5H priv) eqn:Hg.
  2: { rewrite s_stream_no_remote in Hrun by assumption. cbn iota beta in Hrun.
       destruct (calls (repeat 1 n) priv _) as [[rs' p'] t']. unfold ret in Hrun.
       inversion Hrun. subst. discriminate. }
  rewrite s_stream_first in Hrun by auto.
  destruct (start_run priv (tr ++ [EvLock])) as (res & evs & Hstart & Hall).
  rewrite Hstart in Hrun.
  destruct res as [r|].
  2: { unfold ret in Hrun. inversion Hrun. subst. discriminate. }
  destruct (truthy r) eqn:Hr.
  { cbn iota beta in Hrun.
    destruct (calls (repeat 1 n) priv _) as [[rs' p'] t']. unfold ret in Hrun.
    inversion Hrun. subst. simpl in H0. inversion H0. subst. discriminate. }
  assert (r = 0) as ->.
  { unfold truthy in Hr. apply negb_false_iff, Z.eqb_eq in Hr. exact Hr. }
  cbn iota beta in Hrun.
  unfold INT_MAX in *.
  assert (Hstep : stream_count_step priv 1 = set_stream_count priv 1).
  { unfold stream_count_step. rewrite truthy_1, Hc. reflexivity. }
  rewrite Hstep in Hrun.
  rewrite later_starts in Hrun; cbn [stream_count set_stream_count]; auto;
    try (unfold INT_MAX; lia).
  unfold ret in Hrun. inversion Hrun. subst. clear Hrun.
  split; [change (1 + Z.of_nat n = Z.of_nat (S n)); lia|].
  exists (EvPmGet :: evs). split; [exact Hstart|].
  replace (S n - 1)%nat with n by lia.
  split.
  - now rewrite <- !app_assoc.
  - unfold count_events. cbn [app filter is_pm_get List.length].
    rewrite filter_app. cbn [filter is_pm_get]. rewrite length_app.
    fold (count_events is_pm_get evs).
    fold (count_events is_pm_get (List.concat (repeat [EvLock; EvUnlock] n))).
    rewrite not_pm_get_count, count_lock_pairs by assumption. reflexivity.
Qed.

(** *** The sign of the count *)

Lemma s_stream_priv priv enable tr r priv' tr' :
  s_stream priv enable tr = ((Returned r, priv'), tr') ->
  priv' = priv \/ priv' = stream_count_step priv enable.
Proof.
  intros H.
  destruct (passes_remote_check X5H priv) eqn:Hg.
  2: { rewrite s_stream_no_remote in H by assumption. inversion H. now left. }
  destruct (truthy enable) eqn:Hen.
  - destruct (Z.eq_dec (stream_count priv) 0) as [Hc|Hc].
    + rewrite s_stream_first in H by auto.
      destruct (start priv (tr ++ [EvLock])) as [[r0|] t]; [|discriminate].
      destruct (truthy r0); inversion H; auto.
    + rewrite s_stream_bookkeeping in H; auto; [|congruence].
      inversion H. now right.
  - destruct (Z.eq_dec (stream_count priv) 1) as [Hc|Hc].
    + rewrite s_stream_last_stop in H by auto. inversion H. now right.
    + rewrite s_stream_bookkeeping in H; auto; [|congruence].
      inversion H. now right.
Qed.

Lemma paired_step_count s1 s2 :
  paired_step G0 H0 X5H env uninit s1 s2 ->
  0 <= stream_count (fst s1) <= INT_MAX ->
  0 <= stream_count (fst s2) <= INT_MAX.
Proof.
  intros Hstep Hc. destruct Hstep as [priv tr enable r priv' tr' Hcall Hstop Hstart].
  cbn [fst] in *. unfold INT_MAX in *.
  apply s_stream_priv in Hcall as [->| ->]; [assumption|].
  unfold stream_count_step. cbn [stream_count set_stream_count].
  destruct (truthy enable).
  - specialize (Hstart eq_refl). rewrite to_int_id; lia.
  - specialize (Hstop eq_refl). rewrite to_int_id; lia.
Qed.

(** C5, as the driver has it.  A [stop()] at count 0 runs no teardown
    and logs nothing, and leaves the count at -1: nothing checks for
    it.  Along calls that never stop at count 0 (and never start at
    INT_MAX) the count stays between 0 and INT_MAX. *)
Theorem C5_stream_count_sign :
  (forall priv tr,
      passes_remote_check X5H priv = true -> stream_count priv = 0 ->
      s_stream priv 0 tr =
        ((Returned 0, set_stream_count priv (-1)), tr ++ [EvLock; EvUnlock])) /\
  (forall s1 s2,
      0 <= stream_count (fst s1) <= INT_MAX ->
      paired_run G0 H0 X5H env uninit s1 s2 ->
      0 <= stream_count (fst s2) <= INT_MAX).
Proof.
  split.
  - intros priv tr Hg Hc.
    rewrite s_stream_bookkeeping; auto; try (intros; lia).
    + unfold stream_count_step. rewrite Hc. reflexivity.
    + discriminate.
  - intros s1 s2 Hc Hrun. induction Hrun as [s|s1 s2 s3 Hrun IH Hstep]; [assumption|].
    eapply paired_step_count; eauto.
Qed.

(** *** Order of the stop *)

Lemma standby_precedes_stop priv src_stop :
  is_source_stop src_stop = true ->
  precedes is_teardown is_source_stop (standby_events G0 X5H priv ++ [src_stop]) = true.
Proof.
  intros Hs. unfold standby_events, precedes.
  destruct (has_feature priv G0), (has_feature priv X5H);
    cbn [app first_index is_teardown is_source_stop option_map];
    rewrite Hs; reflexivity.
Qed.

Lemma stop_not_before_standby priv src_stop :
  is_source_stop src_stop = true ->
  precedes is_source_stop is_teardown (standby_events G0 X5H priv ++ [src_stop]) = false.
Proof.
  intros Hs. unfold standby_events, precedes.
  destruct (has_feature priv G0), (has_feature priv X5H);
    cbn [app first_index is_teardown is_source_stop option_map];
    rewrite Hs; reflexivity.
Qed.

(** C6, as the driver has it.  The [stop()] that takes the count from 1
    to 0 first tears the PHY down (the standby writes, the reset, the
    power release) and only then asks the source to stop. *)
Theorem C6_teardown_before_source_stop :
  forall priv tr,
    passes_remote_check X5H priv = true -> stream_count priv = 1 ->
    exists src_stop,
      s_stream priv 0 tr =
        ((Returned 0, set_stream_count priv 0),
         tr ++ [EvLock] ++ standby_events G0 X5H priv ++ [src_stop; EvUnlock]) /\
      is_source_stop src_stop = true /\
      precedes is_teardown is_source_stop
        (standby_events G0 X5H priv ++ [src_stop]) = true /\
      precedes is_source_stop is_teardown
        (standby_events G0 X5H priv ++ [src_stop]) = false.
Proof.
  intros priv tr Hg Hc.
  destruct (stop_eq priv (tr ++ [EvLock]) Hg) as (src_stop & Hstop & Hsrc).
  exists src_stop. split; [|split; [assumption|split]].
  - rewrite s_stream_last_stop by auto. rewrite Hstop. cbn [snd].
    unfold stream_count_step. rewrite Hc. cbn [truthy Z.eqb negb].
    rewrite <- !app_assoc. reflexivity.
  - now apply standby_precedes_stop.
  - now apply stop_not_before_standby.
Qed.

(** *** The fault interrupt *)

Lemma u32_idem x : u32 (u32 x) = u32 x.
Proof. unfold u32. apply Z.mod_mod. lia. Qed.

Lemma count_source_stop priv src_stop :
  is_source_stop src_stop = true ->
  count_events is_source_stop (standby_events G0 X5H priv ++ [src_stop]) = 1%nat.
Proof.
  intros Hs. unfold standby_events, count_events.
  destruct (has_feature priv G0), (has_feature priv X5H);
    cbn [app filter is_source_stop]; rewrite Hs; reflexivity.
Qed.

Lemma irq_thread_run priv tr :
  passes_remote_check X5H priv = true ->
  exists src_stop res bringup,
    let stop_evs := standby_events G0 X5H priv ++ [src_stop] in
    let tr1 := tr ++ [EvLock] ++ stop_evs ++ [EvSleep 1000 2000] in
    is_source_stop src_stop = true /\
    stop priv (tr ++ [EvLock]) = (tt, (tr ++ [EvLock]) ++ stop_evs) /\
    start priv tr1 = (res, tr1 ++ bringup) /\
    count_events is_pm_get bringup = 1%nat /\
    irq_thread priv tr =
      match res with
      | Returned r =>
          (Some IRQ_HANDLED,
           tr1 ++ bringup ++ (if truthy r then [restart_failed] else []) ++ [EvUnlock])
      | Oops => (None, tr1 ++ bringup)
      end.
Proof.
  intros Hg.
  destruct (stop_eq priv (tr ++ [EvLock]) Hg) as (src_stop & Hstop & Hsrc).
  set (stop_evs := standby_events G0 X5H priv ++ [src_stop]) in *.
  set (tr1 := tr ++ [EvLock] ++ stop_evs ++ [EvSleep 1000 2000]).
  destruct (start_run priv tr1) as (res & evs & Hstart & Hall).
  exists src_stop, res, (EvPmGet :: evs). cbv zeta. fold stop_evs. fold tr1.
  split; [assumption|]. split; [assumption|]. split; [assumption|]. split.
  - unfold count_events. cbn [filter is_pm_get List.length].
    fold (count_events is_pm_get evs). now rewrite not_pm_get_count.
  - unfold rcsi2_irq_thread, bind, usleep_range, emit. rewrite Hstop.
    cbv beta iota.
    replace (((tr ++ [EvLock]) ++ stop_evs) ++ [EvSleep 1000 2000]) with tr1
      by (unfold tr1; now rewrite <- !app_assoc).
    rewrite Hstart. destruct res as [r|]; [|reflexivity].
    unfold when, dev_warn, emit, ret, restart_failed.
    destruct (truthy r); rewrite <- ?app_assoc; reflexivity.
Qed.

(** C8.  When the handler reads a non-zero status and a non-zero error
    status it acknowledges both and wakes the thread; the thread takes
    the lock, runs [rcsi2_stop] once (one stop request to the source)
    and [rcsi2_start] once (one power reference), and releases the lock.
    When that start returns an error the warning is logged, the history
    ends with the receiver in standby, and nothing starts it again.
    When the status reads zero the handler returns IRQ_HANDLED after its
    two reads and nothing else happens. *)
Theorem C8_fault_recovery :
  (forall priv tr,
      passes_remote_check X5H priv = true ->
      let status := u32 (env_ioread32 env tr INTSTATE_REG) in
      let err_status :=
        u32 (env_ioread32 env (tr ++ [EvRead32 INTSTATE_REG status]) INTERRSTATE_REG) in
      status <> 0 -> err_status <> 0 ->
      let tr0 := tr ++ [EvRead32 INTSTATE_REG status;
                        EvRead32 INTERRSTATE_REG err_status;
                        EvWrite32 INTSTATE_REG status;
                        EvWrite32 INTERRSTATE_REG err_status;
                        EvLog KERN_INFO "Transfer error, restarting CSI-2 receiver" []] in
      rcsi2_irq env tr = (IRQ_WAKE_THREAD, tr0) /\
      exists src_stop res bringup,
        let stop_evs := standby_events G0 X5H priv ++ [src_stop] in
        let tr1 := tr0 ++ [EvLock] ++ stop_evs ++ [EvSleep 1000 2000] in
        stop priv (tr0 ++ [EvLock]) = (tt, (tr0 ++ [EvLock]) ++ stop_evs) /\
        count_events is_source_stop stop_evs = 1%nat /\
        start priv tr1 = (res, tr1 ++ bringup) /\
        count_events is_pm_get (stop_evs ++ [EvSleep 1000 2000] ++ bringup) = 1%nat /\
        match res with
        | Returned r =>
            fault_interrupt priv tr =
              (Some IRQ_HANDLED,
               tr1 ++ bringup ++ (if truthy r then [restart_failed] else []) ++
               [EvUnlock]) /\
            (r <> 0 ->
             forall s, receiver_state_of s (snd (fault_interrupt priv tr)) = Standby)
        | Oops => fst (fault_interrupt priv tr) = None
        end) /\
  (forall priv tr,
      u32 (env_ioread32 env tr INTSTATE_REG) = 0 ->
      fault_interrupt priv tr =
        (Some IRQ_HANDLED,
         tr ++ [EvRead32 INTSTATE_REG 0;
                EvRead32 INTERRSTATE_REG
                  (u32 (env_ioread32 env (tr ++ [EvRead32 INTSTATE_REG 0])
                          INTERRSTATE_REG))])).
Proof.
  split.
  - intros priv tr Hg status err_status Hst Herr tr0.
    assert (Hirq : rcsi2_irq env tr = (IRQ_WAKE_THREAD, tr0)).
    { assert (Hs : u32 status = status) by apply u32_idem.
      assert (He : u32 err_status = err_status) by apply u32_idem.
      unfold rcsi2_irq, bind, rcsi2_read, rcsi2_write, dev_info, emit, ret.
      fold status. fold err_status.
      apply Z.eqb_neq in Hst, Herr. rewrite Hst, Herr, Hs, He.
      unfold tr0. now rewrite <- !app_assoc. }
    split; [exact Hirq|].
    destruct (irq_thread_run priv tr0 Hg)
      as (src_stop & res & bringup & Hsrc & Hstop & Hstart & Hone & Hthread).
    exists src_stop, res, bringup. cbv zeta in *.
    split; [exact Hstop|]. split; [now apply count_source_stop|].
    split; [exact Hstart|]. split.
    { assert (Hnone : count_events is_pm_get (standby_events G0 X5H priv ++ [src_stop]) = 0%nat).
      { unfold standby_events, count_events.
        destruct (has_feature priv G0), (has_feature priv X5H);
          cbn [app filter is_pm_get]; destruct src_stop; try discriminate; reflexivity. }
      rewrite (count_events_app _ (standby_events G0 X5H priv ++ [src_stop])), Hnone.
      change ([EvSleep 1000 2000] ++ bringup) with (EvSleep 1000 2000 :: bringup).
      unfold count_events in *. cbn [filter is_pm_get]. exact Hone. }
    assert (Hfault : fault_interrupt priv tr = irq_thread priv tr0).
    { unfold rcsi2_fault_interrupt, bind. now rewrite Hirq. }
    rewrite Hfault, Hthread. destruct res as [r|]; [|reflexivity].
    split; [reflexivity|].
    intros Hr s. cbn [snd].
    pose proof (start_fails_in_standby priv _ _ _ Hstart r eq_refl Hr s) as Hsb.
    match goal with
    | |- receiver_state_of s (?t1 ++ bringup ++ ?x) = _ =>
        rewrite (app_assoc t1 bringup x), receiver_state_app
    end.
    rewrite Hsb. destruct (truthy r); reflexivity.
  - intros priv tr Hst.
    unfold rcsi2_fault_interrupt, rcsi2_irq, bind, rcsi2_read, ret.
    rewrite Hst. cbn [Z.eqb]. now rewrite <- app_assoc.
Qed.

End StreamControl.

(** ** The calibration timeout *)

Lemma returns_ret {A} (c : A) : returns c (ret c).
Proof. intros tr. reflexivity. Qed.

Lemma returns_bind {A B} (c : B) (m : M A) (f : A -> M B) :
  (forall a, returns c (f a)) -> returns c (bind m f).
Proof. intros Hf tr. unfold bind. destruct (m tr) as [a tr']. apply Hf. Qed.

Lemma returns_bind_value {A B} (c : B) (a : A) (m : M A) (f : A -> M B) :
  returns a m -> returns c (f a) -> returns c (bind m f).
Proof.
  intros Hm Hf tr. unfold bind. specialize (Hm tr).
  destruct (m tr) as [a' tr']. simpl in Hm. subst a'. apply Hf.
Qed.

Lemma poll32_never env reg_ ready n :
  (forall tr, ready (u32 (env_ioread32 env tr reg_)) = false) ->
  returns false (poll32 env reg_ ready n).
Proof.
  intros Hnever. induction n as [|n IH]; [apply returns_ret|].
  intros tr. simpl. unfold bind, rcsi2_read. rewrite Hnever.
  unfold usleep_range, emit. apply IH.
Qed.

Ltac returns_through :=
  repeat match goal with
         | |- returns _ (bind (poll32 _ _ _ _) _) => fail 1
         | |- returns _ (bind _ _) => apply returns_bind; intros
         | |- returns _ (ret _) => apply returns_ret
         end.

Lemma c_phy_setting_times_out env priv rate :
  never_ready env ->
  msps (cphy_scan rate cphy_setting_table_r8a779g0) <> 0 ->
  returns (- ETIMEDOUT) (rcsi2_c_phy_setting env priv rate).
Proof.
  intros Hnever Hscan. unfold rcsi2_c_phy_setting.
  apply Z.eqb_neq in Hscan. rewrite Hscan.
  returns_through.
  eapply returns_bind_value.
  - apply poll32_never. intros tr. unfold truthy. rewrite Hnever. reflexivity.
  - cbn [negb]. returns_through.
Qed.

Lemma start_receiver_v4h_swallows X5H env priv tr lanes_ format rate tr1 tr2 :
  rcsi2_get_active_lanes X5H env priv tr = ((0, lanes_), tr1) ->
  rcsi2_code_to_fmt (mf_code (mf priv)) = Some format ->
  rcsi2_calc_mbps X5H env priv (bpp format) lanes_ tr1 = (rate, tr2) ->
  0 <= rate ->
  fst (rcsi2_start_receiver_v4h X5H env priv tr) = Returned 0.
Proof.
  intros Hlanes Hfmt Hrate Hpos. unfold rcsi2_start_receiver_v4h.
  unfold bind at 1. rewrite Hlanes. cbn [truthy Z.eqb negb]. rewrite Hfmt.
  unfold bind at 1. rewrite Hrate.
  assert ((rate <? 0) = false) as -> by (apply Z.ltb_ge; lia).
  match goal with |- fst (?m ?t) = _ => enough (returns (Returned 0) m) by auto end.
  returns_through.
Qed.

(** C7.  The calibration step does return -ETIMEDOUT when the ready bit
    never shows within its ten polls, but [rcsi2_start_receiver_v4h]
    only logs that result and returns 0: on a V4H C-PHY receiver whose
    PHY never gets ready the first [s_stream(1)] logs both failures,
    starts the source, returns 0 with the count at 1 and leaves the
    receiver powered. *)
Theorem C7_calibration_timeout_swallowed :
  (forall env priv rate,
      never_ready env ->
      msps (cphy_scan rate cphy_setting_table_r8a779g0) <> 0 ->
      returns (- ETIMEDOUT) (rcsi2_c_phy_setting env priv rate)) /\
  (forall X5H env priv tr lanes_ format rate tr1 tr2,
      rcsi2_get_active_lanes X5H env priv tr = ((0, lanes_), tr1) ->
      rcsi2_code_to_fmt (mf_code (mf priv)) = Some format ->
      rcsi2_calc_mbps X5H env priv (bpp format) lanes_ tr1 = (rate, tr2) ->
      0 <= rate ->
      fst (rcsi2_start_receiver_v4h X5H env priv tr) = Returned 0) /\
  (fst v4h_timeout_run = (Returned 0, set_stream_count priv_v4h_cphy 1) /\
   filter is_log (snd v4h_timeout_run) =
     [EvLog KERN_DEBUG "No remote mbus configuration available" [];
      EvLog KERN_ERR "PHY calibration failed" [];
      EvLog KERN_ERR "Setting C-PHY failed" [];
      EvLog KERN_DEBUG "Set the Link and PHY of CSI-2 module registers" [];
      EvLog KERN_DEBUG "Confirmed PHY of CSI-2 module starts." []] /\
   count_events is_source_start (snd v4h_timeout_run) = 1%nat /\
   receiver_state_of Standby (snd v4h_timeout_run) = Active).
Proof.
  split; [|split].
  - intros env priv rate. apply c_phy_setting_times_out.
  - intros X5H env priv tr lanes_ format rate tr1 tr2.
    apply start_receiver_v4h_swallows.
  - repeat split; vm_compute; reflexivity.
Qed.

(** ** The configured tables *)

Lemma configured_tables_ascending :
  Forall (fun table =>
            table = removelast table ++ [mbps_sentinel] /\
            ascending_table (removelast table) /\
            removelast table <> [])
    [ phtw_mbps_v3u; phtw_mbps_h3_v3h_m3n; phtw_mbps_v3m_e3; hsfreqrange_v3u;
      hsfreqrange_h3_v3h_m3n; hsfreqrange_m3w_h3es1; hsfreqrange_v4m;
      osc_freq_target_v4m ].
Proof. repeat constructor; try reflexivity; discriminate. Qed.

(** ** The theorems on concrete inputs *)

Lemma C1_witness :
  exists e,
    nearest_lower example_table 95 e /\
    rcsi2_set_phypll H0_BIT priv_h3 (example_table ++ [mbps_sentinel]) 95 [] =
      (0, [EvWrite32 PHYPLL_REG (u32 (PHYPLL_HSFREQRANGE (reg e)))]) /\
    rcsi2_get_osc_freq (example_table ++ [mbps_sentinel]) 95 [] = (reg e, []).
Proof.
  apply (proj1 (C1_lookup_nearest_lower_tie H0_BIT) priv_h3 example_table 95 []).
  - reflexivity.
  - discriminate.
  - simpl. lia.
Defined.

Lemma C2_witness :
  rcsi2_get_osc_freq (example_table ++ [mbps_sentinel]) 50 [] =
    (0x10, [EvLog KERN_WARNING "%u Mbps less than min PHY speed %u Mbps" [50; 90]]) /\
  rcsi2_set_phypll H0_BIT priv_h3 (example_table ++ [mbps_sentinel]) 111 [] =
    (- ERANGE, [EvLog KERN_ERR "Unsupported PHY speed (%u Mbps)" [111]]).
Proof.
  split.
  - apply (proj1 (C2_lookup_outside_table H0_BIT X5H_BIT env_ready)
             priv_h3 (example_table ++ [mbps_sentinel]) 50 []).
    + lia.
    + simpl. lia.
  - apply (proj2 (C2_lookup_outside_table H0_BIT X5H_BIT env_ready)
             priv_h3 example_table 111 []).
    + reflexivity.
    + simpl. lia.
Defined.

Lemma C3_witness :
  rcsi2_calc_mbps X5H_BIT env_ready priv_h3 24 4 [] =
    (24 * 100000000 / (4 * 1000000), [EvPixelRate true 100000000]) /\
  rcsi2_calc_mbps X5H_BIT env_ready priv_x5h 24 4 [] =
    (7423000000 / (4 * 1000000), []) /\
  0 <= v4h_data_rate priv_v4h_cphy 2800 <= 2800.
Proof.
  destruct (C3_link_speed X5H_BIT env_ready) as (Hrate & Hx5h & _ & Hcphy).
  split; [|split].
  - apply (Hrate priv_h3 24 4 100000000 []); try reflexivity; lia.
  - apply (Hx5h priv_x5h 24 4 []); [reflexivity|lia].
  - apply (Hcphy priv_v4h_cphy 2800); [reflexivity|lia].
Defined.

Lemma C4_witness :
  stream_count (snd (fst three_starts)) = 3 /\
  exists bringup,
    rcsi2_start G0_BIT H0_BIT X5H_BIT env_ready 0 priv_h3 ([] ++ [EvLock]) =
      (Returned 0, ([] ++ [EvLock]) ++ bringup) /\
    snd three_starts =
      [] ++ [EvLock] ++ bringup ++ [EvUnlock] ++
      List.concat (repeat [EvLock; EvUnlock] (3 - 1)) /\
    count_events is_pm_get
      ([EvLock] ++ bringup ++ [EvUnlock] ++
       List.concat (repeat [EvLock; EvUnlock] (3 - 1))) = 1%nat.
Proof.
  apply (C4_repeated_start_brings_up_once G0_BIT H0_BIT X5H_BIT env_ready 0
           priv_h3 3%nat [] (fst (fst three_starts)) (snd (fst three_starts))
           (snd three_starts)).
  - reflexivity.
  - lia.
  - vm_compute. discriminate.
  - vm_compute. reflexivity.
  - vm_compute. reflexivity.
Defined.

Lemma C5_witness :
  rcsi2_s_stream G0_BIT H0_BIT X5H_BIT env_ready 0 priv_h3 0 [] =
    ((Returned 0, set_stream_count priv_h3 (-1)), [EvLock; EvUnlock]) /\
  0 <= stream_count (fst (snd (fst last_stop), snd last_stop)) <= INT_MAX.
Proof.
  split.
  - apply (proj1 (C5_stream_count_sign G0_BIT H0_BIT X5H_BIT env_ready 0) priv_h3 []);
      reflexivity.
  - apply (proj2 (C5_stream_count_sign G0_BIT H0_BIT X5H_BIT env_ready 0)
             (priv_h3_streaming, []) (snd (fst last_stop), snd last_stop)).
    + vm_compute. split; discriminate.
    + apply (paired_cons G0_BIT H0_BIT X5H_BIT env_ready 0
               (priv_h3_streaming, []) (priv_h3_streaming, [])
               (snd (fst last_stop), snd last_stop)).
      * apply paired_nil.
      * apply (paired_call G0_BIT H0_BIT X5H_BIT env_ready 0
                 priv_h3_streaming [] 0 0 (snd (fst last_stop)) (snd last_stop)).
        -- vm_compute. reflexivity.
        -- intros _. vm_compute. discriminate.
        -- intros H. discriminate H.
Defined.

Lemma C6_witness :
  exists src_stop,
    rcsi2_s_stream G0_BIT H0_BIT X5H_BIT env_ready 0 priv_h3_streaming 0 [] =
      ((Returned 0, set_stream_count priv_h3_streaming 0),
       [] ++ [EvLock] ++ standby_events G0_BIT X5H_BIT priv_h3_streaming ++
       [src_stop; EvUnlock]) /\
    is_source_stop src_stop = true /\
    precedes is_teardown is_source_stop
      (standby_events G0_BIT X5H_BIT priv_h3_streaming ++ [src_stop]) = true /\
    precedes is_source_stop is_teardown
      (standby_events G0_BIT X5H_BIT priv_h3_streaming ++ [src_stop]) = false.
Proof.
  apply (C6_teardown_before_source_stop G0_BIT H0_BIT X5H_BIT env_ready 0
           priv_h3_streaming []); reflexivity.
Defined.

Lemma C7_witness :
  returns (- ETIMEDOUT) (rcsi2_c_phy_setting env_silent priv_v4h_cphy 400) /\
  fst (rcsi2_start_receiver_v4h X5H_BIT env_silent priv_v4h_cphy []) = Returned 0.
Proof.
  destruct C7_calibration_timeout_swallowed as (Htimeout & Hswallow & _).
  split.
  - apply Htimeout.
    + intros tr. reflexivity.
    + vm_compute. discriminate.
  - eapply (Hswallow X5H_BIT env_silent priv_v4h_cphy []).
    + vm_compute. reflexivity.
    + vm_compute. reflexivity.
    + vm_compute. reflexivity.
    + vm_compute. discriminate.
Defined.

Lemma C8_witness :
  rcsi2_irq env_ready [] =
    (IRQ_WAKE_THREAD,
     [EvRead32 INTSTATE_REG 0xffffffff; EvRead32 INTERRSTATE_REG 0xffffffff;
      EvWrite32 INTSTATE_REG 0xffffffff; EvWrite32 INTERRSTATE_REG 0xffffffff;
      EvLog KERN_INFO "Transfer error, restarting CSI-2 receiver" []]) /\
  rcsi2_fault_interrupt G0_BIT H0_BIT X5H_BIT env_silent 0 priv_h3_streaming [] =
    (Some IRQ_HANDLED, [EvRead32 INTSTATE_REG 0; EvRead32 INTERRSTATE_REG 0]).
Proof.
  split.
  - apply (proj1 (C8_fault_recovery G0_BIT H0_BIT X5H_BIT env_ready 0)
             priv_h3_streaming []).
    + reflexivity.
    + vm_compute. discriminate.
    + vm_compute. discriminate.
  - apply (proj2 (C8_fault_recovery G0_BIT H0_BIT X5H_BIT env_silent 0)
             priv_h3_streaming []).
    reflexivity.
Defined.

Lemma C9_witness :
  (exists priv',
      rcsi2_parse_v4l2 priv_h3 vep_duplicate [] = ((0, priv'), []) /\
      lanes priv' = u16 (num_data_lanes vep_duplicate) /\
      lane_swap priv' = parsed_lane_swap vep_duplicate) /\
  fst (fst (rcsi2_parse_v4l2 priv_h3 vep_out_of_range [])) = - EINVAL.
Proof.
  split.
  - apply (proj2 (C9_lane_swap_range_checked priv_h3 vep_duplicate [])); reflexivity.
  - apply (proj2 (C9_lane_swap_range_checked priv_h3 vep_out_of_range [])); reflexivity.
Defined.

Lemma C10_witness :
  exists r evs,
    rcsi2_phtw_write_array X5H_BIT env_ready priv_h3 v3u_step2 [] = (r, [] ++ evs) /\
    is_prefix (phtw_writes evs) (map phtw_entry_word (before_sentinel v3u_step2)) /\
    (r = 0 -> phtw_writes evs = map phtw_entry_word (before_sentinel v3u_step2)).
Proof.
  apply (proj1 (C10_write_array_stops_at_zero_entry X5H_BIT env_ready) priv_h3 v3u_step2 []).
Defined.

(** ** Where the spec and the driver part *)

(** C2: above the last threshold of its table (1125), the PHTW lookup
    of the V3M writes the last entry and returns 0; below the first (80)
    it logs no warning. *)
Lemma C2_counterexample :
  mbps (last (removelast phtw_mbps_v3m_e3) mbps_sentinel) < 2000 /\
  ~ out_of_range_outcome []
      (rcsi2_phtw_write_mbps X5H_BIT env_ready priv_v3m 2000 phtw_mbps_v3m_e3 0x44 []) /\
  rcsi2_phtw_write_mbps X5H_BIT env_ready priv_v3m 2000 phtw_mbps_v3m_e3 0x44 [] =
    (0, [EvWrite32 PHTW_REG (u32 (phtw_word 0x16 0x44)); EvRead32 PHTW_REG 0]) /\
  50 < mbps (table_head phtw_mbps_v3m_e3) /\
  count_events is_warning
    (snd (rcsi2_phtw_write_mbps X5H_BIT env_ready priv_v3m 50 phtw_mbps_v3m_e3 0x44 []))
    = 0%nat.
Proof.
  split; [vm_compute; reflexivity|]. split; [|split; [|split]].
  - intros [Hret _]. vm_compute in Hret. discriminate.
  - vm_compute. reflexivity.
  - vm_compute. reflexivity.
  - vm_compute. reflexivity.
Qed.

(** C3: with the R8A78000 feature the rate ignores the format and the
    source: 1855 where the formula gives 600. *)
Lemma C3_counterexample :
  env_pixel_rate env_ready [] = Some 100000000 /\
  fst (rcsi2_calc_mbps X5H_BIT env_ready priv_x5h 24 4 []) = 1855 /\
  fst (rcsi2_calc_mbps X5H_BIT env_ready priv_x5h 24 4 []) <>
    24 * 100000000 / (4 * 1000000).
Proof. repeat split. vm_compute. discriminate. Qed.

(** C5: a stop at count 0 takes the count to -1. *)
Lemma C5_counterexample :
  stream_count priv_h3 = 0 /\
  stream_count
    (snd (fst (rcsi2_s_stream G0_BIT H0_BIT X5H_BIT env_ready 0 priv_h3 0 []))) = -1 /\
  filter is_log (snd (rcsi2_s_stream G0_BIT H0_BIT X5H_BIT env_ready 0 priv_h3 0 [])) = [].
Proof. repeat split. Qed.

(** C6: the last stop of an H3 receiver asks the source to stop after
    the PHY is torn down, not before. *)
Lemma C6_counterexample :
  snd (rcsi2_s_stream G0_BIT H0_BIT X5H_BIT env_ready 0 priv_h3_streaming 0 []) =
    [EvLock; EvWrite32 PHYCNT_REG 0; EvWrite32 PHTC_REG PHTC_TESTCLR; EvResetAssert;
     EvSleep 100 150; EvPmPut; EvSubdevStream 0 0; EvUnlock] /\
  precedes is_source_stop is_teardown
    (snd (rcsi2_s_stream G0_BIT H0_BIT X5H_BIT env_ready 0 priv_h3_streaming 0 []))
    = false.
Proof. split; reflexivity. Qed.

(** C9: two lanes mapped to the same physical lane are accepted. *)
Lemma C9_counterexample :
  used_data_lanes vep_duplicate = [1; 1] /\
  fst (fst (rcsi2_parse_v4l2 priv_h3 vep_duplicate [])) = 0 /\
  lane_swap (snd (fst (rcsi2_parse_v4l2 priv_h3 vep_duplicate []))) = [1; 1; 2; 3] /\
  ~ NoDup (lane_swap (snd (fst (rcsi2_parse_v4l2 priv_h3 vep_duplicate [])))).
Proof.
  repeat split. vm_compute. intros H. inversion H as [|x l Hin _]; subst.
  apply Hin. now left.
Qed.

(* ================================================================== *)
(** * Further properties of the driver *)

(* ================================================================== *)
(** ** Further properties of the driver *)

(** *** Events of a computation, once more *)

Lemma emits_run {A} p (m : M A) tr :
  emits p m -> exists a evs, m tr = (a, tr ++ evs) /\ forallb p evs = true.
Proof.
  intros Hm. destruct (Hm tr) as (evs & Hevs & Hall).
  destruct (m tr) as [a tr'] eqn:Hrun. simpl in Hevs. subst tr'.
  now exists a, evs.
Qed.

Lemma forallb_weaken {A} (p q : A -> bool) l :
  (forall e, p e = true -> q e = true) -> forallb p l = true -> forallb q l = true.
Proof.
  intros Hpq. induction l as [|e l IH]; [reflexivity|]. simpl.
  intros H. apply andb_prop in H as [He Hl]. now rewrite (Hpq e He), IH.
Qed.

Lemma emits_weaken {A} (p q : event -> bool) (m : M A) :
  (forall e, p e = true -> q e = true) -> emits p m -> emits q m.
Proof.
  intros Hpq Hm tr. destruct (Hm tr) as (evs & Hevs & Hall).
  exists evs. split; [assumption|]. now apply forallb_weaken with p.
Qed.

Lemma emits_mbus_config p env priv :
  (forall r ty fl, p (EvMbusConfig r ty fl) = true) ->
  emits p (v4l2_subdev_call_get_mbus_config env priv).
Proof.
  intros Hp. unfold v4l2_subdev_call_get_mbus_config.
  destruct (remote priv); [|apply emits_ret].
  intros tr. destruct (env_get_mbus_config env tr) as [[r ty] fl].
  eexists [_]; split; [reflexivity|]. simpl. now rewrite Hp.
Qed.

Lemma emits_pixel_rate p env :
  (forall b r, p (EvPixelRate b r) = true) -> emits p (v4l2_ctrl_pixel_rate env).
Proof.
  intros Hp tr. unfold v4l2_ctrl_pixel_rate.
  destruct (env_pixel_rate env tr); eexists [_]; (split; [reflexivity|]);
    simpl; now rewrite Hp.
Qed.

(** *** Pad formats *)

Lemma first_format_supported :
  supported_code (fmt_code (nth 0 rcar_csi2_formats (FMT 0 0 0))).
Proof.
  unfold supported_code, rcsi2_code_to_fmt, rcar_csi2_formats. cbn [nth find FMT fmt_code].
  rewrite Z.eqb_refl. discriminate.
Qed.

(** X1.  [rcsi2_set_pad_format] always returns 0 and leaves in
    [*format] a supported pixel code: a supported code is kept with
    every other field, an unsupported one is replaced by the code of the
    first table entry (RGB888) and nothing else changes.  An active
    format goes to [priv->mf] and leaves the try format alone, a try
    format goes to the pad configuration and leaves the instance alone.
    [rcsi2_get_pad_format] with the same [which] reads back what was
    stored, and an instance with a supported code keeps one. *)
Theorem X1_pad_format_set_then_get :
  forall priv try_fmt fmt,
    exists priv' try' fmt',
      rcsi2_set_pad_format priv try_fmt fmt = (0, priv', try', fmt') /\
      which fmt' = which fmt /\
      supported_code (mf_code (format fmt')) /\
      (supported_code (mf_code (format fmt)) -> fmt' = fmt) /\
      (~ supported_code (mf_code (format fmt)) ->
       format fmt' = set_code (format fmt) MEDIA_BUS_FMT_RGB888_1X24) /\
      (if which fmt =? V4L2_SUBDEV_FORMAT_ACTIVE
       then priv' = set_mf priv (format fmt') /\ try' = try_fmt
       else priv' = priv /\ try' = format fmt') /\
      rcsi2_get_pad_format priv' try' fmt' = (0, fmt') /\
      (supported_code (mf_code (mf priv)) -> supported_code (mf_code (mf priv'))).
Proof.
  intros priv try_fmt fmt. unfold rcsi2_set_pad_format, rcsi2_get_pad_format.
  destruct fmt as [w m]. cbn [which format].
  destruct (rcsi2_code_to_fmt (mf_code m)) as [f|] eqn:Hcode.
  - assert (Hs : supported_code (mf_code m)) by (unfold supported_code; congruence).
    cbn [which format].
    destruct (w =? V4L2_SUBDEV_FORMAT_ACTIVE) eqn:Hw;
      (eexists _, _, _; split; [reflexivity|]);
      cbn [which format set_mf mf set_format]; rewrite ?Hw;
      repeat split; auto; intros H; now elim H.
  - assert (Hn : ~ supported_code (mf_code m)) by (unfold supported_code; congruence).
    cbn [which format set_format].
    destruct (w =? V4L2_SUBDEV_FORMAT_ACTIVE) eqn:Hw;
      (eexists _, _, _; split; [reflexivity|]);
      cbn [which format set_mf mf set_format set_code mf_code]; rewrite ?Hw;
      repeat split; auto; try apply first_format_supported;
      intros H; try (now elim Hn); apply first_format_supported.
Qed.

(** *** Binding of the source *)

(** X2.  [rcsi2_notify_bound] refuses a negative pad with that error
    and leaves the instance alone; otherwise it records the source, also
    when the link to it could not be created, and returns what creating
    the link returned.  [rcsi2_notify_unbind] forgets the source.  On a
    variant without the R8A78000 feature every later [s_stream] call,
    start or stop, then fails with -ENODEV between lock and unlock: the
    count and the power state stay what they were, so a receiver that
    was streaming is not torn down. *)
Theorem X2_binding_of_the_source :
  forall G0 H0 X5H env uninit priv pad link enable tr,
    let bound_err := EvLog KERN_ERR "Failed to find pad for %s" [] in
    let bound_dbg := EvLog KERN_DEBUG "Bound %s pad: %d" [pad] in
    let unbind_dbg := EvLog KERN_DEBUG "Unbind %s" [] in
    (pad < 0 -> rcsi2_notify_bound priv pad link tr = ((pad, priv), tr ++ [bound_err])) /\
    (0 <= pad ->
     rcsi2_notify_bound priv pad link tr =
       ((link, set_remote priv true), tr ++ [bound_dbg]) /\
     passes_remote_check X5H (set_remote priv true) = true) /\
    rcsi2_notify_unbind priv tr = (set_remote priv false, tr ++ [unbind_dbg]) /\
    (has_feature priv X5H = false ->
     rcsi2_s_stream G0 H0 X5H env uninit (set_remote priv false) enable
       (tr ++ [unbind_dbg]) =
       ((Returned (- ENODEV), set_remote priv false),
        (tr ++ [unbind_dbg]) ++ [EvLock; EvUnlock]) /\
     stream_count (set_remote priv false) = stream_count priv /\
     forall s,
       receiver_state_of s ((tr ++ [unbind_dbg]) ++ [EvLock; EvUnlock]) =
         receiver_state_of s tr).
Proof.
  intros G0 H0 X5H env uninit priv pad link enable tr bound_err bound_dbg unbind_dbg.
  split; [|split; [|split]].
  - intros Hpad. unfold rcsi2_notify_bound.
    assert ((pad <? 0) = true) as -> by (apply Z.ltb_lt; lia). reflexivity.
  - intros Hpad. unfold rcsi2_notify_bound.
    assert ((pad <? 0) = false) as -> by (apply Z.ltb_ge; lia). split; [reflexivity|].
    unfold passes_remote_check. cbn [set_remote remote]. apply orb_true_r.
  - reflexivity.
  - intros Hf. split; [|split].
    + apply s_stream_no_remote. unfold passes_remote_check.
      unfold has_feature in *. cbn [set_remote remote info]. now rewrite Hf.
    + reflexivity.
    + intros s. now rewrite !receiver_state_app.
Qed.

(** *** The interrupt handler *)

(** X3.  [rcsi2_irq] only reads and writes registers and logs: it
    takes no lock and does not sleep.  It never returns IRQ_NONE.  It
    wakes the thread exactly when both the status and the error status
    read non-zero; a non-zero status with a zero error status is written
    back to INTSTATE_REG and nothing else is. *)
Theorem X3_irq_handler :
  forall env tr,
    let status := u32 (env_ioread32 env tr INTSTATE_REG) in
    let err_status :=
      u32 (env_ioread32 env (tr ++ [EvRead32 INTSTATE_REG status]) INTERRSTATE_REG) in
    emits is_handler_event (rcsi2_irq env) /\
    fst (rcsi2_irq env tr) <> IRQ_NONE /\
    (fst (rcsi2_irq env tr) = IRQ_WAKE_THREAD <-> status <> 0 /\ err_status <> 0) /\
    (status <> 0 -> err_status = 0 ->
     rcsi2_irq env tr =
       (IRQ_HANDLED,
        tr ++ [EvRead32 INTSTATE_REG status; EvRead32 INTERRSTATE_REG 0;
               EvWrite32 INTSTATE_REG status])).
Proof.
  intros env tr status err_status.
  split.
  { unfold rcsi2_irq. emits_auto. }
  assert (Hs : u32 status = status) by apply u32_idem.
  unfold rcsi2_irq, bind, rcsi2_read, rcsi2_write, dev_info, emit, ret.
  fold status. fold err_status.
  destruct (Z.eqb_spec status 0) as [H0|H0].
  - cbn [fst]. split; [discriminate|]. split; [|intros H; now elim H].
    split; [discriminate|]. intros [H _]. now elim H.
  - destruct (Z.eqb_spec err_status 0) as [He|He].
    + cbn [fst]. split; [discriminate|]. split.
      * split; [discriminate|]. intros [_ H]. now elim H.
      * intros _ _. rewrite He, Hs. now rewrite <- !app_assoc.
    + cbn [fst]. split; [discriminate|]. split.
      * split; auto.
      * intros _ H. now elim He.
Qed.

(** *** Active lanes *)

Lemma count_error_log_one lvl f a :
  is_error_log (EvLog lvl f a) = true ->
  forall evs, forallb (fun e => negb (is_error_log e)) evs = true ->
  count_events is_error_log (evs ++ [EvLog lvl f a]) = 1%nat.
Proof.
  intros He evs Hevs. rewrite count_events_app.
  rewrite (count_events_none is_error_log (fun e => negb (is_error_log e))); auto.
  - unfold count_events. cbn [filter]. now rewrite He.
  - intros e. now destruct (is_error_log e).
Qed.

(** X4.  [rcsi2_get_active_lanes] touches no register.  When it
    returns 0 the lane count it hands back is the configured one or a
    count between 1 and 4 that does not exceed the configured one; when
    it fails it hands back the configured count and has logged one
    error. *)
Theorem X4_active_lanes_bounded :
  forall X5H env priv tr,
    0 <= lanes priv < 2 ^ 16 ->
    exists r lanes_ evs,
      rcsi2_get_active_lanes X5H env priv tr = ((r, lanes_), tr ++ evs) /\
      forallb is_quiet evs = true /\
      (r = 0 -> lanes_ = lanes priv \/ (1 <= lanes_ <= 4 /\ lanes_ <= lanes priv)) /\
      (r <> 0 -> lanes_ = lanes priv /\ count_events is_error_log evs = 1%nat).
Proof.
  intros X5H env priv tr Hl. unfold rcsi2_get_active_lanes.
  destruct (has_feature priv X5H); cbn [negb].
  1: { exists 0, (lanes priv), []. rewrite app_nil_r.
       split; [reflexivity|]. split; [reflexivity|]. split; [auto|]. intros H. now elim H. }
  unfold bind.
  set (is_mbus := fun e => match e with EvMbusConfig _ _ _ => true | _ => false end).
  destruct (emits_run is_mbus (v4l2_subdev_call_get_mbus_config env priv) tr)
    as ([[r ty] fl] & evs & Hrun & Hall).
  { apply emits_mbus_config. reflexivity. }
  assert (Hquiet : forallb is_quiet evs = true).
  { revert Hall. apply forallb_weaken. intros e. now destruct e. }
  assert (Hnoerr : forallb (fun e => negb (is_error_log e)) evs = true).
  { revert Hall. apply forallb_weaken. intros e. now destruct e. }
  assert (Hq1 : forall lvl f a, forallb is_quiet (evs ++ [EvLog lvl f a]) = true).
  { intros. now rewrite forallb_app, Hquiet. }
  rewrite Hrun. cbv beta iota.
  unfold dev_dbg, dev_err, emit, ret.
  destruct (r =? - ENOIOCTLCMD).
  { eexists 0, _, (evs ++ [_]). rewrite app_assoc. split; [reflexivity|].
    split; [apply Hq1|]. split; [auto|]. now intros H. }
  destruct (truthy r) eqn:Hr.
  { eexists r, _, (evs ++ [_]). rewrite app_assoc. split; [reflexivity|].
    split; [apply Hq1|]. split.
    - intros ->. discriminate.
    - intros _. split; [reflexivity|]. now apply count_error_log_one. }
  destruct (negb (ty =? V4L2_MBUS_CSI2_DPHY) && negb (ty =? V4L2_MBUS_CSI2_CPHY)).
  { eexists _, _, (evs ++ [_]). rewrite app_assoc. split; [reflexivity|].
    split; [apply Hq1|]. split.
    - discriminate.
    - intros _. split; [reflexivity|]. now apply count_error_log_one. }
  match goal with
  | |- context [if ?n >? lanes priv then _ else _] => set (num_lanes := n)
  end.
  assert (Hnum : 1 <= num_lanes <= 4 \/ num_lanes = UINT_MAX).
  { unfold num_lanes.
    repeat match goal with
           | |- context [if truthy ?x then _ else _] => destruct (truthy x)
           end; try (left; lia); now right. }
  destruct (Z.gtb_spec num_lanes (lanes priv)) as [Hgt|Hle].
  { eexists _, _, (evs ++ [_]). rewrite app_assoc. split; [reflexivity|].
    split; [apply Hq1|]. split.
    - discriminate.
    - intros _. split; [reflexivity|]. now apply count_error_log_one. }
  exists 0, num_lanes, evs. split; [reflexivity|]. split; [assumption|]. split.
  - intros _. right. unfold UINT_MAX in Hnum. lia.
  - now intros H.
Qed.

(** *** Bounded polls *)

Lemma count_events_cons p e evs :
  count_events p (e :: evs) = ((if p e then 1 else 0) + count_events p evs)%nat.
Proof. unfold count_events. simpl. now destruct (p e). Qed.

Lemma polling_no_write evs : forallb is_polling evs = true -> forallb not_reg_write evs = true.
Proof. apply forallb_weaken. intros e. now destruct e. Qed.

Lemma polling_no_error evs :
  forallb is_polling evs = true -> count_events is_error_log evs = 0%nat.
Proof. apply count_events_none. intros e. now destruct e. Qed.

(** The LP-11 poll: at most [n] sleeps, and [n] of them when it gives up. *)
Lemma wait_lp11_bound env l n : forall tr,
  exists ok evs,
    wait_lp11 env l n tr = (ok, tr ++ evs) /\
    forallb is_polling evs = true /\
    (count_events is_sleep evs <= n)%nat /\
    (ok = false -> count_events is_sleep evs = n).
Proof.
  induction n as [|n IH]; intros tr.
  - exists false, []. rewrite app_nil_r. split; [reflexivity|]. split; [reflexivity|].
    split; [unfold count_events; simpl; lia|reflexivity].
  - cbn [wait_lp11]. unfold bind, rcsi2_read, usleep_range, emit, ret.
    set (clm := u32 (env_ioread32 env tr PHCLM_REG)).
    destruct (truthy (Z.land clm PHCLM_STOPSTATECKL)).
    + set (dlm := u32 (env_ioread32 env (tr ++ [EvRead32 PHCLM_REG clm]) PHDLM_REG)).
      destruct (Z.land dlm _ =? _).
      * exists true, [EvRead32 PHCLM_REG clm; EvRead32 PHDLM_REG dlm].
        rewrite <- app_assoc. split; [reflexivity|]. split; [reflexivity|].
        split; [unfold count_events; simpl; lia|discriminate].
      * destruct (IH (((tr ++ [EvRead32 PHCLM_REG clm]) ++ [EvRead32 PHDLM_REG dlm]) ++
                      [EvSleep 1000 2000])) as (ok & evs & Hrun & Hall & Hle & Hto).
        exists ok, ([EvRead32 PHCLM_REG clm; EvRead32 PHDLM_REG dlm; EvSleep 1000 2000] ++ evs).
        rewrite Hrun, <- !app_assoc. split; [reflexivity|].
        rewrite forallb_app, Hall, count_events_app.
        change (count_events is_sleep
                  [EvRead32 PHCLM_REG clm; EvRead32 PHDLM_REG dlm; EvSleep 1000 2000])
          with 1%nat.
        split; [reflexivity|]. split; [lia|]. intros H. rewrite (Hto H). reflexivity.
    + destruct (IH ((tr ++ [EvRead32 PHCLM_REG clm]) ++ [EvSleep 1000 2000]))
        as (ok & evs & Hrun & Hall & Hle & Hto).
      exists ok, ([EvRead32 PHCLM_REG clm; EvSleep 1000 2000] ++ evs).
      rewrite Hrun, <- !app_assoc. split; [reflexivity|].
      rewrite forallb_app, Hall, count_events_app.
      change (count_events is_sleep [EvRead32 PHCLM_REG clm; EvSleep 1000 2000]) with 1%nat.
      split; [reflexivity|]. split; [lia|]. intros H. rewrite (Hto H). reflexivity.
Qed.

Lemma wait_lp11_never env l n :
  never_lp11 env -> returns false (wait_lp11 env l n).
Proof.
  intros Hnever. induction n as [|n IH]; [apply returns_ret|].
  intros tr. cbn [wait_lp11]. unfold bind, rcsi2_read. unfold truthy. rewrite Hnever.
  cbn [Z.eqb negb]. unfold usleep_range, emit. apply IH.
Qed.

(** X5.  [rcsi2_wait_phy_start] writes no register and returns 0 or
    -ETIMEDOUT after at most 21 sleeps; with the R8A78000 feature it
    returns 0 without looking at the hardware.  It returns -ETIMEDOUT
    only after 21 sleeps and with the timeout as its last log line, and
    it does so whenever the clock lane never shows the stop state. *)
Theorem X5_wait_phy_start_bounded :
  forall X5H env priv l tr,
    exists r evs,
      rcsi2_wait_phy_start X5H env priv l tr = (r, tr ++ evs) /\
      (r = 0 \/ r = - ETIMEDOUT) /\
      forallb not_reg_write evs = true /\
      (count_events is_sleep evs <= 21)%nat /\
      (has_feature priv X5H = true -> r = 0 /\ evs = []) /\
      (r = - ETIMEDOUT ->
       count_events is_sleep evs = 21%nat /\
       exists polls,
         evs = polls ++ [EvLog KERN_ERR "Timeout waiting for LP-11 state" []] /\
         forallb is_polling polls = true) /\
      (never_lp11 env -> has_feature priv X5H = false -> r = - ETIMEDOUT).
Proof.
  intros X5H env priv l tr. unfold rcsi2_wait_phy_start.
  destruct (has_feature priv X5H).
  { exists 0, []. rewrite app_nil_r.
    split; [reflexivity|]. split; [left; reflexivity|]. split; [reflexivity|].
    split; [unfold count_events; simpl; lia|].
    split; [auto|]. split; intros; discriminate. }
  unfold bind.
  destruct (wait_lp11_bound env l 21 tr) as (ok & evs & Hrun & Hall & Hle & Hto).
  pose proof (wait_lp11_never env l 21) as Hnever.
  unfold returns in Hnever. rewrite Hrun. destruct ok.
  - exists 0, evs. split; [reflexivity|]. split; [left; reflexivity|].
    split; [apply polling_no_write; assumption|]. split; [assumption|].
    split; [discriminate|]. split; [discriminate|].
    intros Hn _. specialize (Hnever Hn tr). rewrite Hrun in Hnever. discriminate.
  - exists (- ETIMEDOUT), (evs ++ [EvLog KERN_ERR "Timeout waiting for LP-11 state" []]).
    unfold dev_err, emit, ret. rewrite app_assoc. split; [reflexivity|].
    split; [right; reflexivity|]. rewrite forallb_app, count_events_app, (Hto eq_refl).
    split; [rewrite (polling_no_write evs Hall); reflexivity|].
    split; [unfold count_events; simpl; lia|].
    split; [discriminate|]. split; [|reflexivity].
    intros _. split; [reflexivity|]. exists evs. split; [reflexivity|assumption].
Qed.

(** The acknowledge poll of the PHTW channel. *)
Lemma phtw_poll_bound env n : forall tr,
  exists ok evs,
    phtw_poll env n tr = (ok, tr ++ evs) /\
    forallb is_polling evs = true /\
    (count_events is_sleep evs <= n)%nat /\
    (ok = false -> count_events is_sleep evs = n).
Proof.
  induction n as [|n IH]; intros tr.
  - exists false, []. rewrite app_nil_r. split; [reflexivity|]. split; [reflexivity|].
    split; [unfold count_events; simpl; lia|reflexivity].
  - cbn [phtw_poll]. unfold bind, rcsi2_read, usleep_range, emit, ret.
    set (v := u32 (env_ioread32 env tr PHTW_REG)).
    destruct (negb (truthy _)).
    + exists true, [EvRead32 PHTW_REG v]. split; [reflexivity|]. split; [reflexivity|].
      split; [unfold count_events; simpl; lia|discriminate].
    + destruct (IH ((tr ++ [EvRead32 PHTW_REG v]) ++ [EvSleep 1000 2000]))
        as (ok & evs & Hrun & Hall & Hle & Hto).
      exists ok, ([EvRead32 PHTW_REG v; EvSleep 1000 2000] ++ evs).
      rewrite Hrun, <- !app_assoc. split; [reflexivity|].
      rewrite forallb_app, Hall, count_events_app.
      change (count_events is_sleep [EvRead32 PHTW_REG v; EvSleep 1000 2000]) with 1%nat.
      split; [reflexivity|]. split; [lia|]. intros H. rewrite (Hto H). reflexivity.
Qed.

Lemma forallb_seq_spec (p : nat -> bool) n :
  forallb p (seq 0 n) = true -> forall k, (k < n)%nat -> p k = true.
Proof.
  intros H k Hk. rewrite forallb_forall in H. apply H. apply in_seq. lia.
Qed.

Lemma phtw_word_all_bytes :
  forallb (fun d => forallb (fun c => phtw_word_ok (Z.of_nat d) (Z.of_nat c)) (seq 0 256))
    (seq 0 256) = true.
Proof. vm_compute. reflexivity. Qed.

Lemma phtw_word_bytes d c :
  0 <= d < 256 -> 0 <= c < 256 -> phtw_word_ok d c = true.
Proof.
  intros Hd Hc.
  pose proof (forallb_seq_spec _ _ phtw_word_all_bytes (Z.to_nat d)) as H1.
  cbv beta in H1.
  assert (Hd' : (Z.to_nat d < 256)%nat) by lia.
  specialize (H1 Hd').
  pose proof (forallb_seq_spec _ _ H1 (Z.to_nat c)) as H2.
  cbv beta in H2.
  assert (Hc' : (Z.to_nat c < 256)%nat) by lia.
  specialize (H2 Hc').
  rewrite !Z2Nat.id in H2 by lia. exact H2.
Qed.

Lemma phtw_word_low_bytes d c :
  phtw_word d c = phtw_word (Z.land d 0xff) (Z.land c 0xff).
Proof.
  unfold phtw_word, PHTW_TESTDIN_DATA, PHTW_TESTDIN_CODE.
  now rewrite <- !Z.land_assoc, !Z.land_diag.
Qed.

Lemma land_byte x : 0 <= Z.land x 0xff < 256.
Proof.
  change 0xff with (Z.ones 8). rewrite Z.land_ones by lia. apply Z.mod_pos_bound. lia.
Qed.

(** What [rcsi2_phtw_write] does after its one write. *)
Lemma phtw_write_run X5H env priv d c tr :
  exists r polls,
    rcsi2_phtw_write X5H env priv d c tr =
      (r, tr ++ EvWrite32 PHTW_REG (u32 (phtw_word d c)) :: polls) /\
    (r = 0 \/ r = - ETIMEDOUT) /\
    forallb not_reg_write polls = true /\
    (count_events is_sleep polls <= 21)%nat /\
    (has_feature priv X5H = true -> r = 0 /\ polls = []) /\
    (r = - ETIMEDOUT ->
     count_events is_sleep polls = 21%nat /\
     count_events is_error_log polls = 1%nat).
Proof.
  unfold rcsi2_phtw_write, bind, rcsi2_write, emit.
  set (w := u32 (phtw_word d c)).
  destruct (has_feature priv X5H).
  { exists 0, []. split; [reflexivity|]. split; [left; reflexivity|].
    split; [reflexivity|]. split; [unfold count_events; simpl; lia|].
    split; [auto|]. intros; discriminate. }
  destruct (phtw_poll_bound env 21 (tr ++ [EvWrite32 PHTW_REG w]))
    as (ok & evs & Hrun & Hall & Hle & Hto).
  rewrite Hrun. destruct ok.
  - exists 0, evs. rewrite <- app_assoc. split; [reflexivity|].
    split; [left; reflexivity|].
    split; [apply polling_no_write; assumption|]. split; [assumption|].
    split; discriminate.
  - exists (- ETIMEDOUT),
      (evs ++ [EvLog KERN_ERR "Timeout waiting for PHTW_DWEN and/or PHTW_CWEN" []]).
    unfold dev_err, emit, ret. rewrite <- !app_assoc. split; [reflexivity|].
    split; [right; reflexivity|].
    rewrite forallb_app, !count_events_app, (Hto eq_refl).
    rewrite (polling_no_error evs Hall).
    split; [rewrite (polling_no_write evs Hall); reflexivity|].
    split; [unfold count_events; simpl; lia|].
    split; [discriminate|]. intros _. split; reflexivity.
Qed.

(** X6.  [rcsi2_phtw_write] writes one register, PHTW_REG, once and
    first; the word has both enable bits set and carries the low byte of
    the data in bits 23..16 and the low byte of the code in bits 7..0.
    It then only polls: it returns 0 or -ETIMEDOUT after at most 21
    sleeps, -ETIMEDOUT only after 21 sleeps and one error line, and 0
    without any poll with the R8A78000 feature. *)
Theorem X6_phtw_write :
  forall X5H env priv d c tr,
    let w := u32 (phtw_word d c) in
    (w = 2 ^ 24 + 2 ^ 16 * Z.land d 0xff + 2 ^ 8 + Z.land c 0xff /\
     Z.testbit w 24 = true /\ Z.testbit w 8 = true /\
     Z.land (Z.shiftr w 16) 0xff = Z.land d 0xff /\
     Z.land w 0xff = Z.land c 0xff) /\
    exists r polls,
      rcsi2_phtw_write X5H env priv d c tr = (r, tr ++ EvWrite32 PHTW_REG w :: polls) /\
      (r = 0 \/ r = - ETIMEDOUT) /\
      forallb not_reg_write polls = true /\
      (count_events is_sleep polls <= 21)%nat /\
      (has_feature priv X5H = true -> r = 0 /\ polls = []) /\
      (r = - ETIMEDOUT ->
       count_events is_sleep polls = 21%nat /\
       count_events is_error_log polls = 1%nat).
Proof.
  intros X5H env priv d c tr w. split.
  - pose proof (phtw_word_bytes _ _ (land_byte d) (land_byte c)) as H.
    unfold phtw_word_ok in H. rewrite <- phtw_word_low_bytes in H. fold w in H.
    cbv zeta in H.
    repeat (apply andb_prop in H as [H ?]).
    repeat match goal with
           | H : (_ =? _) = true |- _ => apply Z.eqb_eq in H
           end.
    repeat split; assumption.
  - apply phtw_write_run.
Qed.

(** *** The speed-keyed PHTW write *)

Lemma head_in (body : list rcsi2_mbps_reg) : body <> [] -> In (table_head body) body.
Proof. destruct body; [easy|]. intros _. now left. Qed.

Lemma ascending_head_le lo body e :
  ascending lo body = true -> In e body -> mbps (table_head body) <= mbps e.
Proof.
  destruct body as [|a body]; [easy|]. simpl. intros H [->|Hin]; [lia|].
  apply andb_prop in H as [_ Hrest].
  pose proof (ascending_bounds _ _ _ Hrest Hin). lia.
Qed.

(** X7.  On a non-empty ascending table [rcsi2_phtw_write_mbps] never
    takes its -ERANGE branch for a target up to 2^31: it performs the
    PHTW write of an entry whose threshold is nearest to the target -
    the first entry below the table, the last entry above it - and
    returns what that write returns. *)
Theorem X7_phtw_write_mbps_clamps :
  forall X5H env priv body x code_ tr,
    ascending_table body -> body <> [] -> 0 <= x <= 2 ^ 31 ->
    exists e,
      In e body /\
      (forall e', In e' body -> Z.abs (mbps e - x) <= Z.abs (mbps e' - x)) /\
      rcsi2_phtw_write_mbps X5H env priv x (body ++ [mbps_sentinel]) code_ tr =
        rcsi2_phtw_write X5H env priv (reg e) code_ tr /\
      fst (rcsi2_phtw_write_mbps X5H env priv x (body ++ [mbps_sentinel]) code_ tr)
        <> - ERANGE.
Proof.
  intros X5H env priv body x code_ tr Hasc Hne Hx.
  assert (Hres : forall e,
            rcsi2_phtw_write_mbps X5H env priv x (body ++ [mbps_sentinel]) code_ tr =
              rcsi2_phtw_write X5H env priv (reg e) code_ tr ->
            fst (rcsi2_phtw_write_mbps X5H env priv x (body ++ [mbps_sentinel]) code_ tr)
              <> - ERANGE).
  { intros e ->.
    destruct (phtw_write_run X5H env priv (reg e) code_ tr) as (r & polls & Hrun & Hr & _).
    rewrite Hrun. cbn [fst]. destruct Hr as [->| ->]; discriminate. }
  pose proof (head_in body Hne) as Hhead.
  pose proof (last_in body mbps_sentinel Hne) as Hlast.
  destruct (Z_lt_le_dec x (mbps (table_head body))) as [Hlow|Hlow].
  - (* below the table *)
    exists (table_head body).
    assert (Heq : rcsi2_phtw_write_mbps X5H env priv x (body ++ [mbps_sentinel]) code_ tr =
                  rcsi2_phtw_write X5H env priv (reg (table_head body)) code_ tr).
    { unfold rcsi2_phtw_write_mbps.
      rewrite mbps_scan_below by (rewrite ?table_head_app; auto; lia).
      rewrite table_head_app by assumption.
      cbv beta iota zeta. unfold prefer_prev.
      assert ((mbps (table_head body) =? 0) = false) as -> by (apply Z.eqb_neq; lia).
      reflexivity. }
    split; [assumption|]. split; [|split; [exact Heq|now apply (Hres (table_head body))]].
    intros e' He'. pose proof (ascending_head_le _ _ _ Hasc He'). lia.
  - destruct (Z_le_gt_dec x (mbps (last body mbps_sentinel))) as [Hhigh|Hhigh].
    + (* inside the table *)
      destruct (lookup_in_range body x Hasc Hne (conj Hlow Hhigh))
        as (cur & prev & Hscan & Hnz & Hin & Hnear & _).
      exists (prefer_prev x cur prev).
      assert (Heq : rcsi2_phtw_write_mbps X5H env priv x (body ++ [mbps_sentinel]) code_ tr =
                    rcsi2_phtw_write X5H env priv (reg (prefer_prev x cur prev)) code_ tr).
      { unfold rcsi2_phtw_write_mbps. rewrite Hscan. cbv beta iota zeta.
        pose proof (ascending_bounds _ _ _ Hasc Hin).
        assert ((mbps (prefer_prev x cur prev) =? 0) = false) as ->
          by (apply Z.eqb_neq; lia).
        reflexivity. }
      split; [assumption|]. split; [assumption|]. split; [exact Heq|].
      now apply (Hres (prefer_prev x cur prev)).
    + (* above the table *)
      exists (last body mbps_sentinel).
      assert (Heq : rcsi2_phtw_write_mbps X5H env priv x (body ++ [mbps_sentinel]) code_ tr =
                    rcsi2_phtw_write X5H env priv (reg (last body mbps_sentinel)) code_ tr).
      { apply phtw_write_mbps_above_last; auto. lia. }
      split; [assumption|]. split; [|split; [exact Heq|now apply (Hres (last body mbps_sentinel))]].
      intros e' He'. pose proof (ascending_le_last _ _ _ Hasc He'). lia.
Qed.

(** *** The V4M PHTW initialisation *)

Lemma v4m_step32_dead X5H env priv osc r :
  v4m_step32_loop X5H env priv osc v4m_step32 r = ret (false, r).
Proof. reflexivity. Qed.

Lemma v4m_step33_dead X5H env priv :
  rcsi2_phtw_write_array X5H env priv v4m_step33 = ret 0.
Proof. reflexivity. Qed.

Lemma v4m_step36_dead X5H env priv :
  rcsi2_phtw_write_array X5H env priv v4m_step36 = ret 0.
Proof. reflexivity. Qed.

Lemma set_phypll_no_phtw H0 priv table x :
  emits not_phtw_traffic (rcsi2_set_phypll H0 priv table x).
Proof. unfold rcsi2_set_phypll. emits_auto. Qed.

Lemma get_osc_freq_no_phtw table x : emits not_phtw_traffic (rcsi2_get_osc_freq table x).
Proof. unfold rcsi2_get_osc_freq. emits_auto. Qed.

Lemma init_phtw_v4m_tail_no_phtw X5H env priv target r osc :
  emits not_phtw_traffic (rcsi2_init_phtw_v4m_tail X5H env priv target r osc).
Proof.
  unfold rcsi2_init_phtw_v4m_tail.
  rewrite v4m_step32_dead, v4m_step33_dead, v4m_step36_dead. emits_auto.
Qed.

Lemma bind_ret {A B} (a : A) (f : A -> M B) : bind (ret a) f = f a.
Proof. reflexivity. Qed.

Lemma init_phtw_v4m_tail_result X5H env priv target osc :
  returns 0 (rcsi2_init_phtw_v4m_tail X5H env priv target 0 osc).
Proof.
  unfold rcsi2_init_phtw_v4m_tail.
  rewrite v4m_step32_dead, v4m_step33_dead, v4m_step36_dead, !bind_ret.
  assert (Hr33 : (if negb (target =? 0) && (target <=? 1500) then ret 0 else ret 0)
                 = (ret 0 : M Z)) by (destruct (_ && _); reflexivity).
  rewrite Hr33, bind_ret.
  change (truthy 0) with false. rewrite andb_false_r.
  returns_through.
  destruct (negb (target =? 0) && (target >? 1500)); apply returns_ret.
Qed.

(** X8.  [rcsi2_init_phtw_v4m] never writes PHTW_REG and never
    sleeps: each of its three register programs starts with the pair
    (0x00, 0x00), which ends it.  When the variant has a frequency-range
    table the result is the result of [rcsi2_set_phypll] on it, whatever
    the oscillator lookup returns. *)
Theorem X8_init_phtw_v4m_sends_no_program :
  forall H0 X5H env uninit priv target tr,
    exists r evs,
      rcsi2_init_phtw_v4m H0 X5H env uninit priv target tr = (r, tr ++ evs) /\
      forallb not_phtw_traffic evs = true /\
      phtw_writes evs = [] /\
      count_events is_sleep evs = 0%nat /\
      forall table,
        hsfreqrange (info priv) = Some table ->
        r = fst (rcsi2_set_phypll H0 priv table target tr).
Proof.
  intros H0 X5H env uninit priv target tr.
  assert (Hem : emits not_phtw_traffic (rcsi2_init_phtw_v4m H0 X5H env uninit priv target)).
  { unfold rcsi2_init_phtw_v4m.
    pose proof set_phypll_no_phtw. pose proof get_osc_freq_no_phtw.
    pose proof init_phtw_v4m_tail_no_phtw. emits_auto. }
  destruct (emits_run _ _ tr Hem) as (r & evs & Hrun & Hall).
  exists r, evs. split; [exact Hrun|]. split; [exact Hall|]. split; [|split].
  - clear Hrun. induction evs as [|e evs IH]; [reflexivity|].
    simpl in Hall. apply andb_prop in Hall as [He Hevs].
    destruct e; simpl in *; auto.
    apply negb_true_iff in He. rewrite He. auto.
  - revert Hall. apply count_events_none. intros e. now destruct e.
  - intros table Htable.
    assert (Hfst : fst (rcsi2_init_phtw_v4m H0 X5H env uninit priv target tr) = r)
      by now rewrite Hrun.
    rewrite <- Hfst. clear Hrun Hfst Hem Hall.
    unfold rcsi2_init_phtw_v4m. rewrite Htable. unfold bind at 1.
    destruct (rcsi2_set_phypll H0 priv table target tr) as [r0 tr1]. cbn [fst].
    destruct (truthy r0) eqn:Hr0; [reflexivity|].
    assert (r0 = 0) as -> by (unfold truthy in Hr0; apply negb_false_iff, Z.eqb_eq in Hr0; exact Hr0).
    match goal with |- fst (?m ?t) = _ => enough (returns 0 m) by auto end.
    destruct (osc_freq_target (info priv)).
    + apply returns_bind. intros osc. destruct (osc =? 0); [apply returns_ret|].
      apply init_phtw_v4m_tail_result.
    + apply init_phtw_v4m_tail_result.
Qed.

(** *** The C-PHY table *)

Lemma cphy_ascending_bounds lo body e :
  cphy_ascending lo body = true -> In e body -> lo < msps e.
Proof.
  revert lo. induction body as [|a body IH]; simpl; intros lo H Hin; [easy|].
  apply andb_prop in H as [Hlo Hrest]. apply Z.ltb_lt in Hlo.
  destruct Hin as [->|Hin]; [lia|]. specialize (IH _ Hrest Hin). lia.
Qed.

Lemma cphy_scan_least rate : forall body lo,
  cphy_ascending lo body = true -> 0 <= lo ->
  (exists e, In e body /\ rate < msps e) ->
  let sel := cphy_scan rate (body ++ [cphy_sentinel]) in
  In sel body /\ rate < msps sel /\
  forall e', In e' body -> rate < msps e' -> msps sel <= msps e'.
Proof.
  induction body as [|a body IH]; intros lo Hasc Hlo [e [Hin He]]; [easy|].
  simpl in Hasc. apply andb_prop in Hasc as [Ha Hrest]. apply Z.ltb_lt in Ha.
  cbn [app cphy_scan].
  assert ((msps a =? 0) = false) as -> by (apply Z.eqb_neq; lia).
  destruct (Z.gtb_spec (msps a) rate) as [Hgt|Hle].
  - split; [now left|]. split; [lia|].
    intros e' [->|He'] _; [lia|].
    pose proof (cphy_ascending_bounds _ _ _ Hrest He'). lia.
  - destruct Hin as [->|Hin]; [lia|].
    destruct (IH (msps a) Hrest) as (Hsel & Hlt & Hmin); [lia|now exists e|].
    split; [now right|]. split; [assumption|].
    intros e' [->|He'] Hr; [lia|]. now apply Hmin.
Qed.

Lemma cphy_scan_above rate body :
  Forall (fun e => msps e <> 0 /\ msps e <= rate) body ->
  cphy_scan rate (body ++ [cphy_sentinel]) = cphy_sentinel.
Proof.
  induction 1 as [|a body [Ha0 Har] _ IH]; [reflexivity|].
  cbn [app cphy_scan]. apply Z.eqb_neq in Ha0. rewrite Ha0.
  assert ((msps a >? rate) = false) as -> by (rewrite Z.gtb_ltb; apply Z.ltb_ge; lia).
  exact IH.
Qed.

Lemma cphy_table_shape :
  cphy_setting_table_r8a779g0 = removelast cphy_setting_table_r8a779g0 ++ [cphy_sentinel] /\
  cphy_ascending 0 (removelast cphy_setting_table_r8a779g0) = true /\
  msps (last (removelast cphy_setting_table_r8a779g0) cphy_sentinel) = 3500.
Proof. repeat split. Qed.

(** X9.  The C-PHY lookup of [rcsi2_c_phy_setting] takes the entry
    with the smallest rate strictly above the data rate, so a data rate
    equal to a table rate takes the next entry; from the last table rate
    (3500) on there is none, and the function logs the rate and returns
    -ERANGE without touching a register. *)
Theorem X9_cphy_setting_lookup :
  (forall rate,
      0 <= rate < 3500 ->
      let e := cphy_scan rate cphy_setting_table_r8a779g0 in
      In e cphy_setting_table_r8a779g0 /\ msps e <> 0 /\ rate < msps e /\
      forall e', In e' cphy_setting_table_r8a779g0 -> rate < msps e' -> msps e <= msps e') /\
  (forall env priv rate tr,
      3500 <= rate ->
      rcsi2_c_phy_setting env priv rate tr =
        (- ERANGE,
         tr ++ [EvLog KERN_ERR "Unsupported PHY speed for mpsp setting (%u Msps)" [rate]])).
Proof.
  destruct cphy_table_shape as (Hshape & Hasc & Hlast).
  set (body := removelast cphy_setting_table_r8a779g0) in *.
  split.
  - intros rate Hrate. rewrite Hshape.
    destruct (cphy_scan_least rate body 0 Hasc) as (Hsel & Hlt & Hmin); [lia| |].
    { exists (last body cphy_sentinel). split; [|lia].
      unfold body. vm_compute. do 35 right. now left. }
    cbv zeta. split; [apply in_or_app; now left|]. split; [lia|]. split; [assumption|].
    intros e' He' Hr. apply in_app_or in He' as [He'|[<-|[]]]; [now apply Hmin|].
    cbn [msps cphy_sentinel CSI2_CPHY_SETTING] in Hr. lia.
  - intros env priv rate tr Hrate.
    assert (Hscan : cphy_scan rate cphy_setting_table_r8a779g0 = cphy_sentinel).
    { rewrite Hshape. apply cphy_scan_above.
      apply Forall_forall. intros e He.
      pose proof (cphy_ascending_bounds _ _ _ Hasc He) as Hb.
      assert (msps e <= 3500); [|lia].
      unfold body in He. vm_compute in He.
      repeat (destruct He as [<-|He]; [vm_compute; discriminate|]). destruct He. }
    unfold rcsi2_c_phy_setting. rewrite Hscan. reflexivity.
Qed.

(** *** What the bring-up functions do to the outside *)

Lemma phy_programming_is_programming e :
  is_phy_programming e = true -> is_programming e = true.
Proof. now destruct e. Qed.

Section Programming.

Variables RCAR_VIN_R8A779G0_FEATURE RCAR_VIN_R8A779H0_FEATURE
          RCAR_VIN_R8A78000_FEATURE : Z.
Variable env : environment.
Variable uninit : Z.

Local Abbreviation G0 := RCAR_VIN_R8A779G0_FEATURE.
Local Abbreviation H0 := RCAR_VIN_R8A779H0_FEATURE.
Local Abbreviation X5H := RCAR_VIN_R8A78000_FEATURE.

Lemma phtw_poll_phy n : emits is_phy_programming (phtw_poll env n).
Proof. induction n; simpl; emits_auto. Qed.
#[local] Hint Resolve phtw_poll_phy : emits.

Lemma phtw_write_phy priv d c :
  emits is_phy_programming (rcsi2_phtw_write X5H env priv d c).
Proof. unfold rcsi2_phtw_write. emits_auto. Qed.
#[local] Hint Resolve phtw_write_phy : emits.

Lemma phtw_write_array_phy priv values :
  emits is_phy_programming (rcsi2_phtw_write_array X5H env priv values).
Proof. induction values; simpl; emits_auto. Qed.
#[local] Hint Resolve phtw_write_array_phy : emits.

Lemma phtw_write_mbps_phy priv x values c :
  emits is_phy_programming (rcsi2_phtw_write_mbps X5H env priv x values c).
Proof. unfold rcsi2_phtw_write_mbps. emits_auto. Qed.
#[local] Hint Resolve phtw_write_mbps_phy : emits.

Lemma set_phypll_phy priv table x :
  emits is_phy_programming (rcsi2_set_phypll H0 priv table x).
Proof. unfold rcsi2_set_phypll. emits_auto. Qed.
#[local] Hint Resolve set_phypll_phy : emits.

Lemma get_osc_freq_phy table x : emits is_phy_programming (rcsi2_get_osc_freq table x).
Proof. unfold rcsi2_get_osc_freq. emits_auto. Qed.
#[local] Hint Resolve get_osc_freq_phy : emits.

Lemma v4m_step32_loop_phy priv osc values : forall r,
  emits is_phy_programming (v4m_step32_loop X5H env priv osc values r).
Proof. induction values; intros; simpl; emits_auto. Qed.
#[local] Hint Resolve v4m_step32_loop_phy : emits.

Lemma call_init_phtw_phy f priv x :
  emits is_phy_programming (call_init_phtw H0 X5H env uninit f priv x).
Proof.
  destruct f; unfold call_init_phtw, rcsi2_init_phtw_h3_v3h_m3n, rcsi2_init_phtw_h3es2,
    __rcsi2_init_phtw_h3_v3h_m3n, rcsi2_init_phtw_v3m_e3, rcsi2_init_phtw_v3u,
    rcsi2_init_phtw_v4m, rcsi2_init_phtw_v4m_tail; emits_auto.
Qed.
#[local] Hint Resolve call_init_phtw_phy : emits.

Lemma call_phy_post_init_phy f priv :
  emits is_phy_programming (call_phy_post_init X5H env f priv).
Proof. destruct f. unfold call_phy_post_init, rcsi2_phy_post_init_v3m_e3. emits_auto. Qed.
#[local] Hint Resolve call_phy_post_init_phy : emits.

Lemma wait_lp11_phy l n : emits is_phy_programming (wait_lp11 env l n).
Proof. induction n; simpl; emits_auto. Qed.
#[local] Hint Resolve wait_lp11_phy : emits.

Lemma poll32_phy r ready n : emits is_phy_programming (poll32 env r ready n).
Proof. induction n; simpl; emits_auto. Qed.
#[local] Hint Resolve poll32_phy : emits.

Lemma calc_mbps_phy priv b l :
  emits is_phy_programming (rcsi2_calc_mbps X5H env priv b l).
Proof.
  unfold rcsi2_calc_mbps.
  assert (emits is_phy_programming (v4l2_ctrl_pixel_rate env))
    by (apply emits_pixel_rate; reflexivity).
  emits_auto.
Qed.
#[local] Hint Resolve calc_mbps_phy : emits.

Lemma get_active_lanes_phy priv :
  emits is_phy_programming (rcsi2_get_active_lanes X5H env priv).
Proof.
  unfold rcsi2_get_active_lanes.
  assert (emits is_phy_programming (v4l2_subdev_call_get_mbus_config env priv))
    by (apply emits_mbus_config; reflexivity).
  emits_auto.
Qed.
#[local] Hint Resolve get_active_lanes_phy : emits.

Lemma wait_phy_start_phy priv l :
  emits is_phy_programming (rcsi2_wait_phy_start X5H env priv l).
Proof. unfold rcsi2_wait_phy_start. emits_auto. Qed.
#[local] Hint Resolve wait_phy_start_phy : emits.

Lemma c_phy_setting_phy priv rate :
  emits is_phy_programming (rcsi2_c_phy_setting env priv rate).
Proof. unfold rcsi2_c_phy_setting. emits_auto. Qed.
#[local] Hint Resolve c_phy_setting_phy : emits.

Lemma d_phy_setting_phy priv rate :
  emits is_phy_programming (rcsi2_d_phy_setting X5H env priv rate).
Proof. unfold rcsi2_d_phy_setting. emits_auto. Qed.
#[local] Hint Resolve d_phy_setting_phy : emits.

Lemma start_receiver_v4h_phy priv :
  emits is_phy_programming (rcsi2_start_receiver_v4h X5H env priv).
Proof. unfold rcsi2_start_receiver_v4h, v4h_common_setting. emits_auto. Qed.

Lemma start_receiver_v4m_phy priv :
  emits is_phy_programming (rcsi2_start_receiver_v4m H0 X5H env uninit priv).
Proof. unfold rcsi2_start_receiver_v4m. emits_auto. Qed.

Lemma start_receiver_x5h_phy priv :
  emits is_phy_programming (rcsi2_start_receiver_x5h X5H env priv).
Proof. unfold rcsi2_start_receiver_x5h. emits_auto. Qed.

Lemma wait_phy_start_v4h_phy : emits is_phy_programming (rcsi2_wait_phy_start_v4h env).
Proof. unfold rcsi2_wait_phy_start_v4h. emits_auto. Qed.

End Programming.

(** A step whose helpers all are PHY helpers. *)
Ltac emits_steps weaken :=
  unfold rcsi2_modify, rcsi2_modify16;
  unfold dev_dbg, dev_info, dev_warn, dev_err, usleep_range,
    rcsi2_write, rcsi2_write16;
  cbv zeta;
  repeat match goal with
         | |- emits _ (bind _ _) => apply emits_bind; [|intros; cbv beta zeta]
         | |- emits _ (ret _) => apply emits_ret
         | |- emits _ (emit _) => apply emits_emit; first [reflexivity | apply Z.eqb_refl]
         | |- emits _ (when _ _) => apply emits_when
         | |- emits _ (rcsi2_read _ _) => apply emits_read; intros; reflexivity
         | |- emits _ (rcsi2_read16 _ _) => apply emits_read16; intros; reflexivity
         | |- emits _ (if ?b then _ else _) => destruct b
         | |- emits _ (match ?x with _ => _ end) => destruct x
         | |- emits _ _ =>
             apply (emits_weaken is_phy_programming); [exact weaken|]
         end.

Section Shape.

Variables RCAR_VIN_R8A779G0_FEATURE RCAR_VIN_R8A779H0_FEATURE
          RCAR_VIN_R8A78000_FEATURE : Z.
Variable env : environment.
Variable uninit : Z.

Local Abbreviation G0 := RCAR_VIN_R8A779G0_FEATURE.
Local Abbreviation H0 := RCAR_VIN_R8A779H0_FEATURE.
Local Abbreviation X5H := RCAR_VIN_R8A78000_FEATURE.
Local Abbreviation start := (rcsi2_start G0 H0 X5H env uninit).
Local Abbreviation stop := (rcsi2_stop G0 X5H env).
Local Abbreviation s_stream := (rcsi2_s_stream G0 H0 X5H env uninit).
Local Abbreviation start_receiver := (rcsi2_start_receiver H0 X5H env uninit).

Lemma start_receiver_programming priv : emits is_programming (start_receiver priv).
Proof.
  unfold rcsi2_start_receiver.
  pose proof (get_active_lanes_phy X5H env) as Hlanes.
  pose proof (calc_mbps_phy X5H env) as Hcalc.
  pose proof (call_init_phtw_phy H0 X5H env uninit) as Hinit.
  pose proof (set_phypll_phy H0) as Hpll.
  pose proof (wait_phy_start_phy X5H env) as Hwait.
  pose proof (call_phy_post_init_phy X5H env) as Hpost.
  emits_steps phy_programming_is_programming; auto.
Qed.

Local Abbreviation receiver_of := (start_receiver_of G0 H0 X5H env uninit).

Lemma start_receiver_of_programming priv : emits is_programming (receiver_of priv).
Proof.
  unfold start_receiver_of.
  destruct (has_feature priv G0).
  { eapply emits_weaken; [exact phy_programming_is_programming|].
    apply start_receiver_v4h_phy. }
  destruct (has_feature priv H0).
  { eapply emits_weaken; [exact phy_programming_is_programming|].
    apply start_receiver_v4m_phy. }
  destruct (has_feature priv X5H).
  { eapply emits_weaken; [exact phy_programming_is_programming|].
    apply start_receiver_x5h_phy. }
  apply emits_bind; [apply start_receiver_programming|intros; apply emits_ret].
Qed.

Lemma truthy_false r : truthy r = false -> r = 0.
Proof. unfold truthy. intros H. apply negb_false_iff, Z.eqb_eq in H. exact H. Qed.

Lemma truthy_true r : truthy r = true -> r <> 0.
Proof. unfold truthy. intros H. apply negb_true_iff, Z.eqb_neq in H. exact H. Qed.

(** The request to the source to start and its answer. *)
Lemma source_start_run priv tr :
  passes_remote_check X5H priv = true ->
  exists r src,
    (if has_feature priv X5H then csi2cam_start env
     else v4l2_subdev_call_s_stream env priv 1) tr = (r, tr ++ [src]) /\
    is_source_start src = true.
Proof.
  unfold passes_remote_check. intros Hg.
  destruct (has_feature priv X5H).
  - eexists _, (EvCamStart _). split; reflexivity.
  - simpl in Hg. unfold v4l2_subdev_call_s_stream. rewrite Hg.
    eexists _, (EvSubdevStream 1 _). split; reflexivity.
Qed.

(** [rcsi2_start] from end to end: the wake-up, the programming of the
    receiver, and one of the four endings. *)
Lemma start_shape priv tr :
  passes_remote_check X5H priv = true ->
  exists rres res hw tail,
    receiver_of priv (tr ++ wakeup_events X5H priv) =
      (rres, (tr ++ wakeup_events X5H priv) ++ hw) /\
    start priv tr = (res, tr ++ wakeup_events X5H priv ++ hw ++ tail) /\
    forallb is_programming hw = true /\
    start_outcome G0 X5H priv res tail /\
    (res = Oops <-> rres = Oops) /\
    (forall r, rres = Returned r -> r <> 0 ->
       res = Returned r /\ tail = standby_events G0 X5H priv).
Proof.
  intros Hg. unfold rcsi2_start. unfold bind at 1. rewrite exit_standby_eq.
  fold (wakeup_events X5H priv). fold (receiver_of priv).
  destruct (emits_run _ _ (tr ++ wakeup_events X5H priv) (start_receiver_of_programming priv))
    as (rres & hw & Hrun & Hall).
  exists rres. unfold bind at 1. rewrite Hrun.
  destruct rres as [r|].
  2: { exists Oops, hw, []. rewrite app_nil_r, <- app_assoc.
       split; [reflexivity|]. split; [reflexivity|]. split; [assumption|].
       split; [constructor|]. split; [tauto|]. intros r H. discriminate H. }
  destruct (truthy r) eqn:Hr.
  { exists (Returned r), hw, (standby_events G0 X5H priv).
    unfold bind. rewrite enter_standby_eq. rewrite <- !app_assoc.
    split; [reflexivity|]. split; [reflexivity|]. split; [assumption|].
    split; [constructor; now apply truthy_true|].
    split; [tauto|]. intros r' H _. inversion H. subst r'. split; reflexivity. }
  apply truthy_false in Hr. subst r.
  unfold bind at 1. unfold dev_dbg, emit at 1. cbv beta iota.
  fold link_programmed.
  destruct (source_start_run priv (((tr ++ wakeup_events X5H priv) ++ hw) ++ [link_programmed]) Hg)
    as (r2 & src & Hsrc & His).
  unfold bind at 1. rewrite Hsrc.
  destruct (truthy r2) eqn:Hr2.
  { exists (Returned r2), hw, ([link_programmed; src] ++ standby_events G0 X5H priv).
    unfold bind. rewrite enter_standby_eq. rewrite <- !app_assoc.
    split; [reflexivity|]. split; [reflexivity|]. split; [assumption|].
    split; [constructor; [now apply truthy_true|assumption]|].
    split; [split; intros H; discriminate H|].
    intros r' H Hnz. inversion H. subst r'. now elim Hnz. }
  match goal with
  | |- exists res hw' tail, _ /\ ?m ?t = _ /\ _ =>
      assert (Hem : emits is_programming m);
      [|assert (Hret : returns (Returned 0) m);
        [|destruct (emits_run _ _ t Hem) as (res & hw2 & Hrest & Hall2);
          pose proof (Hret t) as Hres; rewrite Hrest in Hres; cbn [fst] in Hres; subst res]]
  end.
  { pose proof (wait_phy_start_v4h_phy env) as Hwait.
    emits_steps phy_programming_is_programming; auto. }
  { returns_through. }
  exists (Returned 0), hw, ([link_programmed; src] ++ hw2).
  rewrite Hrest, <- !app_assoc. split; [reflexivity|]. split; [reflexivity|].
  split; [assumption|]. split; [now constructor|].
  split; [split; intros H; discriminate H|].
  intros r' H Hnz. inversion H. subst r'. now elim Hnz.
Qed.

End Shape.

(** *** Counting through a bring-up *)

Lemma programming_counts_none p hw :
  (forall e, is_programming e = true -> p e = false) ->
  forallb is_programming hw = true -> count_events p hw = 0%nat.
Proof. apply count_events_none. Qed.

Lemma programming_keeps_state hw : forall s,
  forallb is_programming hw = true -> receiver_state_of s hw = s.
Proof.
  unfold receiver_state_of. induction hw as [|e hw IH]; intros s H; [reflexivity|].
  simpl in H. apply andb_prop in H as [He Hhw]. cbn [fold_left].
  destruct e; try discriminate He; now apply IH.
Qed.

Lemma source_start_event src :
  is_source_start src = true ->
  is_pm_get src = false /\ is_pm_put src = false /\ is_reset_assert src = false /\
  is_reset_deassert src = false /\ is_lock_event src = false /\
  forall s, receiver_state_of s [src] = s.
Proof. destruct src; try discriminate; repeat split. Qed.

Section Balance.

Variables RCAR_VIN_R8A779G0_FEATURE RCAR_VIN_R8A779H0_FEATURE
          RCAR_VIN_R8A78000_FEATURE : Z.
Variable env : environment.
Variable uninit : Z.

Local Abbreviation G0 := RCAR_VIN_R8A779G0_FEATURE.
Local Abbreviation H0 := RCAR_VIN_R8A779H0_FEATURE.
Local Abbreviation X5H := RCAR_VIN_R8A78000_FEATURE.
Local Abbreviation start := (rcsi2_start G0 H0 X5H env uninit).
Local Abbreviation stop := (rcsi2_stop G0 X5H env).
Local Abbreviation s_stream := (rcsi2_s_stream G0 H0 X5H env uninit).
Local Abbreviation start_receiver := (rcsi2_start_receiver H0 X5H env uninit).
Local Abbreviation receiver_of := (start_receiver_of G0 H0 X5H env uninit).

(** What one run of [rcsi2_start] adds up to. *)
Lemma start_counts priv tr :
  passes_remote_check X5H priv = true ->
  exists res evs,
    start priv tr = (res, tr ++ evs) /\
    count_events is_pm_get evs = 1%nat /\
    count_events is_reset_deassert evs = (if has_feature priv X5H then 0 else 1)%nat /\
    count_events is_lock_event evs = 0%nat /\
    (count_events is_source_start evs <= 1)%nat /\
    match res with
    | Returned 0 =>
        count_events is_pm_put evs = 0%nat /\
        count_events is_reset_assert evs = 0%nat /\
        count_events is_source_start evs = 1%nat /\
        forall s, receiver_state_of s (tr ++ evs) = Active
    | Returned _ =>
        count_events is_pm_put evs = 1%nat /\
        count_events is_reset_assert evs = (if has_feature priv X5H then 0 else 1)%nat /\
        forall s, receiver_state_of s (tr ++ evs) = Standby
    | Oops => count_events is_pm_put evs = 0%nat
    end.
Proof.
  intros Hg.
  destruct (start_shape G0 H0 X5H env uninit priv tr Hg)
    as (rres & res & hw & tail & _ & Hrun & Hall & Hout & _).
  exists res, (wakeup_events X5H priv ++ hw ++ tail). split; [exact Hrun|].
  assert (Hc : forall p, (forall e, is_programming e = true -> p e = false) ->
            count_events p (wakeup_events X5H priv ++ hw ++ tail) =
              (count_events p (wakeup_events X5H priv) + count_events p tail)%nat).
  { intros p Hp. rewrite !count_events_app, (programming_counts_none p hw Hp Hall). lia. }
  assert (Hs : forall s, receiver_state_of s (tr ++ wakeup_events X5H priv ++ hw ++ tail) =
                         receiver_state_of Active tail).
  { intros s. rewrite !receiver_state_app, (programming_keeps_state hw _ Hall).
    unfold wakeup_events. now destruct (has_feature priv X5H). }
  rewrite !Hc by (intros e; now destruct e).
  assert (Hw : forall p, count_events p (wakeup_events X5H priv) =
                 ((if p EvPmGet then 1 else 0) +
                  (if has_feature priv X5H then 0
                   else if p EvResetDeassert then 1 else 0))%nat).
  { intros p. unfold wakeup_events, count_events.
    destruct (has_feature priv X5H); simpl; destruct (p EvPmGet);
      try destruct (p EvResetDeassert); reflexivity. }
  rewrite !Hw. cbn [is_pm_get is_reset_deassert is_lock_event is_source_start is_pm_put
                    is_reset_assert].
  assert (Hsb : forall p,
            p EvPmPut = true \/ p EvPmPut = false ->
            count_events p (standby_events G0 X5H priv) =
              ((if has_feature priv G0 then 0
                else (if p (EvWrite32 PHYCNT_REG 0) then 1 else 0) +
                     (if p (EvWrite32 PHTC_REG PHTC_TESTCLR) then 1 else 0)) +
               (if has_feature priv X5H then 0 else if p EvResetAssert then 1 else 0) +
               (if p (EvSleep 100 150) then 1 else 0) +
               (if p EvPmPut then 1 else 0))%nat).
  { intros p _. unfold standby_events, count_events.
    destruct (has_feature priv G0), (has_feature priv X5H); simpl;
      repeat match goal with |- context [p ?e] => destruct (p e) end; reflexivity. }
  destruct Hout as [|r Hr|r src Hr Hsrc|src hw2 Hsrc Hall2].
  - change (count_events _ []) with 0%nat.
    destruct (has_feature priv X5H); repeat split; lia.
  - rewrite !Hsb by (cbn; auto).
    cbn [is_pm_get is_reset_deassert is_lock_event is_source_start is_pm_put
         is_reset_assert].
    assert (Hst : forall s, receiver_state_of s
                    (tr ++ wakeup_events X5H priv ++ hw ++ standby_events G0 X5H priv)
                  = Standby).
    { intros s. rewrite Hs. apply standby_events_state. }
    destruct r as [|r|r]; [now elim Hr| |];
      destruct (has_feature priv G0), (has_feature priv X5H);
      repeat split; try lia; apply Hst.
  - destruct (source_start_event src Hsrc) as (S1 & S2 & S3 & S4 & S5 & S6).
    assert (Hst : forall s, receiver_state_of s
                    (tr ++ wakeup_events X5H priv ++ hw ++
                     [link_programmed; src] ++ standby_events G0 X5H priv)
                  = Standby).
    { intros s. rewrite Hs.
      change ([link_programmed; src] ++ standby_events G0 X5H priv)
        with ([link_programmed] ++ [src] ++ standby_events G0 X5H priv).
      rewrite !receiver_state_app. apply standby_events_state. }
    rewrite !(count_events_app _ [link_programmed; src]).
    rewrite !Hsb by (cbn; auto).
    cbn [is_pm_get is_reset_deassert is_lock_event is_source_start is_pm_put
         is_reset_assert].
    unfold link_programmed. rewrite !count_events_cons.
    cbn [is_pm_get is_reset_deassert is_lock_event is_source_start is_pm_put
         is_reset_assert].
    rewrite Hsrc, S1, S2, S3, S4, S5.
    change (count_events _ []) with 0%nat.
    destruct r as [|r|r]; [now elim Hr| |];
      destruct (has_feature priv G0), (has_feature priv X5H);
      repeat split; try lia; apply Hst.
  - destruct (source_start_event src Hsrc) as (S1 & S2 & S3 & S4 & S5 & S6).
    assert (Hst : forall s, receiver_state_of s
                    (tr ++ wakeup_events X5H priv ++ hw ++ [link_programmed; src] ++ hw2)
                  = Active).
    { intros s. rewrite Hs.
      change ([link_programmed; src] ++ hw2) with ([link_programmed] ++ [src] ++ hw2).
      rewrite !receiver_state_app, S6. now apply programming_keeps_state. }
    rewrite !(count_events_app _ [link_programmed; src]).
    rewrite !(programming_counts_none _ hw2) by (assumption || (intros e; now destruct e)).
    unfold link_programmed. rewrite !count_events_cons.
    cbn [is_pm_get is_reset_deassert is_lock_event is_source_start is_pm_put
         is_reset_assert].
    rewrite Hsrc, S1, S2, S3, S4, S5.
    change (count_events _ []) with 0%nat.
    destruct (has_feature priv X5H); repeat split; try lia; apply Hst.
Qed.

End Balance.

(** *** Results that cannot occur *)




Lemma never_zero_ret r : r <> 0 -> never_zero (ret r).
Proof. intros Hr tr. exact Hr. Qed.

Lemma never_zero_bind {A} (m : M A) (f : A -> M Z) :
  (forall a, never_zero (f a)) -> never_zero (bind m f).
Proof. intros Hf tr. unfold bind. destruct (m tr) as [a tr']. apply Hf. Qed.

Lemma never_zero_bind_value {A} (a : A) (m : M A) (f : A -> M Z) :
  returns a m -> never_zero (f a) -> never_zero (bind m f).
Proof.
  intros Hm Hf tr. unfold bind. specialize (Hm tr).
  destruct (m tr) as [a' tr']. simpl in Hm. subst a'. apply Hf.
Qed.

Lemma never_zero_if_truthy r (k : M Z) :
  never_zero k -> never_zero (if truthy r then ret r else k).
Proof.
  intros Hk. destruct (truthy r) eqn:Hr; [|exact Hk].
  apply never_zero_ret. now apply truthy_true.
Qed.

Lemma never_zero_if_negative r (k : M Z) :
  never_zero k -> never_zero (if r <? 0 then ret r else k).
Proof.
  intros Hk. destruct (Z.ltb_spec r 0); [|exact Hk]. apply never_zero_ret. lia.
Qed.

Section Discipline.

Variables RCAR_VIN_R8A779G0_FEATURE RCAR_VIN_R8A779H0_FEATURE
          RCAR_VIN_R8A78000_FEATURE : Z.
Variable env : environment.
Variable uninit : Z.

Local Abbreviation G0 := RCAR_VIN_R8A779G0_FEATURE.
Local Abbreviation H0 := RCAR_VIN_R8A779H0_FEATURE.
Local Abbreviation X5H := RCAR_VIN_R8A78000_FEATURE.
Local Abbreviation start := (rcsi2_start G0 H0 X5H env uninit).
Local Abbreviation stop := (rcsi2_stop G0 X5H env).
Local Abbreviation s_stream := (rcsi2_s_stream G0 H0 X5H env uninit).
Local Abbreviation start_receiver := (rcsi2_start_receiver H0 X5H env uninit).
Local Abbreviation receiver_of := (start_receiver_of G0 H0 X5H env uninit).


(** After a failed LP-11 wait the older bring-up cannot return 0. *)
Lemma start_receiver_never_zero priv :
  never_lp11 env -> has_feature priv X5H = false -> never_zero (start_receiver priv).
Proof.
  intros Hnever Hf. unfold rcsi2_start_receiver.
  apply never_zero_bind; intros _.
  destruct (rcsi2_code_to_fmt (mf_code (mf priv))) as [format|];
    [|apply never_zero_ret; discriminate].
  destruct (vcdt_regs priv format) as [vcdt vcdt2]. cbv zeta.
  apply never_zero_bind; intros [r lanes_].
  apply never_zero_if_truthy.
  apply never_zero_bind; intros mbps_.
  apply never_zero_if_negative.
  do 5 (apply never_zero_bind; intros _).
  apply never_zero_bind; intros r1. apply never_zero_if_truthy.
  apply never_zero_bind; intros r2. apply never_zero_if_truthy.
  do 7 (apply never_zero_bind; intros _).
  apply never_zero_bind_value with (a := - ETIMEDOUT).
  - intros tr. unfold rcsi2_wait_phy_start. rewrite Hf. unfold bind.
    pose proof (wait_lp11_never env lanes_ 21 Hnever tr) as Hw.
    destruct (wait_lp11 env lanes_ 21 tr) as [ok tr']. simpl in Hw. subst ok.
    reflexivity.
  - apply never_zero_ret. discriminate.
Qed.

(** The events between lock and unlock of a last stop. *)
Lemma stop_no_lock priv :
  passes_remote_check X5H priv = true ->
  forall tr, exists evs,
    stop priv tr = (tt, tr ++ evs) /\ count_events is_lock_event evs = 0%nat /\
    forall s, receiver_state_of s (tr ++ evs) = Standby.
Proof.
  intros Hg tr. destruct (stop_eq G0 X5H env priv tr Hg) as (src & Hrun & Hsrc).
  exists (standby_events G0 X5H priv ++ [src]). split; [exact Hrun|]. split.
  - unfold standby_events, count_events.
    destruct (has_feature priv G0), (has_feature priv X5H); destruct src; try discriminate;
      reflexivity.
  - intros s. rewrite app_assoc, !receiver_state_app.
    rewrite standby_events_state. destruct src; try discriminate; reflexivity.
Qed.

End Discipline.

Section Streaming.

Variables RCAR_VIN_R8A779G0_FEATURE RCAR_VIN_R8A779H0_FEATURE
          RCAR_VIN_R8A78000_FEATURE : Z.
Variable env : environment.
Variable uninit : Z.

Local Abbreviation G0 := RCAR_VIN_R8A779G0_FEATURE.
Local Abbreviation H0 := RCAR_VIN_R8A779H0_FEATURE.
Local Abbreviation X5H := RCAR_VIN_R8A78000_FEATURE.
Local Abbreviation start := (rcsi2_start G0 H0 X5H env uninit).
Local Abbreviation stop := (rcsi2_stop G0 X5H env).
Local Abbreviation s_stream := (rcsi2_s_stream G0 H0 X5H env uninit).
Local Abbreviation start_receiver := (rcsi2_start_receiver H0 X5H env uninit).
Local Abbreviation receiver_of := (start_receiver_of G0 H0 X5H env uninit).

(** X10.  One run of [rcsi2_start] on a receiver with a source takes
    the power reference once and the receiver out of reset once (never,
    with the R8A78000 feature), takes no lock and asks the source to
    start at most once.  When it returns 0 it has released nothing, has
    asked the source once and leaves the receiver powered; when it
    returns an error it has given back the power reference and the reset
    exactly once and leaves the receiver in standby; after an oops the
    power reference stays taken. *)
Theorem X10_start_is_balanced :
  forall priv tr,
    passes_remote_check X5H priv = true ->
    exists res evs,
      start priv tr = (res, tr ++ evs) /\
      count_events is_pm_get evs = 1%nat /\
      count_events is_reset_deassert evs = (if has_feature priv X5H then 0 else 1)%nat /\
      count_events is_lock_event evs = 0%nat /\
      (count_events is_source_start evs <= 1)%nat /\
      match res with
      | Returned 0 =>
          count_events is_pm_put evs = 0%nat /\
          count_events is_reset_assert evs = 0%nat /\
          count_events is_source_start evs = 1%nat /\
          forall s, receiver_state_of s (tr ++ evs) = Active
      | Returned _ =>
          count_events is_pm_put evs = 1%nat /\
          count_events is_reset_assert evs = (if has_feature priv X5H then 0 else 1)%nat /\
          forall s, receiver_state_of s (tr ++ evs) = Standby
      | Oops => count_events is_pm_put evs = 0%nat
      end.
Proof. intros priv tr. apply start_counts. Qed.

(** One [s_stream] call that returns. *)
Lemma s_stream_returned priv enable tr r priv' tr' :
  s_stream priv enable tr = ((Returned r, priv'), tr') ->
  exists mid,
    tr' = tr ++ EvLock :: mid ++ [EvUnlock] /\
    count_events is_lock_event mid = 0%nat /\
    (r <> 0 -> priv' = priv /\
               (passes_remote_check X5H priv = false -> mid = []) /\
               (passes_remote_check X5H priv = true ->
                forall s, receiver_state_of s tr' = Standby)) /\
    (r = 0 -> priv' = stream_count_step priv enable /\
              passes_remote_check X5H priv = true /\
              forall s,
                receiver_state_of s tr' =
                  if truthy enable && (stream_count priv =? 0) then Active
                  else if negb (truthy enable) && (stream_count priv =? 1) then Standby
                  else receiver_state_of s tr).
Proof.
  intros Hcall.
  assert (Hshape : forall mid,
            tr ++ EvLock :: mid ++ [EvUnlock] = ((tr ++ [EvLock]) ++ mid) ++ [EvUnlock]).
  { intros mid. rewrite <- !app_assoc. reflexivity. }
  assert (Hidle : forall s, receiver_state_of s (tr ++ EvLock :: [] ++ [EvUnlock]) =
                            receiver_state_of s tr).
  { intros s. rewrite Hshape, !receiver_state_app. reflexivity. }
  destruct (passes_remote_check X5H priv) eqn:Hg.
  2: { rewrite s_stream_no_remote in Hcall by assumption.
       inversion Hcall; subst r priv' tr'. exists [].
       split; [reflexivity|]. split; [reflexivity|]. split.
       - intros _. split; [reflexivity|]. split; [reflexivity|]. intros H. discriminate H.
       - intros H. discriminate H. }
  destruct (truthy enable) eqn:Hen.
  - destruct (Z.eq_dec (stream_count priv) 0) as [Hc|Hc].
    + rewrite s_stream_first in Hcall by auto.
      pose proof (start_counts G0 H0 X5H env uninit priv (tr ++ [EvLock]) Hg)
        as (res & evs & Hrun & _ & _ & Hnolock & _ & Hend).
      rewrite Hrun in Hcall.
      destruct res as [r0|]; [|discriminate Hcall].
      rewrite Hc. cbn [Z.eqb andb].
      destruct (truthy r0) eqn:Hr.
      * inversion Hcall; subst r0 priv' tr'. exists evs.
        split; [now rewrite Hshape|]. split; [assumption|]. split.
        -- intros _. split; [reflexivity|]. split; [intros H; discriminate H|].
           intros _ s. apply truthy_true in Hr. rewrite receiver_state_app.
           destruct r as [|r|r]; [now elim Hr| |];
             destruct Hend as (_ & _ & Hst); rewrite Hst; reflexivity.
        -- intros ->. discriminate Hr.
      * apply truthy_false in Hr. subst r0.
        inversion Hcall; subst r priv' tr'. exists evs.
        split; [now rewrite Hshape|]. split; [assumption|]. split.
        -- intros H. now elim H.
        -- intros _. split; [reflexivity|]. split; [reflexivity|].
           intros s. destruct Hend as (_ & _ & _ & Hst).
           rewrite receiver_state_app, Hst. reflexivity.
    + rewrite s_stream_bookkeeping in Hcall; auto; [|congruence].
      inversion Hcall; subst r priv' tr'. exists [].
      split; [reflexivity|]. split; [reflexivity|]. split; [intros H; now elim H|].
      intros _. split; [reflexivity|]. split; [reflexivity|].
      intros s. apply Z.eqb_neq in Hc. rewrite Hc. cbn [andb negb]. apply (Hidle s).
  - destruct (Z.eq_dec (stream_count priv) 1) as [Hc|Hc].
    + rewrite s_stream_last_stop in Hcall by auto.
      destruct (stop_no_lock G0 X5H env priv Hg (tr ++ [EvLock])) as (evs & Hrun & Hno & Hst).
      rewrite Hrun in Hcall. cbn [snd] in Hcall.
      inversion Hcall; subst r priv' tr'. exists evs.
      split; [now rewrite Hshape|]. split; [assumption|].
      split; [intros H; now elim H|].
      intros _. split; [reflexivity|]. split; [reflexivity|].
      intros s. rewrite Hc. cbn [andb negb Z.eqb].
      rewrite receiver_state_app, Hst. reflexivity.
    + rewrite s_stream_bookkeeping in Hcall; auto; [|congruence].
      inversion Hcall; subst r priv' tr'. exists [].
      split; [reflexivity|]. split; [reflexivity|]. split; [intros H; now elim H|].
      intros _. split; [reflexivity|]. split; [reflexivity|].
      intros s. apply Z.eqb_neq in Hc. rewrite Hc. cbn [andb negb]. apply (Hidle s).
Qed.



Lemma paired_step_power s1 s2 :
  paired_step G0 H0 X5H env uninit s1 s2 ->
  power_follows_count s1 -> power_follows_count s2.
Proof.
  intros Hstep [Hc Hp]. split; [eapply paired_step_count; eauto|].
  destruct Hstep as [priv tr enable r priv' tr' Hcall Hstop Hstart].
  cbn [fst snd] in *.
  destruct (s_stream_returned _ _ _ _ _ _ Hcall) as (mid & Htr & _ & Hfail & Hok).
  destruct (Z.eq_dec r 0) as [Hr|Hr].
  - destruct (Hok Hr) as (-> & _ & Hst). rewrite Hst.
    unfold stream_count_step. cbn [stream_count set_stream_count]. unfold INT_MAX in *.
    destruct (truthy enable) eqn:Hen; cbn [negb andb].
    + specialize (Hstart eq_refl). rewrite to_int_id by lia.
      destruct (Z.eqb_spec (stream_count priv) 0) as [H0c|H0c].
      * rewrite H0c. reflexivity.
      * rewrite Hp.
        destruct (Z.ltb_spec 0 (stream_count priv)), (Z.ltb_spec 0 (stream_count priv + 1));
          try reflexivity; lia.
    + specialize (Hstop eq_refl). rewrite to_int_id by lia.
      destruct (Z.eqb_spec (stream_count priv) 1) as [H1c|H1c].
      * rewrite H1c. reflexivity.
      * rewrite Hp.
        destruct (Z.ltb_spec 0 (stream_count priv)), (Z.ltb_spec 0 (stream_count priv + -1));
          try reflexivity; lia.
  - destruct (Hfail Hr) as (-> & Hmid & Hst).
    destruct (passes_remote_check X5H priv) eqn:Hg.
    + rewrite (Hst eq_refl).
      (* a failure under a bound source is a failed first start *)
      destruct (truthy enable) eqn:Hen.
      * destruct (Z.eq_dec (stream_count priv) 0) as [H0c|H0c].
        -- rewrite H0c. reflexivity.
        -- rewrite s_stream_bookkeeping in Hcall; auto; congruence.
      * destruct (Z.eq_dec (stream_count priv) 1) as [H1c|H1c].
        -- rewrite s_stream_last_stop in Hcall by auto. inversion Hcall. congruence.
        -- rewrite s_stream_bookkeeping in Hcall; auto; congruence.
    + rewrite Htr, (Hmid eq_refl).
      change (tr ++ EvLock :: [] ++ [EvUnlock]) with (tr ++ [EvLock; EvUnlock]).
      rewrite receiver_state_app. exact Hp.
Qed.

(** X12.  Along [s_stream] calls that never stop at count 0 and never
    start at the largest [int], the receiver is powered exactly while
    the stream count is positive: from a state where the count is in
    0..INT_MAX and the power state agrees with it, every later state
    is such a state. *)
Theorem X12_power_follows_count :
  forall s1 s2,
    power_follows_count s1 ->
    paired_run G0 H0 X5H env uninit s1 s2 ->
    power_follows_count s2.
Proof.
  intros s1 s2 Hinv Hrun. induction Hrun as [s|s1 s2 s3 Hrun IH Hstep]; [assumption|].
  eapply paired_step_power; eauto.
Qed.

(** X13.  On a Gen3 receiver (none of the three feature bits) with a
    source bound and no stream running, hardware whose clock lane never
    reports the stop state makes [s_stream(1)] fail: the result is not 0,
    the instance is as it was, the source was never asked to start, and
    the receiver is back in standby with the power reference returned. *)
Theorem X13_gen3_lp11_timeout_fails_start :
  forall priv enable tr,
    never_lp11 env ->
    has_feature priv G0 = false -> has_feature priv H0 = false ->
    has_feature priv X5H = false ->
    remote priv = true -> stream_count priv = 0 -> truthy enable = true ->
    exists r evs,
      s_stream priv enable tr = ((Returned r, priv), tr ++ evs) /\
      r <> 0 /\
      count_events is_source_start evs = 0%nat /\
      count_events is_pm_get evs = 1%nat /\
      count_events is_pm_put evs = 1%nat /\
      forall s, receiver_state_of s (tr ++ evs) = Standby.
Proof.
  intros priv enable tr Hnever Hg0 Hh0 Hx5h Hrem Hc Hen.
  assert (Hg : passes_remote_check X5H priv = true).
  { unfold passes_remote_check. rewrite Hrem. apply orb_true_r. }
  rewrite s_stream_first by auto.
  destruct (start_shape G0 H0 X5H env uninit priv (tr ++ [EvLock]) Hg)
    as (rres & res & hw & tail & Hrecv & Hrun & Hall & _ & _ & Hfail).
  assert (Hrres : exists r, rres = Returned r /\ r <> 0).
  { unfold start_receiver_of in Hrecv. rewrite Hg0, Hh0, Hx5h in Hrecv.
    unfold bind in Hrecv.
    pose proof (start_receiver_never_zero H0 X5H env uninit priv Hnever Hx5h
                  ((tr ++ [EvLock]) ++ wakeup_events X5H priv)) as Hnz.
    destruct (start_receiver priv _) as [r t]. cbn [fst] in Hnz.
    unfold ret in Hrecv. inversion Hrecv. eauto. }
  destruct Hrres as (r & -> & Hr).
  destruct (Hfail r eq_refl Hr) as (-> & ->).
  rewrite Hrun.
  assert (Ht : truthy r = true) by (unfold truthy; now apply negb_true_iff, Z.eqb_neq).
  rewrite Ht.
  exists r, (EvLock :: (wakeup_events X5H priv ++ hw ++ standby_events G0 X5H priv) ++ [EvUnlock]).
  split.
  { unfold bind, emit, ret. rewrite <- !app_assoc. reflexivity. }
  split; [exact Hr|].
  assert (Hcnt : forall p, (forall e, is_programming e = true -> p e = false) ->
            p EvLock = false -> p EvUnlock = false ->
            count_events p (EvLock :: (wakeup_events X5H priv ++ hw ++
                                       standby_events G0 X5H priv) ++ [EvUnlock]) =
            (count_events p (wakeup_events X5H priv) +
             count_events p (standby_events G0 X5H priv))%nat).
  { intros p Hp Hl Hu. rewrite count_events_cons, Hl, !count_events_app.
    rewrite (programming_counts_none p hw Hp Hall).
    unfold count_events at 3. cbn [filter]. rewrite Hu. cbn [List.length]. lia. }
  rewrite !Hcnt by (reflexivity || (intros e; now destruct e)).
  unfold wakeup_events, standby_events. rewrite Hg0, Hx5h.
  split; [reflexivity|]. split; [reflexivity|]. split; [reflexivity|].
  intros s.
  change (EvLock :: ?x ++ [EvUnlock]) with ([EvLock] ++ x ++ [EvUnlock]).
  rewrite !receiver_state_app, (programming_keeps_state hw _ Hall). reflexivity.
Qed.

End Streaming.

(** *** The V4M bring-up *)

Lemma set_phypll_result H0 priv body x :
  ascending_table body -> body <> [] -> 0 <= x ->
  returns (if x <=? mbps (last body mbps_sentinel) then 0 else - ERANGE)
    (rcsi2_set_phypll H0 priv (body ++ [mbps_sentinel]) x).
Proof.
  intros Hasc Hne Hx tr.
  assert (Hb : forall e, In e body -> 1 <= mbps e < 2 ^ 16)
    by (intros e He; eapply ascending_bounds; eauto).
  destruct (Z.leb_spec x (mbps (last body mbps_sentinel))) as [Hle|Hgt].
  - destruct (Z_lt_le_dec x (mbps (table_head body))) as [Hlo|Hlo].
    + unfold rcsi2_set_phypll, bind, when. rewrite table_head_app by assumption.
      rewrite mbps_scan_below by (rewrite ?table_head_app by assumption; assumption).
      rewrite table_head_app by assumption.
      assert (Hh : In (table_head body) body) by now apply head_in.
      apply Hb in Hh.
      assert ((mbps (table_head body) =? 0) = false) as -> by (apply Z.eqb_neq; lia).
      destruct (x <? mbps (table_head body)), (has_feature priv H0); reflexivity.
    + destruct (lookup_in_range body x Hasc Hne (conj Hlo Hle)) as (cur & prev & Hscan & Hnz & _).
      rewrite (set_phypll_found H0 priv _ x tr cur prev); auto.
      rewrite table_head_app by assumption. lia.
  - unfold rcsi2_set_phypll, bind, when.
    rewrite mbps_scan_all_below.
    + change (mbps mbps_sentinel =? 0) with true. cbv iota.
      destruct (x <? _); reflexivity.
    + apply Forall_forall. intros e He. pose proof (Hb e He).
      pose proof (ascending_le_last _ _ _ Hasc He). lia.
Qed.

Lemma init_phtw_v4m_result H0 X5H env uninit priv target table :
  hsfreqrange (info priv) = Some table ->
  forall tr, fst (rcsi2_init_phtw_v4m H0 X5H env uninit priv target tr) =
             fst (rcsi2_set_phypll H0 priv table target tr).
Proof.
  intros Htable tr. unfold rcsi2_init_phtw_v4m. rewrite Htable. unfold bind at 1.
  destruct (rcsi2_set_phypll H0 priv table target tr) as [r tr1]. cbn [fst].
  destruct (truthy r) eqn:Hr; [reflexivity|].
  apply truthy_false in Hr. subst r.
  match goal with |- fst (?m ?t) = _ => enough (returns 0 m) by auto end.
  destruct (osc_freq_target (info priv)).
  - apply returns_bind. intros osc. destruct (osc =? 0); [apply returns_ret|].
    apply init_phtw_v4m_tail_result.
  - apply init_phtw_v4m_tail_result.
Qed.

Lemma d_phy_step5_dead X5H env priv :
  rcsi2_phtw_write_array X5H env priv d_phy_step5 = ret 0.
Proof. reflexivity. Qed.

Lemma d_phy_setting_times_out X5H env priv rate :
  never_por env -> returns (- ETIMEDOUT) (rcsi2_d_phy_setting X5H env priv rate).
Proof.
  intros Hnever. unfold rcsi2_d_phy_setting. rewrite d_phy_step5_dead.
  do 2 (apply returns_bind; intros _). rewrite bind_ret.
  change (truthy 0) with false. cbv iota.
  eapply returns_bind_value.
  - apply poll32_never. intros tr. unfold truthy. rewrite Hnever. reflexivity.
  - cbn [negb]. returns_through.
Qed.

Lemma calc_mbps_int X5H env priv b l tr :
  - 2 ^ 31 <= fst (rcsi2_calc_mbps X5H env priv b l tr) < 2 ^ 31.
Proof.
  assert (Hint : forall x, - 2 ^ 31 <= to_int x < 2 ^ 31).
  { intros x. unfold to_int. pose proof (Z.mod_pos_bound (x + 2 ^ 31) (2 ^ 32)). lia. }
  unfold rcsi2_calc_mbps, v4l2_ctrl_pixel_rate.
  destruct (negb (has_feature priv X5H)); [|apply Hint].
  destruct (negb (remote priv)); [cbn; lia|].
  unfold bind. cbv beta.
  destruct (env_pixel_rate env tr); cbn [fst]; [apply Hint|cbn; lia].
Qed.

(** X14.  The D-PHY step of the V4M bring-up sends no PHTW command and
    returns -ETIMEDOUT when the PHY never reports the end of its
    power-on reset; [rcsi2_start_receiver_v4m] drops that result.  Once
    the lane query and the link speed are fine, its result depends on the
    speed and the bus type only: -ERANGE above the last threshold of the
    frequency-range table, otherwise -EINVAL on a C-PHY connection and 0
    on D-PHY, whatever the hardware answers. *)
Theorem X14_v4m_result_ignores_hardware :
  (forall X5H env priv rate,
      never_por env ->
      returns (- ETIMEDOUT) (rcsi2_d_phy_setting X5H env priv rate)) /\
  (forall H0 X5H env uninit priv tr lanes_ format rate tr1 tr2 body,
      rcsi2_get_active_lanes X5H env priv tr = ((0, lanes_), tr1) ->
      rcsi2_code_to_fmt (mf_code (mf priv)) = Some format ->
      rcsi2_calc_mbps X5H env priv (bpp format) lanes_ tr1 = (rate, tr2) ->
      0 <= rate ->
      init_phtw (info priv) = Some rcsi2_init_phtw_v4m_fn ->
      hsfreqrange (info priv) = Some (body ++ [mbps_sentinel]) ->
      ascending_table body -> body <> [] ->
      fst (rcsi2_start_receiver_v4m H0 X5H env uninit priv tr) =
        Returned (if rate <=? mbps (last body mbps_sentinel)
                  then (if cphy_connection priv then - EINVAL else 0)
                  else - ERANGE)).
Proof.
  split; [intros X5H env priv rate; apply d_phy_setting_times_out|].
  intros H0 X5H env uninit priv tr lanes_ format rate tr1 tr2 body
    Hlanes Hfmt Hrate Hpos Hinit Htable Hasc Hne.
  assert (Hu : u32 rate = rate).
  { pose proof (calc_mbps_int X5H env priv (bpp format) lanes_ tr1) as Hb.
    rewrite Hrate in Hb. cbn [fst] in Hb. unfold u32. apply Z.mod_small. lia. }
  unfold rcsi2_start_receiver_v4m.
  unfold bind at 1. rewrite Hlanes. cbn [truthy Z.eqb negb]. rewrite Hfmt.
  unfold bind at 1. rewrite Hrate.
  assert ((rate <? 0) = false) as -> by (apply Z.ltb_ge; lia).
  rewrite Hinit, Hu. cbn [call_init_phtw].
  match goal with |- fst (?m ?t) = _ =>
    enough (returns (Returned (if rate <=? mbps (last body mbps_sentinel)
                               then (if cphy_connection priv then - EINVAL else 0)
                               else - ERANGE)) m) by auto end.
  do 4 (apply returns_bind; intros _).
  apply returns_bind; intros r1. do 1 (apply returns_bind; intros _).
  apply returns_bind; intros r2. do 1 (apply returns_bind; intros _).
  do 5 (apply returns_bind; intros _).
  eapply returns_bind_value.
  - intros t. rewrite (init_phtw_v4m_result H0 X5H env uninit priv rate _ Htable).
    apply set_phypll_result; assumption.
  - destruct (rate <=? mbps (last body mbps_sentinel)).
    + change (truthy 0) with false. cbv iota.
      destruct (cphy_connection priv); cbn [negb]; returns_through.
    + change (truthy (- ERANGE)) with true. cbv iota. apply returns_ret.
Qed.

(** *** Rejected endpoints *)


(** *** The lane map on the wire *)

Lemma lswap_is_programming w e : is_phy_programming e = true -> lswap_writes_are w e = true.
Proof.
  destruct e; try discriminate; try reflexivity. cbn.
  intros H. apply negb_true_iff in H. now rewrite H.
Qed.

Lemma lswap_fields a b c d :
  lane_in_range a = true -> lane_in_range b = true ->
  lane_in_range c = true -> lane_in_range d = true ->
  let w := lswap_word [a; b; c; d] in
  0 <= w < 256 /\
  lswap_field w 0 = a - 1 /\ lswap_field w 1 = b - 1 /\
  lswap_field w 2 = c - 1 /\ lswap_field w 3 = d - 1.
Proof.
  assert (Hr : forall v, lane_in_range v = true -> v = 1 \/ v = 2 \/ v = 3 \/ v = 4).
  { intros v H. unfold lane_in_range in H. apply andb_prop in H as [H1 H2].
    apply Z.leb_le in H1, H2. lia. }
  intros Ha Hb Hc Hd.
  destruct (Hr a Ha) as [->|[->|[->| ->]]]; destruct (Hr b Hb) as [->|[->|[->| ->]]];
    destruct (Hr c Hc) as [->|[->|[->| ->]]]; destruct (Hr d Hd) as [->|[->|[->| ->]]];
    vm_compute; repeat split; intros H; discriminate H.
Qed.

(** X16.  Every write of [rcsi2_start_receiver] to LSWAP_REG carries
    the lane map as one word: with four physical lane numbers in 1..4
    the word fits a byte and its 2-bit field [i] holds lane number [i]
    minus one, so the four numbers can be read back from it. *)
Theorem X16_lswap_encoding :
  forall H0 X5H env uninit priv a b c d,
    lane_swap priv = [a; b; c; d] ->
    forallb lane_in_range [a; b; c; d] = true ->
    let w := lswap_word [a; b; c; d] in
    emits (lswap_writes_are w) (rcsi2_start_receiver H0 X5H env uninit priv) /\
    0 <= w < 256 /\
    map (fun i => lswap_field w i + 1) [0; 1; 2; 3] = lane_swap priv.
Proof.
  intros H0 X5H env uninit priv a b c d Hls Hin w. split.
  - unfold rcsi2_start_receiver. rewrite Hls. fold (lswap_word [a; b; c; d]). fold w.
    pose proof (get_active_lanes_phy X5H env) as Hlanes.
    pose proof (calc_mbps_phy X5H env) as Hcalc.
    pose proof (call_init_phtw_phy H0 X5H env uninit) as Hinit.
    pose proof (set_phypll_phy H0) as Hpll.
    pose proof (wait_phy_start_phy X5H env) as Hwait.
    pose proof (call_phy_post_init_phy X5H env) as Hpost.
    emits_steps (lswap_is_programming w); auto.
  - cbn [forallb] in Hin.
    apply andb_prop in Hin as [Ha Hin]. apply andb_prop in Hin as [Hb Hin].
    apply andb_prop in Hin as [Hc Hin]. apply andb_prop in Hin as [Hd _].
    destruct (lswap_fields a b c d Ha Hb Hc Hd) as (Hw & F0 & F1 & F2 & F3).
    split; [exact Hw|]. rewrite Hls. cbn [map]. fold w in F0, F1, F2, F3.
    rewrite F0, F1, F2, F3. repeat f_equal; lia.
Qed.

(** *** The stop-state confirmation *)

Lemma poll32_never_run env reg_ ready n :
  (forall tr, ready (u32 (env_ioread32 env tr reg_)) = false) ->
  forall tr, exists polls,
    poll32 env reg_ ready n tr = (false, tr ++ polls) /\
    forallb is_polling polls = true /\
    count_events is_sleep polls = n /\
    count_events is_reg_read polls = n.
Proof.
  intros Hnever. induction n as [|n IH]; intros tr.
  - exists []. rewrite app_nil_r. repeat split.
  - cbn [poll32]. unfold bind, rcsi2_read. rewrite Hnever.
    unfold usleep_range, emit.
    destruct (IH ((tr ++ [EvRead32 reg_ (u32 (env_ioread32 env tr reg_))]) ++
                  [EvSleep 1000 2000])) as (polls & Hrun & Hall & Hs & Hr).
    rewrite Hrun.
    exists (EvRead32 reg_ (u32 (env_ioread32 env tr reg_)) :: EvSleep 1000 2000 :: polls).
    split; [rewrite <- !app_assoc; reflexivity|].
    split; [exact Hall|].
    rewrite !count_events_cons. cbn [is_sleep is_reg_read]. split; lia.
Qed.

(** X17.  The stop-state wait that [rcsi2_start] runs on V4H and V4M
    after the source has started returns -ETIMEDOUT, after ten reads of
    ST_PHYST and ten sleeps and without a log line, when the lanes never
    all show the stop state; [rcsi2_start] drops that result.  Whenever
    the receiver bring-up returns 0 and the source answers 0,
    [rcsi2_start] returns 0. *)
Theorem X17_stop_state_wait_is_advisory :
  (forall env tr,
      never_stopstate env ->
      exists polls,
        rcsi2_wait_phy_start_v4h env tr = (- ETIMEDOUT, tr ++ polls) /\
        forallb is_polling polls = true /\
        count_events is_sleep polls = 10%nat /\
        count_events is_reg_read polls = 10%nat) /\
  (forall G0 H0 X5H env uninit priv tr tr1,
      start_receiver_of G0 H0 X5H env uninit priv (tr ++ wakeup_events X5H priv) =
        (Returned 0, tr1) ->
      fst (source_start X5H env priv (tr1 ++ [link_programmed])) = 0 ->
      fst (rcsi2_start G0 H0 X5H env uninit priv tr) = Returned 0).
Proof.
  split.
  - intros env tr Hnever. unfold rcsi2_wait_phy_start_v4h, bind.
    destruct (poll32_never_run env ST_PHYST v4h_stopstate 10 Hnever tr)
      as (polls & Hrun & Hall & Hs & Hr).
    rewrite Hrun. exists polls. repeat split; assumption.
  - intros G0 H0 X5H env uninit priv tr tr1 Hrecv Hsrc.
    unfold rcsi2_start. unfold bind at 1. rewrite exit_standby_eq.
    fold (wakeup_events X5H priv). fold (start_receiver_of G0 H0 X5H env uninit priv).
    unfold bind at 1. rewrite Hrecv. change (truthy 0) with false. cbv iota.
    unfold bind at 1. unfold dev_dbg, emit at 1. cbv beta iota.
    fold link_programmed. fold (source_start X5H env priv).
    unfold bind at 1.
    destruct (source_start X5H env priv (tr1 ++ [link_programmed])) as [r t].
    cbn [fst] in Hsrc. subst r. change (truthy 0) with false. cbv iota.
    match goal with |- fst (?m ?t) = _ => enough (returns (Returned 0) m) by auto end.
    returns_through.
Qed.

(** ** The further properties on concrete inputs *)

Lemma X2_witness :
  rcsi2_notify_bound priv_h3 (-1) 0 [] =
    ((-1, priv_h3), [EvLog KERN_ERR "Failed to find pad for %s" []]) /\
  rcsi2_notify_bound priv_h3 1 (- EINVAL) [] =
    ((- EINVAL, set_remote priv_h3 true), [EvLog KERN_DEBUG "Bound %s pad: %d" [1]]) /\
  rcsi2_s_stream G0_BIT H0_BIT X5H_BIT env_ready 0 (set_remote priv_h3_streaming false) 0
    [EvLog KERN_DEBUG "Unbind %s" []] =
    ((Returned (- ENODEV), set_remote priv_h3_streaming false),
     [EvLog KERN_DEBUG "Unbind %s" []; EvLock; EvUnlock]).
Proof.
  split; [|split].
  - apply (proj1 (X2_binding_of_the_source G0_BIT H0_BIT X5H_BIT env_ready 0
                    priv_h3 (-1) 0 0 [])). lia.
  - apply (proj1 (proj2 (X2_binding_of_the_source G0_BIT H0_BIT X5H_BIT env_ready 0
                           priv_h3 1 (- EINVAL) 0 []))). lia.
  - apply (proj2 (proj2 (proj2 (X2_binding_of_the_source G0_BIT H0_BIT X5H_BIT env_ready 0
                                  priv_h3_streaming 0 0 0 [])))). reflexivity.
Defined.

Lemma X4_witness :
  exists r lanes_ evs,
    rcsi2_get_active_lanes X5H_BIT env_ready priv_h3 [] = ((r, lanes_), [] ++ evs) /\
    forallb is_quiet evs = true /\
    (r = 0 -> lanes_ = lanes priv_h3 \/ (1 <= lanes_ <= 4 /\ lanes_ <= lanes priv_h3)) /\
    (r <> 0 -> lanes_ = lanes priv_h3 /\ count_events is_error_log evs = 1%nat).
Proof.
  apply (X4_active_lanes_bounded X5H_BIT env_ready priv_h3 []). simpl. lia.
Defined.

Lemma X5_witness :
  fst (rcsi2_wait_phy_start X5H_BIT env_silent priv_h3 4 []) = - ETIMEDOUT.
Proof.
  destruct (X5_wait_phy_start_bounded X5H_BIT env_silent priv_h3 4 [])
    as (r & evs & Hrun & _ & _ & _ & _ & _ & Hnever).
  rewrite Hrun. apply Hnever.
  - intros tr. reflexivity.
  - reflexivity.
Defined.

Lemma X7_witness :
  exists e,
    In e example_table /\
    (forall e', In e' example_table -> Z.abs (mbps e - 200) <= Z.abs (mbps e' - 200)) /\
    rcsi2_phtw_write_mbps X5H_BIT env_ready priv_v3m 200
      (example_table ++ [mbps_sentinel]) 0x44 [] =
      rcsi2_phtw_write X5H_BIT env_ready priv_v3m (reg e) 0x44 [] /\
    fst (rcsi2_phtw_write_mbps X5H_BIT env_ready priv_v3m 200
           (example_table ++ [mbps_sentinel]) 0x44 []) <> - ERANGE.
Proof.
  apply (X7_phtw_write_mbps_clamps X5H_BIT env_ready priv_v3m example_table 200 0x44 []).
  - reflexivity.
  - discriminate.
  - lia.
Defined.

Lemma X9_witness :
  1500 < msps (cphy_scan 1500 cphy_setting_table_r8a779g0) /\
  rcsi2_c_phy_setting env_ready priv_v4h_cphy 3500 [] =
    (- ERANGE,
     [EvLog KERN_ERR "Unsupported PHY speed for mpsp setting (%u Msps)" [3500]]).
Proof.
  split.
  - apply (proj1 X9_cphy_setting_lookup 1500). lia.
  - apply (proj2 X9_cphy_setting_lookup env_ready priv_v4h_cphy 3500 []). lia.
Defined.

Lemma X10_witness :
  exists res evs,
    rcsi2_start G0_BIT H0_BIT X5H_BIT env_ready 0 priv_h3 [] = (res, [] ++ evs) /\
    count_events is_pm_get evs = 1%nat /\
    count_events is_reset_deassert evs =
      (if has_feature priv_h3 X5H_BIT then 0 else 1)%nat /\
    count_events is_lock_event evs = 0%nat /\
    (count_events is_source_start evs <= 1)%nat /\
    match res with
    | Returned 0 =>
        count_events is_pm_put evs = 0%nat /\
        count_events is_reset_assert evs = 0%nat /\
        count_events is_source_start evs = 1%nat /\
        forall s, receiver_state_of s ([] ++ evs) = Active
    | Returned _ =>
        count_events is_pm_put evs = 1%nat /\
        count_events is_reset_assert evs =
          (if has_feature priv_h3 X5H_BIT then 0 else 1)%nat /\
        forall s, receiver_state_of s ([] ++ evs) = Standby
    | Oops => count_events is_pm_put evs = 0%nat
    end.
Proof.
  apply (X10_start_is_balanced G0_BIT H0_BIT X5H_BIT env_ready 0 priv_h3 []).
  reflexivity.
Defined.


Lemma X12_witness :
  power_follows_count (snd (fst first_start), snd first_start).
Proof.
  apply (X12_power_follows_count G0_BIT H0_BIT X5H_BIT env_ready 0
           (priv_h3, []) (snd (fst first_start), snd first_start)).
  - split; [vm_compute; split; discriminate|reflexivity].
  - apply (paired_cons G0_BIT H0_BIT X5H_BIT env_ready 0
             (priv_h3, []) (priv_h3, []) (snd (fst first_start), snd first_start)).
    + apply paired_nil.
    + apply (paired_call G0_BIT H0_BIT X5H_BIT env_ready 0 priv_h3 [] 1 0).
      * vm_compute. reflexivity.
      * intros H. discriminate H.
      * intros _. vm_compute. reflexivity.
Defined.

Lemma X13_witness :
  exists r evs,
    rcsi2_s_stream G0_BIT H0_BIT X5H_BIT env_silent 0 priv_h3 1 [] =
      ((Returned r, priv_h3), [] ++ evs) /\
    r <> 0 /\
    count_events is_source_start evs = 0%nat /\
    count_events is_pm_get evs = 1%nat /\
    count_events is_pm_put evs = 1%nat /\
    forall s, receiver_state_of s ([] ++ evs) = Standby.
Proof.
  apply (X13_gen3_lp11_timeout_fails_start G0_BIT H0_BIT X5H_BIT env_silent 0 priv_h3 1 []);
    try reflexivity.
  intros tr. reflexivity.
Defined.

Lemma X14_witness :
  fst (rcsi2_d_phy_setting X5H_BIT env_silent priv_v4m 600 []) = - ETIMEDOUT /\
  fst (rcsi2_start_receiver_v4m H0_BIT X5H_BIT env_silent 0 priv_v4m []) = Returned 0.
Proof.
  split.
  - apply (proj1 X14_v4m_result_ignores_hardware X5H_BIT env_silent priv_v4m 600).
    intros tr. reflexivity.
  - apply (proj2 X14_v4m_result_ignores_hardware H0_BIT X5H_BIT env_silent 0 priv_v4m []
             4 (FMT MEDIA_BUS_FMT_RGB888_1X24 0x24 24) 600
             (snd (rcsi2_get_active_lanes X5H_BIT env_silent priv_v4m []))
             (snd (rcsi2_calc_mbps X5H_BIT env_silent priv_v4m 24 4
                     (snd (rcsi2_get_active_lanes X5H_BIT env_silent priv_v4m []))))
             (removelast hsfreqrange_v4m)).
    + reflexivity.
    + reflexivity.
    + reflexivity.
    + lia.
    + reflexivity.
    + reflexivity.
    + reflexivity.
    + discriminate.
Defined.


Lemma X16_witness :
  emits (lswap_writes_are (lswap_word [1; 2; 3; 4]))
    (rcsi2_start_receiver H0_BIT X5H_BIT env_ready 0 priv_h3) /\
  0 <= lswap_word [1; 2; 3; 4] < 256 /\
  map (fun i => lswap_field (lswap_word [1; 2; 3; 4]) i + 1) [0; 1; 2; 3] =
    lane_swap priv_h3.
Proof.
  apply (X16_lswap_encoding H0_BIT X5H_BIT env_ready 0 priv_h3 1 2 3 4); reflexivity.
Defined.

Lemma X17_witness :
  (exists polls,
      rcsi2_wait_phy_start_v4h env_silent [] = (- ETIMEDOUT, [] ++ polls) /\
      forallb is_polling polls = true /\
      count_events is_sleep polls = 10%nat /\
      count_events is_reg_read polls = 10%nat) /\
  fst (rcsi2_start G0_BIT H0_BIT X5H_BIT env_silent 0 priv_v4h_cphy []) = Returned 0.
Proof.
  split.
  - apply (proj1 X17_stop_state_wait_is_advisory env_silent []).
    intros tr. reflexivity.
  - apply (proj2 X17_stop_state_wait_is_advisory G0_BIT H0_BIT X5H_BIT env_silent 0
             priv_v4h_cphy []
             (snd (start_receiver_of G0_BIT H0_BIT X5H_BIT env_silent 0 priv_v4h_cphy
                     ([] ++ wakeup_events X5H_BIT priv_v4h_cphy)))).
    + vm_compute. reflexivity.
    + vm_compute. reflexivity.
Defined.
